(** * Waiting, retrying and tour interpretation in [galaxy.selenium.navigates_galaxy]

    A shallow embedding of the algorithmic core of
    [lib/galaxy/selenium/navigates_galaxy.py]: the transition classifier,
    [retry_call_during_transitions], the wait-length catalog, the history
    state poller, the history item visibility waiter and the tour
    interpreter.

    The browser driver, the HTTP API and the tour callback are external
    collaborators.  Every interaction with them is appended to a [history]
    of [event]s, and what they answer is given by an environment [Env] that
    may inspect the whole history so far.  Python code is written in a small
    state-and-exception monad [M]; [while True] loops run on the fuel the
    monad carries. *)

From Stdlib Require Import QArith SpecFloat.
From stdpp Require Import gmap strings list pretty.

Local Open Scope Z_scope.

(** ** Python values, exceptions and results *)

Inductive pyvalue :=
| PyNone
| PyInt (z : Z)
| PyStr (s : string).

(** The exception classes the embedded code raises or catches.  Any failure
    of the driver other than a timeout is a [WebDriverException]. *)
Inductive exception :=
| TimeoutException (msg : string)
| AssertionError (msg : string)
| UnboundLocalError (var : string)
| ValueError (msg : string)
| IndexError (msg : string)
| WebDriverException (msg : string).

Inductive result (A : Type) :=
| Return (a : A)
| Raise (e : exception)
| OutOfFuel.
Arguments Return {A} a.
Arguments Raise {A} e.
Arguments OutOfFuel {A}.

(** ** Python floats

    A Python [float] is an IEEE 754 binary64 number: 53 bits of precision,
    exponents below 1024.  [spec_float] of the Standard Library gives the
    values (zeros, infinities, NaN and the finite [±m * 2^e]) and the
    arithmetic, which rounds to the nearest value, ties to even. *)
Definition float : Type := spec_float.

Definition float_prec : Z := 53.
Definition float_emax : Z := 1024.

(** [x * y] and [x + y] *)
Definition float_mul (x y : float) : float := SFmul float_prec float_emax x y.
Definition float_add (x y : float) : float := SFadd float_prec float_emax x y.

(** [x < y] and [x == y]: false as soon as one of them is NaN. *)
Definition float_ltb (x y : float) : bool := SFltb x y.
Definition float_eqb (x y : float) : bool := SFeqb x y.

(** [float(z)] of an int [z] *)
Definition float_of_Z (z : Z) : float := binary_normalize float_prec float_emax z 0 false.

(** ** Data of the page objects *)

(** [WaitType = collections.namedtuple("WaitType", ["name", "default_length"])].
    The only use of a [default_length] is its product with the float
    [timeout_multiplier], which takes an int as the float of the same value:
    the lengths are kept as floats. *)
Record WaitType := { name : string; default_length : float }.

Record web_element := { element_ref : string }.

Record history_item := {
  item_hid : Z;
  item_id : string;
  item_history_content_type : string }.

(** Selectors built from the component tree ([self.components...],
    [self.navigation...]).  The attribute suffix of
    [content_item_by_attributes] is kept as its list of key/value pairs. *)
Inductive attr_value := AttrInt (z : Z) | AttrStr (s : string).

Inductive selector :=
| HistoryPanelItem (history_content_type id : string)
| MultiHistoryViewItem (history_content_type id : string)
| HistoryPanelContentItem (attrs : list (string * attr_value))
| HistoryPanelRefreshButton
| HistoryPanelContents.

(** A tour step: the YAML record with its optional keys.  [step.get(k, [])]
    of an absent [preclick]/[postclick] is the empty list. *)
Record step := {
  title : option string;
  preclick : list string;
  element : option string;
  textinsert : option string;
  postclick : list string }.

(** ** Interactions with the outside *)

Inductive event :=
| Sleep (seconds : Q)                          (* time.sleep(seconds) *)
| Invoke (op : string)                         (* a call of an opaque operation f() *)
| NewWait (timeout : float)                    (* self.wait(timeout=timeout) *)
| ReadClock                                    (* the wait reads the time *)
| CurrentHistoryJson                           (* GET history/current_history_json *)
| ApiGet (endpoint : string)                   (* GET api/<endpoint> *)
| IsBetaHistory                                (* components.history_panel.beta.is_absent *)
| WaitForVisible (sel : selector) (wait_type : WaitType)
| WaitForClickable (sel : selector)
| Click (el : web_element)                     (* element.click() *)
| FindElements (sel : selector)
| GetAttribute (el : web_element) (attr : string)
| SizzleClickable (sel : string)               (* one evaluation of sizzle_selector_clickable *)
| SizzlePresent (sel : string)                 (* one evaluation of sizzle_presence_of_selector *)
| SendKeys (el : web_element) (text : string)  (* element.send_keys(text) *)
| HandleStep (st : step) (step_index : nat)    (* tour_callback.handle_step(step, i) *)
| Home                                         (* self.home() *)
| LoadTour (path : string).                    (* open(path) and yaml.safe_load *)

Definition history := list event.

(** What the collaborators answer, as a function of everything that
    happened before the call, together with the pieces of [has_driver]
    (not part of the sources at hand) that the code relies on: the two
    exception classifiers, the interval at which a wait polls and the
    wording of its timeout message. *)
Class Env := {
  env_invoke : history → string → result pyvalue;
  env_clock : history → float;
  env_current_history_id : history → result string;
  env_history_state : history → string → result string;
  env_history_contents : history → string → result (list history_item);
  env_is_beta_history : history → result bool;
  env_wait_for_visible : history → selector → WaitType → result web_element;
  env_wait_for_clickable : history → selector → result web_element;
  env_click : history → web_element → result unit;
  env_find_elements : history → selector → result (list web_element);
  env_get_attribute : history → web_element → string → result string;
  env_sizzle_clickable : history → string → result (option web_element);
  env_sizzle_present : history → string → result (option web_element);
  env_send_keys : history → web_element → string → result unit;
  env_handle_step : history → step → nat → result unit;
  env_home : history → result unit;
  env_load_tour : history → string → result (list step);
  exception_indicates_stale_element : exception → bool;
  exception_indicates_not_clickable : exception → bool;
  poll_interval : Q;
  _timeout_message : string → string }.

(** ** The monad *)

(** A computation gets the fuel for its loops and the history so far, and
    gives a result and the extended history. *)
Definition M (A : Type) : Type := nat → history → result A * history.

Definition ret {A} (a : A) : M A := λ _ h, (Return a, h).

Definition raise {A} (e : exception) : M A := λ _ h, (Raise e, h).

Definition bind {A B} (m : M A) (k : A → M B) : M B := λ fuel h,
  match m fuel h with
  | (Return a, h') => k a fuel h'
  | (Raise e, h') => (Raise e, h')
  | (OutOfFuel, h') => (OutOfFuel, h')
  end.

Notation "'let!' x ':=' m 'in' k" := (bind m (λ x, k))
  (at level 10, x name, k at level 200,
   format "'[v' 'let!'  x  :=  m  'in' '/' k ']'").
Notation "m ;;; k" := (bind m (λ _, k))
  (at level 100, k at level 200, right associativity,
   format "'[v' m  ;;; '/' k ']'").

(** [try: m  except Exception as e: handler e] *)
Definition try_except {A} (m : M A) (handler : exception → M A) : M A := λ fuel h,
  match m fuel h with
  | (Raise e, h') => handler e fuel h'
  | r => r
  end.

(** [for x in xs: body x] *)
Fixpoint for_each {A} (xs : list A) (body : A → M unit) : M unit :=
  match xs with
  | [] => ret tt
  | x :: xs' => body x ;;; for_each xs' body
  end.

(** [enumerate(xs)] *)
Fixpoint enumerate_from {A} (i : nat) (xs : list A) : list (nat * A) :=
  match xs with
  | [] => []
  | x :: xs' => (i, x) :: enumerate_from (S i) xs'
  end.
Definition enumerate {A} (xs : list A) : list (nat * A) := enumerate_from 0 xs.

(** [while True:] over a loop variable.  The body either continues with a
    new value of the variable ([inl]) or leaves the loop with a value
    ([inr]); each round costs one unit of fuel. *)
Fixpoint iterate {St A} (body : St → M (St + A)) (rounds : nat) (s : St) : M A := λ fuel h,
  match rounds with
  | O => (OutOfFuel, h)
  | S rounds' =>
      match body s fuel h with
      | (Return (inl s'), h') => iterate body rounds' s' fuel h'
      | (Return (inr a), h') => (Return a, h')
      | (Raise e, h') => (Raise e, h')
      | (OutOfFuel, h') => (OutOfFuel, h')
      end
  end.

Definition while_true {St A} (body : St → M (St + A)) (s : St) : M A :=
  λ fuel h, iterate body fuel s fuel h.

(** A call to a collaborator: log the event, take the answer the
    environment gives for the history before the call. *)
Definition perform {A} (ev : event) (answer : history → result A) : M A :=
  λ _ h, (answer h, h ++ [ev]).

(** [time.sleep(seconds)]: a negative length is a [ValueError]. *)
Definition time_sleep (seconds : Q) : M unit :=
  if Qlt_le_dec seconds 0
  then raise (ValueError "sleep length must be non-negative")
  else perform (Sleep seconds) (λ _, Return tt).

(** [assert cond] without a message *)
Definition assert (cond : bool) : M unit :=
  if cond then ret tt else raise (AssertionError EmptyString).

(** ** Transition classifier and retry executor *)

Definition exception_seems_to_indicate_transition `{Env} (e : exception) : bool :=
  exception_indicates_stale_element e || exception_indicates_not_clickable e.

Definition RETRY_DURING_TRANSITIONS_SLEEP_DEFAULT : Q := 1 # 10.
Definition RETRY_DURING_TRANSITIONS_ATTEMPTS_DEFAULT : Z := 10.

(** The body of the [while True] loop of [retry_call_during_transitions]:
    [return f()] under [try], and the [except Exception as e] clause that
    re-raises or sleeps and counts the attempt. *)
Definition retry_round {A} (f : M A) (attempts : Z) (sleep : Q)
    (exception_check : exception → bool) (previous_attempts : Z) : M (Z + A) :=
  try_except
    (let! a := f in ret (inr a))
    (λ e,
      if previous_attempts >? attempts then raise e
      else if negb (exception_check e) then raise e
      else
        time_sleep sleep ;;;
        ret (inl (previous_attempts + 1))).

Definition retry_call_during_transitions {A} (f : M A) (attempts : Z) (sleep : Q)
    (exception_check : exception → bool) : M A :=
  while_true (retry_round f attempts sleep exception_check) 0.

(** The decorator [retry_during_transitions] with its default arguments. *)
Definition retry_during_transitions `{Env} {A} (f : M A) : M A :=
  retry_call_during_transitions f RETRY_DURING_TRANSITIONS_ATTEMPTS_DEFAULT
    RETRY_DURING_TRANSITIONS_SLEEP_DEFAULT exception_seems_to_indicate_transition.

(** ** Wait lengths *)

Module WAIT_TYPES.
Definition DATABASE_OPERATION :=
  {| name := "database_operation"; default_length := float_of_Z 10 |}.
Definition JOB_COMPLETION := {| name := "job_completion"; default_length := float_of_Z 30 |}.

End WAIT_TYPES.

Definition DEFAULT_WAIT_TYPE := WAIT_TYPES.DATABASE_OPERATION.

(** The fields of [self] the embedded methods read. *)
Record NavigatesGalaxy := { timeout_multiplier : float }.

Definition wait_length (self : NavigatesGalaxy) (wait_type : WaitType) : float :=
  float_mul (default_length wait_type) (timeout_multiplier self).

Definition timeout_for (self : NavigatesGalaxy) (wait_type : WaitType) : float :=
  wait_length self wait_type.

(** ** PollUntil *)

Section Core.
Context `{E : Env}.

Definition now : M float := perform ReadClock (λ h, Return (env_clock h)).

(** Modelled from the spec: one round of the loop of [poll_until] below. *)
Definition poll_round {A} (condition : M (option A)) (deadline : float) (context : string)
    : M (unit + A) :=
  let! r := condition in
  match r with
  | Some value => ret (inr value)
  | None =>
      let! t := now in
      if float_ltb deadline t then raise (TimeoutException context)
      else
        time_sleep poll_interval ;;;
        ret (inl tt)
  end.

(** Modelled from the spec: [self.wait(timeout=timeout).until(condition, message)].
    [HasDriver.wait] and the wait object it returns are not part of the
    sources at hand.  Compute the deadline as now plus the timeout; then
    evaluate the condition: a result other than "not ready" ([Some]) is
    returned at once; on "not ready", if now is past the deadline raise the
    timeout error carrying the context, otherwise sleep the poll interval
    and repeat.  The clock and the timeout are floats, as the results of
    [time.monotonic()] and of [timeout_for] are: the deadline is their float
    sum, and it has passed when [deadline < now] holds of the floats. *)
Definition poll_until {A} (condition : M (option A)) (timeout : float) (context : string)
    : M A :=
  perform (NewWait timeout) (λ _, Return tt) ;;;
  let! start := now in
  let deadline := float_add start timeout in
  while_true (λ _ : unit, poll_round condition deadline context) tt.

(** Modelled from the spec: [HasDriver.prepend_timeout_message] (not part
    of the sources at hand) enriches a timeout error: the message is put in
    front of the original one. *)
Definition prepend_timeout_message (e : exception) (message : string) : exception :=
  match e with
  | TimeoutException msg => TimeoutException (message +:+ msg)
  | _ => e
  end.

(** ** HTTP API *)

Definition current_history_id : M string :=
  perform CurrentHistoryJson env_current_history_id.


(** [self.api_get(f"histories/{history_id}/contents")] *)
Definition api_get_history_contents (history_id : string) : M (list history_item) :=
  perform (ApiGet ("histories/" +:+ history_id +:+ "/contents"))
    (λ h, env_history_contents h history_id).

(** ** History state poller *)




(** ** Driver operations *)

(** The methods of [HasDriver] and of the driver's elements used below
    ([wait_for_visible], [wait_for_clickable], [find_elements], [click],
    [send_keys], [get_attribute]) and [self.home()] are calls to the
    outside: the environment answers them. *)

(** A call [f()] of an operation that lives outside of the embedded code. *)
Definition invoke (op : string) : M pyvalue :=
  perform (Invoke op) (λ h, env_invoke h op).

Definition wait_for_visible (self : NavigatesGalaxy) (sel : selector) (wait_type : WaitType)
    : M web_element :=
  perform (WaitForVisible sel wait_type) (λ h, env_wait_for_visible h sel wait_type).

Definition wait_for_clickable (self : NavigatesGalaxy) (sel : selector) : M web_element :=
  perform (WaitForClickable sel) (λ h, env_wait_for_clickable h sel).

Definition click (el : web_element) : M unit :=
  perform (Click el) (λ h, env_click h el).

Definition send_keys (el : web_element) (text : string) : M unit :=
  perform (SendKeys el text) (λ h, env_send_keys h el text).

Definition find_elements (sel : selector) : M (list web_element) :=
  perform (FindElements sel) (λ h, env_find_elements h sel).

Definition get_attribute (el : web_element) (attr : string) : M string :=
  perform (GetAttribute el attr) (λ h, env_get_attribute h el attr).

Definition is_beta_history : M bool := perform IsBetaHistory env_is_beta_history.

Definition home : M unit := perform Home env_home.

(** [@retry_during_transitions def wait_for_and_click(self, selector_template)] *)
Definition wait_for_and_click (self : NavigatesGalaxy) (selector_template : selector)
    : M web_element :=
  retry_during_transitions
    (let! el := wait_for_clickable self selector_template in
     click el ;;;
     ret el).

Definition history_panel_refresh_click (self : NavigatesGalaxy) : M unit :=
  wait_for_and_click self HistoryPanelRefreshButton ;;;
  ret tt.

(** ** History item visibility waiter *)

Definition content_item_by_attributes (attrs : list (string * attr_value)) : selector :=
  HistoryPanelContentItem attrs.

Definition hid_to_history_item (hid : Z) (current_history_id' : option string)
    : M history_item :=
  let! current_history_id :=
    match current_history_id' with
    | None => current_history_id
    | Some i => ret i
    end in
  let! contents := api_get_history_contents current_history_id in
  match filter (λ d, item_hid d = hid) contents with
  | history_item :: _ => ret history_item
  | [] => raise (IndexError "list index out of range")
  end.

(** [assert hid]: [None] and [0] are falsy. *)
Definition truthy_hid (hid : option Z) : bool :=
  match hid with
  | Some z => negb (z =? 0)
  | None => false
  end.

Definition history_panel_item_component (self : NavigatesGalaxy)
    (history_item' : option history_item) (hid : option Z) (multi_history_panel : bool)
    : M selector :=
  let! beta := is_beta_history in
  if beta : bool then
    assert (truthy_hid hid) ;;;
    ret (content_item_by_attributes [("hid", AttrInt (default 0 hid))])
  else
    let! history_item :=
      match history_item' with
      | None =>
          assert (truthy_hid hid) ;;;
          hid_to_history_item (default 0 hid) None
      | Some it => ret it
      end in
    let item := if multi_history_panel then MultiHistoryViewItem else HistoryPanelItem in
    ret (item (item_history_content_type history_item) (item_id history_item)).

(** Python's [str] of a list of integers. *)
Definition str_of_hids (hids : list Z) : string :=
  "[" +:+ String.concat ", " (pretty <$> hids) +:+ "]".

Definition is_timeout (e : exception) : bool :=
  match e with
  | TimeoutException _ => true
  | _ => false
  end.

Definition wait_for_history_to_have_hid (self : NavigatesGalaxy) (history_id : string) (hid : Z)
    : M unit :=
  let get_hids : M (list Z) :=
    let! contents := api_get_history_contents history_id in
    ret (item_hid <$> contents) in
  let history_has_hid : M (option unit) :=
    let! hids := get_hids in
    ret (if existsb (λ h, h =? hid) hids then Some tt else None) in
  let timeout := timeout_for self WAIT_TYPES.JOB_COMPLETION in
  try_except
    (poll_until history_has_hid timeout EmptyString)
    (λ e,
      if is_timeout e then
        let! hids := get_hids in
        let message := "Timeout waiting for history " +:+ history_id +:+ " to have hid "
                       +:+ pretty hid +:+ " - have hids " +:+ str_of_hids hids in
        raise (prepend_timeout_message e message)
      else raise e).

(** The body of the [while True] loop of [history_item_wait_for]: the
    [try] statement with its [break], then counting the attempt and
    clicking refresh. *)
Definition history_item_wait_for_round (self : NavigatesGalaxy)
    (history_item_selector : selector) (allowed_force_refreshes : Z) (attempt : Z)
    : M (Z + web_element) :=
  let! r :=
    try_except
      (let! rval := wait_for_visible self history_item_selector WAIT_TYPES.JOB_COMPLETION in
       ret (Some rval))
      (λ e,
        if is_timeout e then
          if attempt >=? allowed_force_refreshes then raise e else ret None
        else raise e) in
  match r with
  | Some rval => ret (inr rval)
  | None =>
      history_panel_refresh_click self ;;;
      ret (inl (attempt + 1))
  end.

Definition history_item_wait_for (self : NavigatesGalaxy) (history_item_selector : selector)
    (allowed_force_refreshes : Z) : M web_element :=
  while_true (history_item_wait_for_round self history_item_selector allowed_force_refreshes) 0.

Definition history_panel_wait_for_hid_visible (self : NavigatesGalaxy) (hid : Z)
    (allowed_force_refreshes : Z) (multi_history_panel : bool) : M selector :=
  let! current_history_id := current_history_id in
  wait_for_history_to_have_hid self current_history_id hid ;;;
  let! history_item := hid_to_history_item hid (Some current_history_id) in
  let! history_item_selector :=
    history_panel_item_component self (Some history_item) (Some hid) multi_history_panel in
  try_except
    (history_item_wait_for self history_item_selector allowed_force_refreshes ;;; ret tt)
    (λ e,
      if is_timeout e then
        let! contents_elements := find_elements HistoryPanelContents in
        let! div_ids :=
          (fix ids (ds : list web_element) : M (list string) :=
             match ds with
             | [] => ret []
             | d :: ds' =>
                 let! i := get_attribute d "id" in
                 let! rest := ids ds' in
                 ret (("#" +:+ i) :: rest)
             end) contents_elements in
        let message := "Failed waiting on history item " +:+ pretty hid
                       +:+ " to become visible, visible datasets include ["
                       +:+ String.concat "," div_ids +:+ "]." in
        raise (prepend_timeout_message e message)
      else raise e) ;;;
  ret history_item_selector.

(** ** Tour interpreter *)

(** The callback interface: an object with a [handle_step] method. *)
Record TourCallback := { handle_step : step → nat → M unit }.

Definition NullTourCallback : TourCallback :=
  {| handle_step := λ _ _, ret tt |}.

(** A callback living outside of the embedded code: its calls are logged
    and the environment decides whether they return or raise. *)
Definition external_callback : TourCallback :=
  {| handle_step := λ st i, perform (HandleStep st i) (λ h, env_handle_step h st i) |}.

Definition tour_wait_for_clickable_element (self : NavigatesGalaxy) (sel : string)
    : M web_element :=
  let timeout := timeout_for self WAIT_TYPES.JOB_COMPLETION in
  let timeout_message :=
    _timeout_message ("sizzle (jQuery) selector [" +:+ sel +:+ "] to become clickable") in
  poll_until (perform (SizzleClickable sel) (λ h, env_sizzle_clickable h sel))
    timeout timeout_message.

Definition tour_wait_for_element_present (self : NavigatesGalaxy) (sel : string)
    : M web_element :=
  let timeout := timeout_for self WAIT_TYPES.JOB_COMPLETION in
  let timeout_message :=
    _timeout_message ("sizzle (jQuery) selector [" +:+ sel +:+ "] to become present") in
  poll_until (perform (SizzlePresent sel) (λ h, env_sizzle_present h sel))
    timeout timeout_message.

(** [@retry_during_transitions def _tour_wait_for_and_click_element(self, selector)] *)
Definition _tour_wait_for_and_click_element (self : NavigatesGalaxy) (sel : string) : M unit :=
  retry_during_transitions
    (let! el := tour_wait_for_clickable_element self sel in
     click el).

(** The local variable [element] is bound only when the step has an
    [element] key; reading it unbound is an [UnboundLocalError].  (The
    [print] calls are left out, and [assert element is not None] cannot
    fail since the wait returns an element.) *)
Definition run_tour_step (self : NavigatesGalaxy) (st : step) (step_index : nat)
    (tour_callback : TourCallback) : M unit :=
  for_each (preclick st) (λ preclick_selector,
    _tour_wait_for_and_click_element self preclick_selector) ;;;
  let! el :=
    match element st with
    | Some element_str =>
        let! el := tour_wait_for_element_present self element_str in
        ret (Some el)
    | None => ret None
    end in
  match textinsert st with
  | Some text =>
      match el with
      | Some el => send_keys el text
      | None => raise (UnboundLocalError "element")
      end
  | None => ret tt
  end ;;;
  handle_step tour_callback st step_index ;;;
  for_each (postclick st) (λ postclick_selector,
    _tour_wait_for_and_click_element self postclick_selector).

(** [title in sleep_on_steps] and [sleep_on_steps[title]] *)
Definition sleep_on (sleep_on_steps : gmap string Q) (title' : option string) : option Q :=
  match title' with
  | Some t => sleep_on_steps !! t
  | None => None
  end.

(** The body of the loop over [enumerate(steps)]. *)
Definition run_tour_iteration (self : NavigatesGalaxy) (skip_steps : list string)
    (sleep_on_steps : gmap string Q) (tour_callback : TourCallback)
    (i : nat) (st : step) : M unit :=
  let title := title st in
  let skip :=
    fold_left (λ skip skip_step,
      if bool_decide (title = Some skip_step) then true else skip) skip_steps false in
  match sleep_on sleep_on_steps title with
  | Some seconds => time_sleep seconds
  | None => ret tt
  end ;;;
  if skip then ret tt
  else run_tour_step self st i tour_callback.

(** [skip_steps=None] and [sleep_on_steps=None] are the empty list and the
    empty dict; [tour_callback=None] is [None] here. *)
Definition run_tour (self : NavigatesGalaxy) (path : string) (skip_steps : list string)
    (sleep_on_steps : gmap string Q) (tour_callback : option TourCallback) : M unit :=
  let tour_callback := default NullTourCallback tour_callback in
  home ;;;
  let! steps := perform (LoadTour path) (λ h, env_load_tour h path) in
  for_each (enumerate steps) (λ '(i, st),
    run_tour_iteration self skip_steps sleep_on_steps tour_callback i st).

End Core.

(** * Vocabulary of the statements *)

(** The events of [j] failed attempts at the operation [op], each followed
    by the inter-attempt sleep. *)
Fixpoint failed_attempts (op : string) (sleep : Q) (j : nat) : list event :=
  match j with
  | O => []
  | S j' => failed_attempts op sleep j' ++ [Invoke op; Sleep sleep]
  end.

(** The events of [j] rounds of [history_item_wait_for] in which the wait
    for the item timed out and the refresh button, located as [btn], was
    clicked. *)
Fixpoint refreshed (sel : selector) (btn : web_element) (j : nat) : list event :=
  match j with
  | O => []
  | S j' =>
      refreshed sel btn j'
      ++ [WaitForVisible sel WAIT_TYPES.JOB_COMPLETION;
          WaitForClickable HistoryPanelRefreshButton; Click btn]
  end.

(** The refresh button can be clicked at history [h]: it is found
    clickable, as [btn], and the click on it goes through. *)
Definition refresh_works_at `{Env} (h : history) (btn : web_element) : Prop :=
  env_wait_for_clickable h HistoryPanelRefreshButton = Return btn
  ∧ env_click (h ++ [WaitForClickable HistoryPanelRefreshButton]) btn = Return tt.

(** The number of clicks on the element [btn] in a list of events. *)
Definition is_click_on (btn : web_element) (ev : event) : bool :=
  match ev with
  | Click el => String.eqb (element_ref el) (element_ref btn)
  | _ => false
  end.

Definition clicks_on (btn : web_element) (evs : list event) : nat :=
  length (List.filter (is_click_on btn) evs).


(** Python's [needle in hay] on strings. *)
Fixpoint contains (needle hay : string) : bool :=
  String.prefix needle hay
  || match hay with
     | EmptyString => false
     | String _ hay' => contains needle hay'
     end.

(** A driver and a callback that cooperate: every selector is found
    clickable and present at the first look, as the element [locate] gives
    for it, and every click, key press, callback and page load goes
    through. *)
Definition cooperative `{Env} (locate : string → web_element) : Prop :=
  (∀ h sel, env_sizzle_clickable h sel = Return (Some (locate sel)))
  ∧ (∀ h sel, env_sizzle_present h sel = Return (Some (locate sel)))
  ∧ (∀ h el, env_click h el = Return tt)
  ∧ (∀ h el text, env_send_keys h el text = Return tt)
  ∧ (∀ h st i, env_handle_step h st i = Return tt)
  ∧ (∀ h, env_home h = Return tt).

(** What a tour click on [sel] does when the driver cooperates. *)
Definition click_events (self : NavigatesGalaxy) (locate : string → web_element)
    (sel : string) : list event :=
  [NewWait (timeout_for self WAIT_TYPES.JOB_COMPLETION); ReadClock;
   SizzleClickable sel; Click (locate sel)].

(** The sub-actions of a tour step, in order: the preclicks, the wait for
    the element, the text insert, the callback, the postclicks. *)
Definition step_events (self : NavigatesGalaxy) (locate : string → web_element)
    (st : step) (i : nat) : list event :=
  flat_map (click_events self locate) (preclick st)
  ++ match element st with
     | Some element_str =>
         [NewWait (timeout_for self WAIT_TYPES.JOB_COMPLETION); ReadClock;
          SizzlePresent element_str]
     | None => []
     end
  ++ match textinsert st, element st with
     | Some text, Some element_str => [SendKeys (locate element_str) text]
     | _, _ => []
     end
  ++ [HandleStep st i]
  ++ flat_map (click_events self locate) (postclick st).

(** The sleep a title gets from [sleep_on_steps]. *)
Definition sleep_events (sleep_on_steps : gmap string Q) (title' : option string)
    : list event :=
  match sleep_on sleep_on_steps title' with
  | Some seconds => [Sleep seconds]
  | None => []
  end.

(** The calls of the callback in a list of events. *)
Definition handled (evs : list event) : list (step * nat) :=
  omap (λ ev, match ev with HandleStep st i => Some (st, i) | _ => None end) evs.

(** A step is skipped when its title is one of [skip_steps]. *)
Definition skipped (skip_steps : list string) (st : step) : Prop :=
  ∃ t, title st = Some t ∧ t ∈ skip_steps.

(** [emits P m]: whatever the fuel and the history, running [m] only adds
    events that satisfy [P] to the history. *)
Definition emits (P : event → Prop) {A} (m : M A) : Prop :=
  ∀ fuel h, ∃ evs, (m fuel h).2 = h ++ evs ∧ Forall P evs.

(** The events a tour click may produce, with the lengths of its waits and
    sleeps. *)
Definition click_event `{Env} (self : NavigatesGalaxy) (ev : event) : Prop :=
  match ev with
  | NewWait timeout => timeout = wait_length self WAIT_TYPES.JOB_COMPLETION
  | Sleep seconds =>
      seconds = RETRY_DURING_TRANSITIONS_SLEEP_DEFAULT ∨ seconds = poll_interval
  | ReadClock | SizzleClickable _ | Click _ => True
  | _ => False
  end.




(** The first part of [history_panel_wait_for_hid_visible]: from the hid
    to the selector of the item, through the contents of the history. *)
Definition resolve_item_selector `{Env} (self : NavigatesGalaxy) (hid : Z)
    (multi_history_panel : bool) : M selector :=
  let! current_history_id := current_history_id in
  wait_for_history_to_have_hid self current_history_id hid ;;;
  let! history_item := hid_to_history_item hid (Some current_history_id) in
  history_panel_item_component self (Some history_item) (Some hid) multi_history_panel.

(** The events of the three parts of a visibility wait: resolving the hid
    (requests to the API, the wait for the hid with its clock and sleeps,
    the look for the beta history), polling the selector [sel] with clicks
    on refresh in between, and reporting what is visible after a timeout. *)
Definition resolution_event (ev : event) : Prop :=
  match ev with
  | CurrentHistoryJson | ApiGet _ | NewWait _ | ReadClock | Sleep _ | IsBetaHistory => True
  | _ => False
  end.

Definition polling_event (sel : selector) (ev : event) : Prop :=
  match ev with
  | WaitForVisible s wait_type => s = sel ∧ wait_type = WAIT_TYPES.JOB_COMPLETION
  | WaitForClickable s => s = HistoryPanelRefreshButton
  | Click _ => True
  | Sleep seconds => seconds = RETRY_DURING_TRANSITIONS_SLEEP_DEFAULT
  | _ => False
  end.

Definition report_event (ev : event) : Prop :=
  match ev with
  | FindElements _ | GetAttribute _ _ => True
  | _ => False
  end.

(** Every poll of the visibility of an item comes after a request to the
    API made since the poll before it ([fresh] tells whether such a request
    has been seen). *)
Fixpoint polls_resolved_afresh (fresh : bool) (evs : list event) : bool :=
  match evs with
  | [] => true
  | ApiGet _ :: evs' => polls_resolved_afresh true evs'
  | WaitForVisible _ _ :: evs' => fresh && polls_resolved_afresh false evs'
  | _ :: evs' => polls_resolved_afresh fresh evs'
  end.

(** ** Floats without overflow and underflow *)








(** The floats [0.5], [0.1] and [5e-324], the smallest positive float. *)
Definition float_half : float := S754_finite false 4503599627370496 (-53).
Definition float_smallest : float := S754_finite false 1 (-1074).

(** * Environments for concrete runs *)

Definition el_of (ref : string) : web_element := {| element_ref := ref |}.

Definition exception_message (e : exception) : string :=
  match e with
  | TimeoutException msg | AssertionError msg | UnboundLocalError msg
  | ValueError msg | IndexError msg | WebDriverException msg => msg
  end.

Definition is_api_get (ev : event) : bool :=
  match ev with
  | ApiGet _ => true
  | _ => false
  end.

Definition is_invoke (ev : event) : bool :=
  match ev with
  | Invoke _ => true
  | _ => false
  end.

Definition count_events (p : event → bool) (h : history) : nat :=
  length (List.filter p h).

(** An environment with a cooperating driver, a clock that stands still
    and errors classified by their message.  What an opaque operation
    answers, the states the history goes through (one per request), when the
    awaited item is visible, the contents of the history and the tour on
    disk are left open. *)
Definition example_env (invoked : history → result pyvalue) (states : list string)
    (visible : history → result web_element) (contents : history → list history_item)
    (tour : list step) : Env := {|
  env_invoke := λ h _, invoked h;
  env_clock := λ _, float_of_Z 0;
  env_current_history_id := λ _, Return "f2db41e1fa331b3e";
  env_history_state := λ h _, Return (nth (count_events is_api_get h) states "ok");
  env_history_contents := λ h _, Return (contents h);
  env_is_beta_history := λ _, Return false;
  env_wait_for_visible := λ h _ _, visible h;
  env_wait_for_clickable := λ _ _, Return (el_of "history-refresh-button");
  env_click := λ _ _, Return tt;
  env_find_elements := λ _ _, Return [el_of "dataset-7"];
  env_get_attribute := λ _ el _, Return (element_ref el);
  env_sizzle_clickable := λ _ sel, Return (Some (el_of sel));
  env_sizzle_present := λ _ sel, Return (Some (el_of sel));
  env_send_keys := λ _ _ _, Return tt;
  env_handle_step := λ _ _ _, Return tt;
  env_home := λ _, Return tt;
  env_load_tour := λ _ _, Return tour;
  exception_indicates_stale_element := λ e, contains "stale" (exception_message e);
  exception_indicates_not_clickable := λ e, contains "not clickable" (exception_message e);
  poll_interval := 1 # 2;
  _timeout_message := λ on_str, "Timeout waiting on " +:+ on_str +:+ "."
|}.

Definition never_visible : history → result web_element :=
  λ _, Raise (TimeoutException "Timeout waiting on history item.").

(** The item shows up once the refresh button has been clicked. *)
Definition visible_after_refresh : history → result web_element :=
  λ h, if existsb (is_click_on (el_of "history-refresh-button")) h
       then Return (el_of "dataset-7")
       else Raise (TimeoutException "Timeout waiting on history item.").

(** The dataset with hid 7 gets a new id when the panel is refreshed. *)
Definition contents_changing_on_refresh : history → list history_item :=
  λ h, if existsb (is_click_on (el_of "history-refresh-button")) h
       then [{| item_hid := 7; item_id := "id-after-refresh";
                item_history_content_type := "dataset" |}]
       else [{| item_hid := 7; item_id := "id-before-refresh";
                item_history_content_type := "dataset" |}].

Definition plain_env (tour : list step) : Env :=
  example_env (λ _, Return PyNone) [] never_visible (λ _, []) tour.

(** A session whose multiplier is the float of the int [multiplier]. *)
Definition galaxy (multiplier : Z) : NavigatesGalaxy :=
  {| timeout_multiplier := float_of_Z multiplier |}.

Definition step_upload : step :=
  {| title := Some "Upload"; preclick := ["#tool-panel-upload-button"];
     element := Some ".upload-box"; textinsert := Some "1 2 3";
     postclick := ["#btn-start"] |}.

Definition step_wait : step :=
  {| title := Some "Wait"; preclick := []; element := Some "#current-history-panel";
     textinsert := None; postclick := [] |}.

Definition step_close : step :=
  {| title := Some "Close"; preclick := ["#btn-close"]; element := None;
     textinsert := None; postclick := [] |}.

Definition step_broken : step :=
  {| title := Some "Broken"; preclick := ["#btn-close"]; element := None;
     textinsert := Some "text"; postclick := [] |}.


(** The wrapped operation always fails with an error that does not
    indicate a transition. *)
Definition missing_element_env : Env :=
  example_env (λ _, Raise (WebDriverException "no such element")) []
    never_visible (λ _, []) [].

(** The wrapped operation always fails with a stale element error. *)
Definition stale_element_env : Env :=
  example_env (λ _, Raise (WebDriverException "stale element reference")) []
    never_visible (λ _, []) [].

(** The wrapped operation is blocked by an overlay twice and then goes
    through. *)
Definition overlay_env : Env :=
  example_env
    (λ h, if (2 <=? count_events is_invoke h)%nat then Return (PyStr "clicked")
          else Raise (WebDriverException "element is not clickable at point (10, 20)"))
    [] never_visible (λ _, []) [].

(** The awaited item shows up only after a click on refresh, and has
    another id by then. *)
Definition refresh_env : Env :=
  example_env (λ _, Return PyNone) [] visible_after_refresh contents_changing_on_refresh [].

(** As [refresh_env], but the item never shows up. *)
Definition stuck_env : Env :=
  example_env (λ _, Return PyNone) [] never_visible contents_changing_on_refresh [].



(** * More vocabulary *)

Import Stdlib.Strings.Ascii.

Definition is_sleep (ev : event) : bool :=
  match ev with
  | Sleep _ => true
  | _ => false
  end.

Definition is_poll (ev : event) : bool :=
  match ev with
  | WaitForVisible _ _ => true
  | _ => false
  end.

(** The events of [j] looks at the contents of history [id] that did not
    show the awaited hid, in [wait_for_history_to_have_hid]. *)
Fixpoint hid_polled `{Env} (id : string) (j : nat) : list event :=
  match j with
  | O => []
  | S j' =>
      hid_polled id j'
      ++ [ApiGet ("histories/" +:+ id +:+ "/contents"); ReadClock; Sleep poll_interval]
  end.

(** The events of [j] looks for the sizzle selector [sel] that did not find
    it clickable, in [tour_wait_for_clickable_element]. *)
Fixpoint clickable_polled `{Env} (sel : string) (j : nat) : list event :=
  match j with
  | O => []
  | S j' => clickable_polled sel j' ++ [SizzleClickable sel; ReadClock; Sleep poll_interval]
  end.

(** The sub-actions of a tour step that come before its callback. *)
Definition step_events_before_callback (self : NavigatesGalaxy)
    (locate : string → web_element) (st : step) : list event :=
  flat_map (click_events self locate) (preclick st)
  ++ match element st with
     | Some element_str =>
         [NewWait (timeout_for self WAIT_TYPES.JOB_COMPLETION); ReadClock;
          SizzlePresent element_str]
     | None => []
     end
  ++ match textinsert st, element st with
     | Some text, Some element_str => [SendKeys (locate element_str) text]
     | _, _ => []
     end.

(** The events of a whole tour with a cooperating driver: for each step
    its sleep, and its sub-actions unless it is skipped.  [i] is the
    position of the first of [steps] in the tour. *)
Fixpoint tour_events (self : NavigatesGalaxy) (skip_steps : list string)
    (sleep_on_steps : gmap string Q) (locate : string → web_element)
    (i : nat) (steps : list step) : list event :=
  match steps with
  | [] => []
  | st :: steps' =>
      sleep_events sleep_on_steps (title st)
      ++ (if bool_decide (title st ∈ (Some <$> skip_steps)) then []
          else step_events self locate st i)
      ++ tour_events self skip_steps sleep_on_steps locate (S i) steps'
  end.

(** The steps of a tour that are not skipped, with their positions. *)
Fixpoint steps_run (skip_steps : list string) (i : nat) (steps : list step)
    : list (step * nat) :=
  match steps with
  | [] => []
  | st :: steps' =>
      (if bool_decide (title st ∈ (Some <$> skip_steps)) then [] else [(st, i)])
      ++ steps_run skip_steps (S i) steps'
  end.

(** * More of the page objects *)

(** ** Waiting for the state of a history item *)

(** [s.split(sep)] for a separator of one character: the pieces between
    the separators, empty pieces included. *)
Fixpoint split_on (sep : Ascii.ascii) (s : string) : list string :=
  match s with
  | EmptyString => [EmptyString]
  | String c s' =>
      if Ascii.eqb c sep then EmptyString :: split_on sep s'
      else
        match split_on sep s' with
        | piece :: pieces => String c piece :: pieces
        | [] => [String c EmptyString]
        end
  end.

(** [s[n:]] *)
Fixpoint string_drop (n : nat) (s : string) : string :=
  match n, s with
  | O, _ => s
  | S n', String _ s' => string_drop n' s'
  | S _, EmptyString => EmptyString
  end.

(** The loop over the classes of the item in
    [history_panel_wait_for_hid_state]: [current_state] is overwritten by
    every class that starts with [state-]. *)
Definition current_state_of_classes (classes : list string) : string :=
  fold_left (λ current_state clazz,
    if String.prefix "state-" clazz then string_drop (String.length "state-") clazz
    else current_state) classes "UNKNOWN".

Section HidState.
Context `{E : Env}.

(** [selector.with_data(key, value)] belongs to the component tree, which
    is not part of the sources at hand; it is a parameter here. *)
Variable with_data : selector → string → string → selector.

(** [wait_for_absent_or_hidden] of [HasDriver], a parameter as well. *)
Variable wait_for_absent_or_hidden : selector → WaitType → M unit.

(** A wait that names no wait type gets [DEFAULT_WAIT_TYPE], the default
    of [timeout_for]. *)
Definition history_panel_wait_for_hid_state (self : NavigatesGalaxy) (hid : Z) (state : string)
    (allowed_force_refreshes : Z) (multi_history_panel : bool) : M selector :=
  let! history_item_selector :=
    history_panel_wait_for_hid_visible self hid allowed_force_refreshes multi_history_panel in
  let! beta := is_beta_history in
  let history_item_selector_state :=
    if beta : bool
    then content_item_by_attributes [("hid", AttrInt hid); ("state", AttrStr state)]
    else with_data history_item_selector "state" state in
  try_except
    (history_item_wait_for self history_item_selector_state allowed_force_refreshes ;;; ret tt)
    (λ e,
      if is_timeout e then
        let! history_item := wait_for_visible self history_item_selector DEFAULT_WAIT_TYPE in
        let! class := get_attribute history_item "class" in
        let classes := split_on " "%char class in
        let current_state := current_state_of_classes classes in
        let message := "Failed waiting on history item " +:+ pretty hid
                       +:+ " state to change to [" +:+ state
                       +:+ "] current state [" +:+ current_state +:+ "]. " in
        raise (prepend_timeout_message e message)
      else raise e) ;;;
  ret history_item_selector_state.

Definition history_panel_wait_for_hid_ok (self : NavigatesGalaxy) (hid : Z)
    (allowed_force_refreshes : Z) : M selector :=
  history_panel_wait_for_hid_state self hid "ok" allowed_force_refreshes false.

Definition history_panel_wait_for_hid_hidden (self : NavigatesGalaxy) (hid : Z)
    (multi_history_panel : bool) : M selector :=
  let! history_item := hid_to_history_item hid None in
  let! history_item_selector :=
    history_panel_item_component self (Some history_item) None multi_history_panel in
  wait_for_absent_or_hidden history_item_selector WAIT_TYPES.JOB_COMPLETION ;;;
  ret history_item_selector.

End HidState.

(** Whether the character [c] occurs in [s]. *)
Fixpoint has_char (c : Ascii.ascii) (s : string) : bool :=
  match s with
  | EmptyString => false
  | String c' s' => Ascii.eqb c' c || has_char c s'
  end.

(** ** Visualizations of a history item *)

Section Visualizations.
Context `{E : Env}.

(** [history_panel_item_available_visualizations_elements] goes through
    the driver's lookup by css selector, and [element.text] is a property
    of the driver's elements; both are parameters here. *)
Variable history_panel_item_available_visualizations_elements : Z → M (list web_element).
Variable element_text : web_element → M string.

Definition history_panel_item_click_visualization (self : NavigatesGalaxy) (hid : Z)
    (visualization_name : string) : M web_element :=
  let! elements := history_panel_item_available_visualizations_elements hid in
  (fix loop (elements : list web_element) : M web_element :=
     match elements with
     | [] =>
         raise (ValueError ("No visualization [" +:+ visualization_name +:+ "] found."))
     | el :: elements' =>
         let! text := element_text el in
         if String.eqb text visualization_name then
           click el ;;;
           ret el
         else loop elements'
     end) elements.

End Visualizations.

(** ** The session cookie *)

(** A cookie of the browser, with the keys the code reads. *)
Record cookie := { cookie_name : string; cookie_value : string }.

Section Cookies.

(** [self.driver.get_cookies()] *)
Variable get_cookies : M (list cookie).

(** The function returns from inside its loop; falling off the end of the
    loop gives [None]. *)
Definition get_galaxy_session : M (option string) :=
  let! cookies := get_cookies in
  (fix loop (cookies : list cookie) : M (option string) :=
     match cookies with
     | [] => ret None
     | c :: cookies' =>
         if String.eqb (cookie_name c) "galaxysession" then ret (Some (cookie_value c))
         else loop cookies'
     end) cookies.

Definition selenium_to_requests_cookies : M (gmap string (option string)) :=
  let! session := get_galaxy_session in
  ret {[ "galaxysession" := session ]}.

End Cookies.

(** ** The path of a file behind a crypt4gh source
    ([lib/galaxy/files/sources/crypt4gh.py]) *)

(** The first occurrence of [sep] in [s]: what is before it and what is
    after it. *)
Fixpoint find_sep (sep s : string) : option (string * string) :=
  if String.prefix sep s then Some (EmptyString, string_drop (String.length sep) s)
  else
    match s with
    | EmptyString => None
    | String c s' =>
        match find_sep sep s' with
        | Some (before, after) => Some (String c before, after)
        | None => None
        end
    end.

(** [s.split(sep)] for a non-empty separator: cut at the first occurrence
    and go on behind it.  The fuel [n] is the number of cuts left; every cut
    takes at least one character away, so the length of [s] is enough. *)
Fixpoint split_cuts (n : nat) (sep s : string) : list string :=
  match n with
  | O => [s]
  | S n' =>
      match find_sep sep s with
      | Some (before, after) => before :: split_cuts n' sep after
      | None => [s]
      end
  end.

Definition py_split (sep s : string) : list string :=
  split_cuts (String.length s) sep s.

(** [s.split(sep, 1)] *)
Definition py_split_once (sep s : string) : list string :=
  split_cuts 1 sep s.

(** [file_path = source_path.split("://")[-1].split("/", 1)[1]] in
    [_realize_to] *)
Definition file_path_of (source_path : string) : result string :=
  match last (py_split "://" source_path) with
  | Some after_scheme =>
      match py_split_once "/" after_scheme !! 1%nat with
      | Some file_path => Return file_path
      | None => Raise (IndexError "list index out of range")
      end
  | None => Raise (IndexError "list index out of range")
  end.


(** * More environments for concrete runs *)

(** As [example_env], with more left open: whether the panel is the beta
    history, the clock, what is visible and clickable for which selector,
    what a click on which element does, and the attributes of the
    elements. *)
Definition driver_env (beta : bool) (clock : history → float)
    (visible : history → selector → result web_element)
    (clickable : history → selector → result web_element)
    (clicked : history → web_element → result unit)
    (contents : history → list history_item)
    (attribute : web_element → string → string) : Env := {|
  env_invoke := λ _ _, Return PyNone;
  env_clock := clock;
  env_current_history_id := λ _, Return "f2db41e1fa331b3e";
  env_history_state := λ _ _, Return "ok";
  env_history_contents := λ h _, Return (contents h);
  env_is_beta_history := λ _, Return beta;
  env_wait_for_visible := λ h sel _, visible h sel;
  env_wait_for_clickable := clickable;
  env_click := clicked;
  env_find_elements := λ _ _, Return [el_of "dataset-7"];
  env_get_attribute := λ _ el name, Return (attribute el name);
  env_sizzle_clickable := λ _ sel, Return (Some (el_of sel));
  env_sizzle_present := λ _ sel, Return (Some (el_of sel));
  env_send_keys := λ _ _ _, Return tt;
  env_handle_step := λ _ _ _, Return tt;
  env_home := λ _, Return tt;
  env_load_tour := λ _ _, Return [];
  exception_indicates_stale_element := λ e, contains "stale" (exception_message e);
  exception_indicates_not_clickable := λ e, contains "not clickable" (exception_message e);
  poll_interval := 1 # 2;
  _timeout_message := λ on_str, "Timeout waiting on " +:+ on_str +:+ "."
|}.

Definition dataset (hid : Z) (id : string) : history_item :=
  {| item_hid := hid; item_id := id; item_history_content_type := "dataset" |}.

(** A history with a copy of dataset 7 further down. *)
Definition contents_with_copy : list history_item :=
  [dataset 3 "id-3"; dataset 7 "id-7"; dataset 7 "id-7-copy"].

Definition element_attribute (el : web_element) (name : string) : string :=
  if String.eqb name "class" then "history-content dataset state-running selected"
  else element_ref el.

(** The wrapped operation fails with a stale element once and finds the
    element gone at the second call. *)
Definition vanishing_element_env : Env :=
  example_env
    (λ h, if (1 <=? count_events is_invoke h)%nat
          then Raise (WebDriverException "no such element")
          else Raise (WebDriverException "stale element reference"))
    [] never_visible (λ _, []) [].

(** The button is drawn again while it is clicked: the click on the
    element found first finds it stale, the element found after the sleep
    can be clicked. *)
Definition redrawn_button_env : Env :=
  driver_env false (λ _, float_of_Z 0) (λ _ _, Return (el_of "dataset-7"))
    (λ h _, if existsb is_sleep h then Return (el_of "button-redrawn")
            else Return (el_of "button"))
    (λ _ el, if String.eqb (element_ref el) "button"
             then Raise (WebDriverException "stale element reference")
             else Return tt)
    (λ _, contents_with_copy) element_attribute.

(** A history with a copy of dataset 7, in the classic panel and in the
    beta panel; everything is visible. *)
Definition copies_env (beta : bool) : Env :=
  driver_env beta (λ _, float_of_Z 0) (λ _ _, Return (el_of "dataset-7"))
    (λ _ _, Return (el_of "history-refresh-button")) (λ _ _, Return tt)
    (λ _, contents_with_copy) element_attribute.

(** The browser has gone: every wait for an element fails with an error
    that is no timeout. *)
Definition crashed_env : Env :=
  driver_env false (λ _, float_of_Z 0) (λ _ _, Raise (WebDriverException "chrome not reachable"))
    (λ _ _, Return (el_of "history-refresh-button")) (λ _ _, Return tt)
    (λ _, contents_with_copy) element_attribute.

(** The item never shows up and the panel has no refresh button. *)
Definition no_refresh_button_env : Env :=
  driver_env false (λ _, float_of_Z 0)
    (λ _ _, Raise (TimeoutException "Timeout waiting on history item."))
    (λ _ _, Raise (WebDriverException "no such element")) (λ _ _, Return tt)
    (λ _, contents_with_copy) element_attribute.

(** Every request to the API takes a hundred seconds. *)
Definition slow_api_env : Env :=
  driver_env false (λ h, float_of_Z (100 * Z.of_nat (count_events is_api_get h)))
    (λ _ _, Return (el_of "dataset-7"))
    (λ _ _, Return (el_of "history-refresh-button")) (λ _ _, Return tt)
    (λ _, [dataset 3 "id-3"]) element_attribute.

(** [with_data] for the concrete runs: the data is added to the attributes
    of the selector. *)
Definition example_with_data (sel : selector) (key value : string) : selector :=
  match sel with
  | HistoryPanelItem history_content_type id | MultiHistoryViewItem history_content_type id =>
      HistoryPanelContentItem
        [("history_content_type", AttrStr history_content_type); ("id", AttrStr id);
         (key, AttrStr value)]
  | HistoryPanelContentItem attrs => HistoryPanelContentItem (attrs ++ [(key, AttrStr value)])
  | _ => sel
  end.

(** The item is visible, but never by a selector with attributes: it does
    not get into the awaited state. *)
Definition running_job_env : Env :=
  driver_env false (λ _, float_of_Z 0)
    (λ _ sel, match sel with
              | HistoryPanelContentItem _ =>
                  Raise (TimeoutException "Timeout waiting on history item.")
              | _ => Return (el_of "dataset-7")
              end)
    (λ _ _, Return (el_of "history-refresh-button")) (λ _ _, Return tt)
    (λ _, contents_with_copy) element_attribute.

(** [wait_for_absent_or_hidden] for the concrete runs: the element is
    gone at once. *)
Definition example_wait_for_absent_or_hidden (sel : selector) (wait_type : WaitType)
    : M unit :=
  ret tt.

(** A callback that fails at every step. *)
Definition failing_callback : TourCallback :=
  {| handle_step := λ _ _, raise (AssertionError "unexpected tour step") |}.

(** The visualizations of the menu, in the order of the page; the text of
    an element is its reference here. *)
Definition example_visualizations (hid : Z) : M (list web_element) :=
  ret [el_of "Charts"; el_of "Scatterplot"; el_of "Charts"].

Definition example_element_text (el : web_element) : M string :=
  ret (element_ref el).

Definition example_cookies : M (list cookie) :=
  ret [{| cookie_name := "_ga"; cookie_value := "GA1.2" |};
       {| cookie_name := "galaxysession"; cookie_value := "c6ca0ddb55be603a" |};
       {| cookie_name := "galaxysession"; cookie_value := "stale" |}].

Definition anonymous_cookies : M (list cookie) :=
  ret [{| cookie_name := "_ga"; cookie_value := "GA1.2" |}].

(** Nothing on the page gets clickable, and every sleep takes twenty
    seconds. *)
Definition frozen_page_env : Env := {|
  env_invoke := λ _ _, Return PyNone;
  env_clock := λ h, float_of_Z (20 * Z.of_nat (count_events is_sleep h));
  env_current_history_id := λ _, Return "f2db41e1fa331b3e";
  env_history_state := λ _ _, Return "ok";
  env_history_contents := λ _ _, Return [];
  env_is_beta_history := λ _, Return false;
  env_wait_for_visible := λ _ _ _, Return (el_of "dataset-7");
  env_wait_for_clickable := λ _ _, Return (el_of "history-refresh-button");
  env_click := λ _ _, Return tt;
  env_find_elements := λ _ _, Return [];
  env_get_attribute := λ _ el _, Return (element_ref el);
  env_sizzle_clickable := λ _ _, Return None;
  env_sizzle_present := λ _ sel, Return (Some (el_of sel));
  env_send_keys := λ _ _ _, Return tt;
  env_handle_step := λ _ _ _, Return tt;
  env_home := λ _, Return tt;
  env_load_tour := λ _ _, Return [];
  exception_indicates_stale_element := λ e, contains "stale" (exception_message e);
  exception_indicates_not_clickable := λ e, contains "not clickable" (exception_message e);
  poll_interval := 1 # 2;
  _timeout_message := λ on_str, "Timeout waiting on " +:+ on_str +:+ "."
|}.


(** Dataset 7 is in the contents of the history from the second listing
    on. *)
Definition late_item_env : Env :=
  driver_env false (λ _, float_of_Z 0) (λ _ _, Return (el_of "dataset-7"))
    (λ _ _, Return (el_of "history-refresh-button")) (λ _ _, Return tt)
    (λ h, if (1 <=? count_events is_api_get h)%nat then contents_with_copy
          else [dataset 3 "id-3"])
    element_attribute.
(** * Properties *)

(** Closed decidable facts, by evaluation of their decision procedure. *)
Ltac by_decision := apply (bool_decide_unpack _); vm_compute; exact I.

(** ** The monad *)

Section MonadFacts.
Context {A B : Type}.

Lemma bind_Return (m : M A) (k : A → M B) fuel h a h' :
  m fuel h = (Return a, h') → bind m k fuel h = k a fuel h'.
Proof. unfold bind. intros ->. reflexivity. Qed.

Lemma bind_Raise (m : M A) (k : A → M B) fuel h e h' :
  m fuel h = (Raise e, h') → bind m k fuel h = (Raise e, h').
Proof. unfold bind. intros ->. reflexivity. Qed.

Lemma bind_OutOfFuel (m : M A) (k : A → M B) fuel h h' :
  m fuel h = (OutOfFuel, h') → bind m k fuel h = (OutOfFuel, h').
Proof. unfold bind. intros ->. reflexivity. Qed.

Lemma bind_assoc {C} (m : M A) (k : A → M B) (k' : B → M C) fuel h :
  bind (bind m k) k' fuel h = bind m (λ a, bind (k a) k') fuel h.
Proof. unfold bind. destruct (m fuel h) as [[a|e|] h']; reflexivity. Qed.

Lemma bind_ext (m : M A) (k k' : A → M B) fuel h :
  (∀ a h', k a fuel h' = k' a fuel h') → bind m k fuel h = bind m k' fuel h.
Proof. intros Hk. unfold bind. destruct (m fuel h) as [[a|e|] h']; [apply Hk|reflexivity..]. Qed.

Lemma time_sleep_nonneg (seconds : Q) fuel h :
  (0 <= seconds)%Q → time_sleep seconds fuel h = (Return tt, h ++ [Sleep seconds]).
Proof.
  intros Hs. unfold time_sleep.
  destruct (Qlt_le_dec seconds 0) as [Hlt|_]; [|reflexivity].
  exfalso. exact (Qlt_not_le _ _ Hlt Hs).
Qed.
End MonadFacts.

(** ** Retry executor *)

Section RetryFacts.
Context {A : Type} (f : M A) (attempts : Z) (sleep : Q) (check : exception → bool).

Local Abbreviation round := (retry_round f attempts sleep check).

Lemma retry_round_return prev fuel h a h' :
  f fuel h = (Return a, h') →
  round prev fuel h = (Return (inr a), h').
Proof. intros Hf. unfold retry_round, try_except, bind. rewrite Hf. reflexivity. Qed.

Lemma retry_round_reraise prev fuel h e h' :
  f fuel h = (Raise e, h') →
  attempts < prev ∨ check e = false →
  round prev fuel h = (Raise e, h').
Proof.
  intros Hf Hstop. unfold retry_round, try_except, bind. rewrite Hf.
  destruct (Z.gtb_spec prev attempts) as [_|Hle]; [reflexivity|].
  destruct Hstop as [Hlt | ->]; [lia|reflexivity].
Qed.

Lemma retry_round_again prev fuel h e h' :
  f fuel h = (Raise e, h') →
  prev ≤ attempts → check e = true → (0 <= sleep)%Q →
  round prev fuel h = (Return (inl (prev + 1)), h' ++ [Sleep sleep]).
Proof.
  intros Hf Hle Hc Hs. unfold retry_round, try_except, bind at 1. rewrite Hf.
  destruct (Z.gtb_spec prev attempts) as [Hlt|_]; [lia|].
  rewrite Hc. simpl.
  erewrite bind_Return by (apply time_sleep_nonneg; exact Hs).
  reflexivity.
Qed.

(** An error the check rejects leaves the loop in its first round. *)
Lemma retry_call_rejected fuel h e h' :
  (1 ≤ fuel)%nat →
  f fuel h = (Raise e, h') → check e = false →
  retry_call_during_transitions f attempts sleep check fuel h = (Raise e, h').
Proof.
  intros Hfuel Hf Hc. unfold retry_call_during_transitions, while_true.
  destruct fuel as [|n]; [lia|].
  cbn [iterate]. rewrite (retry_round_reraise 0 _ _ _ _ Hf) by (right; exact Hc).
  reflexivity.
Qed.

(** A first call that returns leaves the loop with its value. *)
Lemma retry_call_first_return fuel h a h' :
  (1 ≤ fuel)%nat →
  f fuel h = (Return a, h') →
  retry_call_during_transitions f attempts sleep check fuel h = (Return a, h').
Proof.
  intros Hfuel Hf. unfold retry_call_during_transitions, while_true.
  destruct fuel as [|n]; [lia|].
  cbn [iterate]. rewrite (retry_round_return 0 _ _ _ _ Hf). reflexivity.
Qed.

(** Rounds that fail with an error the check accepts hand the loop on to
    the next round, one attempt and one sleep later. *)
Lemma retry_iterate_again rounds prev fuel h e h' :
  f fuel h = (Raise e, h') →
  prev ≤ attempts → check e = true → (0 <= sleep)%Q →
  iterate round (S rounds) prev fuel h
  = iterate round rounds (prev + 1) fuel (h' ++ [Sleep sleep]).
Proof.
  intros Hf Hle Hc Hs. cbn [iterate].
  rewrite (retry_round_again _ _ _ _ _ Hf Hle Hc Hs). reflexivity.
Qed.

Lemma retry_iterate_reraise rounds prev fuel h e h' :
  f fuel h = (Raise e, h') →
  attempts < prev ∨ check e = false →
  iterate round (S rounds) prev fuel h = (Raise e, h').
Proof.
  intros Hf Hstop. cbn [iterate].
  rewrite (retry_round_reraise _ _ _ _ _ Hf Hstop). reflexivity.
Qed.

Lemma retry_iterate_return rounds prev fuel h a h' :
  f fuel h = (Return a, h') →
  iterate round (S rounds) prev fuel h = (Return a, h').
Proof.
  intros Hf. cbn [iterate]. rewrite (retry_round_return _ _ _ _ _ Hf). reflexivity.
Qed.
End RetryFacts.

Section RetryClaims.
Context `{E : Env}.

(** C5: when the first call of the wrapped operation raises an error that
    the transition classifier rejects (neither stale element nor not
    clickable), [retry_call_during_transitions] re-raises that very error:
    the operation has been called once and nothing has slept, whatever the
    attempts budget and the sleep length. *)
Theorem retry_call_reraises_rejected_error
    (op : string) (attempts : Z) (sleep : Q) (fuel : nat) (h : history) (e : exception) :
  (1 ≤ fuel)%nat →
  env_invoke h op = Raise e →
  exception_indicates_stale_element e = false →
  exception_indicates_not_clickable e = false →
  retry_call_during_transitions (invoke op) attempts sleep
    exception_seems_to_indicate_transition fuel h
  = (Raise e, h ++ [Invoke op]).
Proof.
  intros Hfuel He Hstale Hclick.
  apply retry_call_rejected; [exact Hfuel| |].
  - unfold invoke, perform. rewrite He. reflexivity.
  - unfold exception_seems_to_indicate_transition. rewrite Hstale, Hclick. reflexivity.
Qed.

Lemma invoke_run (op : string) fuel h :
  invoke op fuel h = (env_invoke h op, h ++ [Invoke op]).
Proof. reflexivity. Qed.

(** After [j] failed attempts the loop of [retry_call_during_transitions]
    is in round [j], with [j] attempts and [j] sleeps in the history. *)
Lemma retry_failed_attempts (op : string) (attempts : Z) (sleep : Q)
    (errs : nat → exception) (fuel : nat) (h : history) (k : nat) :
  (0 <= sleep)%Q →
  Z.of_nat k ≤ attempts + 1 →
  (∀ j, (j < k)%nat →
     env_invoke (h ++ failed_attempts op sleep j) op = Raise (errs j)
     ∧ exception_seems_to_indicate_transition (errs j) = true) →
  ∀ rounds,
    iterate (retry_round (invoke op) attempts sleep exception_seems_to_indicate_transition) (k + rounds) 0 fuel h
    = iterate (retry_round (invoke op) attempts sleep exception_seems_to_indicate_transition) rounds (Z.of_nat k) fuel
        (h ++ failed_attempts op sleep k).
Proof.
  intros Hs. induction k as [|k IH]; intros Hk Hfail rounds.
  - simpl. rewrite app_nil_r. reflexivity.
  - replace (S k + rounds)%nat with (k + S rounds)%nat by lia.
    rewrite IH by (try lia; intros j Hj; apply Hfail; lia).
    destruct (Hfail k) as [Hk_err Hk_ok]; [lia|].
    erewrite retry_iterate_again; [| rewrite invoke_run, Hk_err; reflexivity | lia | exact Hk_ok | exact Hs].
    f_equal; [lia|]. simpl. rewrite <- !app_assoc. reflexivity.
Qed.

(** C6: with an attempts budget [N >= 0] and an operation that fails with a
    transient error at every call, [retry_call_during_transitions] calls the
    operation [N + 2] times, sleeps after each of the first [N + 1]
    failures and re-raises the last error; and if one of the first [N + 2]
    calls returns (the earlier ones failing with transient errors), the
    loop returns its value. *)
Theorem retry_call_attempts_budget
    (op : string) (N : Z) (sleep : Q) (errs : nat → exception) (fuel : nat) (h : history) :
  0 ≤ N → (0 <= sleep)%Q → (Z.to_nat N + 2 ≤ fuel)%nat →
  ((∀ j, (j ≤ Z.to_nat N + 1)%nat →
      env_invoke (h ++ failed_attempts op sleep j) op = Raise (errs j)
      ∧ exception_seems_to_indicate_transition (errs j) = true) →
   retry_call_during_transitions (invoke op) N sleep
     exception_seems_to_indicate_transition fuel h
   = (Raise (errs (Z.to_nat N + 1)%nat),
      h ++ failed_attempts op sleep (Z.to_nat N + 1) ++ [Invoke op]))
  ∧ (∀ (k : nat) (v : pyvalue),
      (k ≤ Z.to_nat N + 1)%nat →
      (∀ j, (j < k)%nat →
         env_invoke (h ++ failed_attempts op sleep j) op = Raise (errs j)
         ∧ exception_seems_to_indicate_transition (errs j) = true) →
      env_invoke (h ++ failed_attempts op sleep k) op = Return v →
      retry_call_during_transitions (invoke op) N sleep
        exception_seems_to_indicate_transition fuel h
      = (Return v, h ++ failed_attempts op sleep k ++ [Invoke op])).
Proof.
  intros HN Hs Hfuel. split.
  - intros Hfail. unfold retry_call_during_transitions, while_true.
    set (k := (Z.to_nat N + 1)%nat).
    replace fuel with (k + S (fuel - k - 1))%nat at 1 by lia.
    rewrite (retry_failed_attempts op N sleep errs) by (try lia; try exact Hs; intros j Hj; apply Hfail; lia).
    destruct (Hfail k) as [Hk_err _]; [lia|].
    erewrite retry_iterate_reraise; [| rewrite invoke_run, Hk_err; reflexivity | left; lia].
    rewrite <- app_assoc. reflexivity.
  - intros k v Hk Hfail Hret. unfold retry_call_during_transitions, while_true.
    replace fuel with (k + S (fuel - k - 1))%nat at 1 by lia.
    rewrite (retry_failed_attempts op N sleep errs) by (try lia; try exact Hs; exact Hfail).
    erewrite retry_iterate_return; [| rewrite invoke_run, Hret; reflexivity].
    rewrite <- app_assoc. reflexivity.
Qed.
End RetryClaims.

(** ** History item visibility waiter *)

Section VisibilityFacts.
Context `{E : Env}.
Context (self : NavigatesGalaxy) (sel : selector) (btn : web_element).

Local Abbreviation round n := (history_item_wait_for_round self sel n).
Local Abbreviation poll := (WaitForVisible sel WAIT_TYPES.JOB_COMPLETION).

Lemma refresh_click_works fuel h :
  (1 ≤ fuel)%nat → refresh_works_at h btn →
  history_panel_refresh_click self fuel h
  = (Return tt, h ++ [WaitForClickable HistoryPanelRefreshButton; Click btn]).
Proof.
  intros Hfuel [Hfind Hclick].
  unfold history_panel_refresh_click, wait_for_and_click, retry_during_transitions.
  erewrite bind_Return; [reflexivity|].
  apply retry_call_first_return; [exact Hfuel|].
  unfold wait_for_clickable, click, perform, bind. rewrite Hfind, Hclick.
  rewrite <- app_assoc. reflexivity.
Qed.

Lemma wait_round_visible n attempt fuel h el :
  env_wait_for_visible h sel WAIT_TYPES.JOB_COMPLETION = Return el →
  round n attempt fuel h = (Return (inr el), h ++ [poll]).
Proof.
  intros Hv. unfold history_item_wait_for_round, try_except, wait_for_visible, perform, bind.
  rewrite Hv. reflexivity.
Qed.

Lemma wait_round_give_up n attempt fuel h msg :
  env_wait_for_visible h sel WAIT_TYPES.JOB_COMPLETION = Raise (TimeoutException msg) →
  n ≤ attempt →
  round n attempt fuel h = (Raise (TimeoutException msg), h ++ [poll]).
Proof.
  intros Hv Hge. unfold history_item_wait_for_round, try_except, wait_for_visible, perform.
  unfold bind at 1 2. rewrite Hv. simpl.
  destruct (Z.geb_spec attempt n) as [_|Hlt]; [reflexivity|lia].
Qed.

Lemma wait_round_refresh n attempt fuel h msg :
  (1 ≤ fuel)%nat →
  env_wait_for_visible h sel WAIT_TYPES.JOB_COMPLETION = Raise (TimeoutException msg) →
  attempt < n →
  refresh_works_at (h ++ [poll]) btn →
  round n attempt fuel h
  = (Return (inl (attempt + 1)),
     h ++ [poll; WaitForClickable HistoryPanelRefreshButton; Click btn]).
Proof.
  intros Hfuel Hv Hlt Hrefresh.
  unfold history_item_wait_for_round, try_except, wait_for_visible, perform.
  unfold bind at 1 2. rewrite Hv. simpl.
  destruct (Z.geb_spec attempt n) as [Hge|_]; [lia|]. simpl.
  erewrite bind_Return by (apply refresh_click_works; eassumption).
  rewrite <- app_assoc. reflexivity.
Qed.

(** After [k] rounds that timed out and refreshed, the loop is in round
    [k]. *)
Lemma wait_rounds_refreshed n fuel h (msgs : nat → string) (k : nat) :
  (1 ≤ fuel)%nat →
  Z.of_nat k ≤ n →
  (∀ j, (j < k)%nat →
     env_wait_for_visible (h ++ refreshed sel btn j) sel WAIT_TYPES.JOB_COMPLETION
     = Raise (TimeoutException (msgs j))
     ∧ refresh_works_at (h ++ refreshed sel btn j ++ [poll]) btn) →
  ∀ rounds,
    iterate (round n) (k + rounds) 0 fuel h
    = iterate (round n) rounds (Z.of_nat k) fuel (h ++ refreshed sel btn k).
Proof.
  intros Hfuel. induction k as [|k IH]; intros Hk Hto rounds.
  - simpl. rewrite app_nil_r. reflexivity.
  - replace (S k + rounds)%nat with (k + S rounds)%nat by lia.
    rewrite IH by (try lia; intros j Hj; apply Hto; lia).
    destruct (Hto k) as [Hk_to Hk_refresh]; [lia|].
    cbn [iterate].
    erewrite wait_round_refresh;
      [| exact Hfuel | exact Hk_to | lia | rewrite <- app_assoc; exact Hk_refresh].
    f_equal; [lia|]. simpl. rewrite <- !app_assoc. reflexivity.
Qed.

Lemma clicks_on_refreshed k :
  clicks_on btn (refreshed sel btn k ++ [poll]) = k.
Proof.
  unfold clicks_on. rewrite List.filter_app, length_app. simpl.
  rewrite Nat.add_0_r.
  induction k as [|k IH]; [reflexivity|].
  simpl. rewrite List.filter_app, length_app, IH. simpl.
  rewrite String.eqb_refl. simpl. lia.
Qed.

(** C1: with [allowed_force_refreshes = n >= 0], [history_item_wait_for]
    forces at most [n] refreshes.  If the element becomes visible in poll
    round [k + 1] with [k <= n], it is returned after exactly [k] clicks on
    the refresh button; if it never becomes visible, the refresh button is
    clicked exactly [n] times and the last [TimeoutException] is raised
    again. *)
Theorem history_item_wait_for_refreshes
    (n : Z) (fuel : nat) (h : history) (msgs : nat → string) :
  0 ≤ n → (Z.to_nat n + 1 ≤ fuel)%nat →
  (∀ (k : nat) (el : web_element),
     Z.of_nat k ≤ n →
     (∀ j, (j < k)%nat →
        env_wait_for_visible (h ++ refreshed sel btn j) sel WAIT_TYPES.JOB_COMPLETION
        = Raise (TimeoutException (msgs j))
        ∧ refresh_works_at (h ++ refreshed sel btn j ++ [poll]) btn) →
     env_wait_for_visible (h ++ refreshed sel btn k) sel WAIT_TYPES.JOB_COMPLETION
     = Return el →
     history_item_wait_for self sel n fuel h
     = (Return el, h ++ refreshed sel btn k ++ [poll])
     ∧ clicks_on btn (refreshed sel btn k ++ [poll]) = k)
  ∧ ((∀ j, (j ≤ Z.to_nat n)%nat →
        env_wait_for_visible (h ++ refreshed sel btn j) sel WAIT_TYPES.JOB_COMPLETION
        = Raise (TimeoutException (msgs j))) →
     (∀ j, (j < Z.to_nat n)%nat →
        refresh_works_at (h ++ refreshed sel btn j ++ [poll]) btn) →
     history_item_wait_for self sel n fuel h
     = (Raise (TimeoutException (msgs (Z.to_nat n))),
        h ++ refreshed sel btn (Z.to_nat n) ++ [poll])
     ∧ clicks_on btn (refreshed sel btn (Z.to_nat n) ++ [poll]) = Z.to_nat n).
Proof.
  intros Hn Hfuel. split.
  - intros k el Hk Hto Hvis. split; [|apply clicks_on_refreshed].
    unfold history_item_wait_for, while_true.
    replace fuel with (k + S (fuel - k - 1))%nat at 1 by lia.
    rewrite (wait_rounds_refreshed n fuel h msgs k) by (try lia; exact Hto).
    cbn [iterate]. rewrite (wait_round_visible _ _ _ _ _ Hvis).
    rewrite <- app_assoc. reflexivity.
  - intros Hto Hrefresh. split; [|apply clicks_on_refreshed].
    unfold history_item_wait_for, while_true.
    set (k := Z.to_nat n).
    replace fuel with (k + S (fuel - k - 1))%nat at 1 by lia.
    rewrite (wait_rounds_refreshed n fuel h msgs k)
      by first [lia | intros j Hj; split; [apply Hto; lia | apply Hrefresh; exact Hj]].
    cbn [iterate]. rewrite (wait_round_give_up _ _ _ _ (msgs k)) by first [lia | apply Hto; lia].
    rewrite <- app_assoc. reflexivity.
Qed.
End VisibilityFacts.

(** ** PollUntil and the history state poller *)

Section PollFacts.
Context `{E : Env}.

Lemma poll_round_ready {A} (cond : M (option A)) deadline ctx fuel h v h' :
  cond fuel h = (Return (Some v), h') →
  poll_round cond deadline ctx fuel h = (Return (inr v), h').
Proof. intros Hc. unfold poll_round. rewrite (bind_Return _ _ _ _ _ _ Hc). reflexivity. Qed.

Lemma poll_round_not_ready {A} (cond : M (option A)) deadline ctx fuel h h' :
  (0 <= poll_interval)%Q →
  cond fuel h = (Return None, h') →
  float_ltb deadline (env_clock h') = false →
  poll_round cond deadline ctx fuel h
  = (Return (inl tt), h' ++ [ReadClock; Sleep poll_interval]).
Proof.
  intros Hp Hc Hclock. unfold poll_round. rewrite (bind_Return _ _ _ _ _ _ Hc).
  unfold now, perform, bind at 1. rewrite Hclock.
  erewrite bind_Return by (apply time_sleep_nonneg; exact Hp).
  unfold ret. rewrite <- app_assoc. reflexivity.
Qed.

Lemma poll_round_timeout {A} (cond : M (option A)) deadline ctx fuel h h' :
  cond fuel h = (Return None, h') →
  float_ltb deadline (env_clock h') = true →
  poll_round cond deadline ctx fuel h
  = (Raise (TimeoutException ctx), h' ++ [ReadClock]).
Proof.
  intros Hc Hclock. unfold poll_round. rewrite (bind_Return _ _ _ _ _ _ Hc).
  unfold now, perform, bind at 1. rewrite Hclock. reflexivity.
Qed.

Lemma poll_until_unfold {A} (cond : M (option A)) timeout ctx fuel h :
  poll_until cond timeout ctx fuel h
  = iterate (λ _ : unit,
      poll_round cond (float_add (env_clock (h ++ [NewWait timeout])) timeout) ctx)
      fuel tt fuel (h ++ [NewWait timeout; ReadClock]).
Proof.
  unfold poll_until, now, perform, bind, while_true. rewrite <- app_assoc. reflexivity.
Qed.

(** A wait whose condition is not ready in the rounds before round [k],
    each time with the deadline not yet passed, and ready in round [k],
    returns the value of round [k].  [starts j] is the history at the start
    of round [j] and [ends j] the history after the condition has been
    evaluated in that round. *)
Lemma poll_until_ready_in_round {A} (cond : M (option A)) timeout ctx fuel h
    (starts ends : nat → history) (k : nat) (v : A) :
  (0 <= poll_interval)%Q →
  (k + 1 ≤ fuel)%nat →
  starts 0%nat = h ++ [NewWait timeout; ReadClock] →
  (∀ j, (j < k)%nat →
     cond fuel (starts j) = (Return None, ends j)
     ∧ float_ltb (float_add (env_clock (h ++ [NewWait timeout])) timeout)
         (env_clock (ends j)) = false
     ∧ starts (S j) = ends j ++ [ReadClock; Sleep poll_interval]) →
  cond fuel (starts k) = (Return (Some v), ends k) →
  poll_until cond timeout ctx fuel h = (Return v, ends k).
Proof.
  intros Hp Hfuel H0 Hwait Hready. rewrite poll_until_unfold, <- H0.
  set (deadline := float_add (env_clock (h ++ [NewWait timeout])) timeout) in *.
  assert (Hchain : ∀ rounds,
    iterate (λ _ : unit, poll_round cond deadline ctx) (k + rounds) tt fuel (starts 0%nat)
    = iterate (λ _ : unit, poll_round cond deadline ctx) rounds tt fuel (starts k)).
  { clear Hready Hfuel. induction k as [|k IH]; intros rounds; [reflexivity|].
    replace (S k + rounds)%nat with (k + S rounds)%nat by lia.
    rewrite IH by (intros j Hj; apply Hwait; lia).
    destruct (Hwait k) as (Hc & Hclock & Hnext); [lia|].
    cbn [iterate]. rewrite (poll_round_not_ready _ _ _ _ _ _ Hp Hc Hclock), Hnext.
    reflexivity. }
  replace fuel with (k + S (fuel - k - 1))%nat at 1 by lia.
  rewrite Hchain. cbn [iterate]. rewrite (poll_round_ready _ _ _ _ _ _ _ Hready).
  reflexivity.
Qed.






End PollFacts.

(** ** Events a computation emits *)

Section EmitsFacts.
Context (P : event → Prop).

Lemma emits_ret {A} (a : A) : emits P (ret a).
Proof. intros fuel h. exists []. rewrite app_nil_r. split; [reflexivity|constructor]. Qed.

Lemma emits_raise {A} (e : exception) : emits P (@raise A e).
Proof. intros fuel h. exists []. rewrite app_nil_r. split; [reflexivity|constructor]. Qed.

Lemma emits_perform {A} (ev : event) (answer : history → result A) :
  P ev → emits P (perform ev answer).
Proof. intros Hev fuel h. exists [ev]. split; [reflexivity|]. repeat constructor. exact Hev. Qed.

Lemma emits_bind {A B} (m : M A) (k : A → M B) :
  emits P m → (∀ a, emits P (k a)) → emits P (bind m k).
Proof.
  intros Hm Hk fuel h. destruct (Hm fuel h) as (evs & Hh & Hevs).
  unfold bind. destruct (m fuel h) as [[a|e|] h']; simpl in Hh; subst h'.
  - destruct (Hk a fuel (h ++ evs)) as (evs' & Hh' & Hevs').
    exists (evs ++ evs'). rewrite Hh', app_assoc. split; [reflexivity|].
    apply Forall_app. split; assumption.
  - exists evs. split; [reflexivity|assumption].
  - exists evs. split; [reflexivity|assumption].
Qed.

Lemma emits_try_except {A} (m : M A) (handler : exception → M A) :
  emits P m → (∀ e, emits P (handler e)) → emits P (try_except m handler).
Proof.
  intros Hm Hk fuel h. destruct (Hm fuel h) as (evs & Hh & Hevs).
  unfold try_except. destruct (m fuel h) as [[a|e|] h']; simpl in Hh; subst h'.
  - exists evs. split; [reflexivity|assumption].
  - destruct (Hk e fuel (h ++ evs)) as (evs' & Hh' & Hevs').
    exists (evs ++ evs'). rewrite Hh', app_assoc. split; [reflexivity|].
    apply Forall_app. split; assumption.
  - exists evs. split; [reflexivity|assumption].
Qed.

Lemma emits_for_each {A} (xs : list A) (body : A → M unit) :
  (∀ x, emits P (body x)) → emits P (for_each xs body).
Proof.
  intros Hbody. induction xs as [|x xs IH]; simpl.
  - apply emits_ret.
  - apply emits_bind; [apply Hbody|intros _; exact IH].
Qed.

Lemma emits_iterate {St A} (body : St → M (St + A)) :
  (∀ s, emits P (body s)) →
  ∀ rounds s fuel h, ∃ evs, (iterate body rounds s fuel h).2 = h ++ evs ∧ Forall P evs.
Proof.
  intros Hbody. induction rounds as [|rounds IH]; intros s fuel h; simpl.
  - exists []. rewrite app_nil_r. split; [reflexivity|constructor].
  - destruct (Hbody s fuel h) as (evs & Hh & Hevs).
    destruct (body s fuel h) as [[[s'|a]|e|] h']; simpl in Hh; subst h';
      try (exists evs; split; [reflexivity|assumption]).
    destruct (IH s' fuel (h ++ evs)) as (evs' & Hh' & Hevs').
    exists (evs ++ evs'). rewrite Hh', app_assoc. split; [reflexivity|].
    apply Forall_app. split; assumption.
Qed.

Lemma emits_while_true {St A} (body : St → M (St + A)) (s : St) :
  (∀ s, emits P (body s)) → emits P (while_true body s).
Proof. intros Hbody fuel h. apply emits_iterate. exact Hbody. Qed.

Lemma emits_time_sleep (seconds : Q) : P (Sleep seconds) → emits P (time_sleep seconds).
Proof.
  intros Hs. unfold time_sleep. destruct (Qlt_le_dec seconds 0).
  - apply emits_raise.
  - apply emits_perform. exact Hs.
Qed.

Lemma emits_retry {A} (f : M A) attempts sleep check :
  emits P f → P (Sleep sleep) →
  emits P (retry_call_during_transitions f attempts sleep check).
Proof.
  intros Hf Hs. apply emits_while_true. intros prev. unfold retry_round.
  apply emits_try_except.
  - apply emits_bind; [exact Hf|intros a; apply emits_ret].
  - intros e. destruct (prev >? attempts); [apply emits_raise|].
    destruct (negb (check e)); [apply emits_raise|].
    apply emits_bind; [apply emits_time_sleep; exact Hs|intros _; apply emits_ret].
Qed.

Lemma emits_poll_until `{E : Env} {A} (cond : M (option A)) timeout ctx :
  emits P cond → P (NewWait timeout) → P ReadClock → P (Sleep poll_interval) →
  emits P (poll_until cond timeout ctx).
Proof.
  intros Hc Hw Hr Hs. unfold poll_until.
  apply emits_bind; [apply emits_perform; exact Hw|intros _].
  apply emits_bind; [apply emits_perform; exact Hr|intros start].
  apply emits_while_true. intros _. unfold poll_round.
  apply emits_bind; [exact Hc|intros [v|]]; [apply emits_ret|].
  apply emits_bind; [apply emits_perform; exact Hr|intros t].
  destruct (float_ltb _ t); [apply emits_raise|].
  apply emits_bind; [apply emits_time_sleep; exact Hs|intros _; apply emits_ret].
Qed.
End EmitsFacts.

Lemma emits_impl (P Q : event → Prop) {A} (m : M A) :
  (∀ ev, P ev → Q ev) → emits P m → emits Q m.
Proof.
  intros HPQ Hm fuel h. destruct (Hm fuel h) as (evs & Hh & Hevs).
  exists evs. split; [exact Hh|]. eapply Forall_impl; [exact Hevs|exact HPQ].
Qed.

(** ** Tour interpreter *)

Section TourFacts.
Context `{E : Env}.

Lemma skip_flag_acc (title' : option string) (skip_steps : list string) (acc : bool) :
  fold_left (λ skip skip_step,
    if bool_decide (title' = Some skip_step) then true else skip) skip_steps acc
  = acc || bool_decide (title' ∈ (Some <$> skip_steps)).
Proof.
  revert acc. induction skip_steps as [|s l IH]; intros acc; cbn [fold_left fmap list_fmap].
  - rewrite bool_decide_eq_false_2; [destruct acc; reflexivity|].
    intros Hin. inversion Hin.
  - rewrite IH. destruct (decide (title' = Some s)) as [Heq|Hne].
    + rewrite (bool_decide_eq_true_2 (title' = Some s)) by exact Heq. simpl.
      rewrite bool_decide_eq_true_2; [destruct acc; reflexivity|].
      rewrite Heq. left.
    + rewrite (bool_decide_eq_false_2 (title' = Some s)) by exact Hne.
      f_equal. apply bool_decide_ext. rewrite elem_of_cons. tauto.
Qed.

Lemma skipped_elem_of (skip_steps : list string) (st : step) :
  skipped skip_steps st ↔ title st ∈ (Some <$> skip_steps).
Proof.
  unfold skipped. rewrite list_elem_of_fmap. split.
  - intros (t & Ht & Hin). exists t. split; [exact Ht|exact Hin].
  - intros (t & Ht & Hin). exists t. split; [exact Ht|exact Hin].
Qed.

Lemma run_tour_iteration_skipped self skip_steps sleep_on_steps cb i st :
  skipped skip_steps st →
  run_tour_iteration self skip_steps sleep_on_steps cb i st
  = (match sleep_on sleep_on_steps (title st) with
     | Some seconds => time_sleep seconds
     | None => ret tt
     end ;;; ret tt).
Proof.
  intros Hskip. unfold run_tour_iteration. rewrite skip_flag_acc.
  rewrite bool_decide_eq_true_2 by (apply skipped_elem_of; exact Hskip). reflexivity.
Qed.

Lemma run_tour_iteration_not_skipped self skip_steps sleep_on_steps cb i st :
  ¬ skipped skip_steps st →
  run_tour_iteration self skip_steps sleep_on_steps cb i st
  = (match sleep_on sleep_on_steps (title st) with
     | Some seconds => time_sleep seconds
     | None => ret tt
     end ;;; run_tour_step self st i cb).
Proof.
  intros Hskip. unfold run_tour_iteration. rewrite skip_flag_acc.
  rewrite bool_decide_eq_false_2 by (rewrite <- skipped_elem_of; exact Hskip). reflexivity.
Qed.

(** C3, as the code has it: for a step whose title is in [skip_steps] the
    interpreter runs nothing of [run_tour_step] - no preclick, no element
    wait, no text insert, no callback, no postclick.  The only thing it does
    for the step is the sleep of [sleep_on_steps], which is applied to every
    step whose title has one, skipped or not. *)
Theorem run_tour_skipped_step_only_sleeps
    (self : NavigatesGalaxy) (skip_steps : list string) (sleep_on_steps : gmap string Q)
    (cb : TourCallback) (i : nat) (st : step) (fuel : nat) (h : history) :
  skipped skip_steps st →
  ∃ r evs,
    run_tour_iteration self skip_steps sleep_on_steps cb i st fuel h = (r, h ++ evs)
    ∧ (evs = [] ∨ ∃ seconds,
         sleep_on sleep_on_steps (title st) = Some seconds ∧ evs = [Sleep seconds])
    ∧ (∀ seconds, sleep_on sleep_on_steps (title st) = Some seconds →
         (0 <= seconds)%Q → r = Return tt ∧ evs = [Sleep seconds]).
Proof.
  intros Hskip. rewrite (run_tour_iteration_skipped _ _ _ _ _ _ Hskip).
  destruct (sleep_on sleep_on_steps (title st)) as [seconds|] eqn:Hsleep.
  - unfold bind, time_sleep. destruct (Qlt_le_dec seconds 0) as [Hneg|Hpos].
    + exists (Raise (ValueError "sleep length must be non-negative")), [].
      rewrite app_nil_r. split; [reflexivity|]. split; [left; reflexivity|].
      intros s [= <-] Hs. exfalso. exact (Qlt_not_le _ _ Hneg Hs).
    + exists (Return tt), [Sleep seconds]. split; [reflexivity|].
      split; [right; exists seconds; split; reflexivity|].
      intros s [= <-] _. split; reflexivity.
  - exists (Return tt), []. rewrite app_nil_r. split; [reflexivity|].
    split; [left; reflexivity|]. intros s Hs. discriminate.
Qed.

Lemma poll_until_ready_at_once {A} (cond : M (option A)) timeout ctx fuel h v h' :
  (1 ≤ fuel)%nat →
  cond fuel (h ++ [NewWait timeout; ReadClock]) = (Return (Some v), h') →
  poll_until cond timeout ctx fuel h = (Return v, h').
Proof.
  intros Hfuel Hc. rewrite poll_until_unfold.
  destruct fuel as [|n]; [lia|].
  cbn [iterate]. rewrite (poll_round_ready _ _ _ _ _ _ _ Hc). reflexivity.
Qed.

Section Cooperative.
Context (self : NavigatesGalaxy) (locate : string → web_element).
Context (Hcoop : cooperative locate).

Lemma tour_click_cooperative sel fuel h :
  (1 ≤ fuel)%nat →
  _tour_wait_for_and_click_element self sel fuel h
  = (Return tt, h ++ click_events self locate sel).
Proof.
  intros Hfuel. destruct Hcoop as (Hclickable & _ & Hclick & _).
  unfold _tour_wait_for_and_click_element, retry_during_transitions.
  apply retry_call_first_return; [exact Hfuel|].
  assert (Hwait : tour_wait_for_clickable_element self sel fuel h
    = (Return (locate sel),
       h ++ [NewWait (timeout_for self WAIT_TYPES.JOB_COMPLETION); ReadClock;
             SizzleClickable sel])).
  { unfold tour_wait_for_clickable_element.
    erewrite poll_until_ready_at_once;
      [|exact Hfuel|unfold perform; rewrite Hclickable; reflexivity].
    rewrite <- !app_assoc. reflexivity. }
  rewrite (bind_Return _ _ _ _ _ _ Hwait).
  unfold click, perform, click_events. rewrite Hclick, <- app_assoc. reflexivity.
Qed.

Lemma tour_clicks_cooperative sels fuel h :
  (1 ≤ fuel)%nat →
  for_each sels (_tour_wait_for_and_click_element self) fuel h
  = (Return tt, h ++ flat_map (click_events self locate) sels).
Proof.
  intros Hfuel. revert h. induction sels as [|sel sels IH]; intros h.
  - simpl. rewrite app_nil_r. reflexivity.
  - cbn [for_each flat_map].
    rewrite (bind_Return _ _ _ _ _ _ (tour_click_cooperative sel fuel h Hfuel)).
    rewrite IH, <- app_assoc. reflexivity.
Qed.

Lemma tour_present_cooperative sel fuel h :
  (1 ≤ fuel)%nat →
  tour_wait_for_element_present self sel fuel h
  = (Return (locate sel),
     h ++ [NewWait (timeout_for self WAIT_TYPES.JOB_COMPLETION); ReadClock; SizzlePresent sel]).
Proof.
  intros Hfuel. destruct Hcoop as (_ & Hpresent & _).
  unfold tour_wait_for_element_present.
  erewrite poll_until_ready_at_once; [|exact Hfuel|unfold perform; rewrite Hpresent; reflexivity].
  rewrite <- !app_assoc. reflexivity.
Qed.

(** With a cooperating driver a step that names an element whenever it
    inserts text runs all of its sub-actions, in order. *)
Lemma run_tour_step_cooperative st i fuel h :
  (1 ≤ fuel)%nat →
  (is_Some (textinsert st) → is_Some (element st)) →
  run_tour_step self st i external_callback fuel h
  = (Return tt, h ++ step_events self locate st i).
Proof.
  intros Hfuel Hwf. unfold run_tour_step, step_events.
  rewrite (bind_Return _ _ _ _ _ _ (tour_clicks_cooperative (preclick st) fuel h Hfuel)).
  destruct Hcoop as (_ & _ & _ & Hkeys & Hhandle & _).
  destruct (element st) as [element_str|] eqn:Helement.
  - erewrite bind_Return;
      [|erewrite bind_Return by (apply tour_present_cooperative; exact Hfuel); reflexivity].
    destruct (textinsert st) as [text|].
    + erewrite bind_Return by (unfold send_keys, perform; rewrite Hkeys; reflexivity).
      erewrite bind_Return by (simpl; unfold perform; rewrite Hhandle; reflexivity).
      rewrite tour_clicks_cooperative by exact Hfuel.
      rewrite <- !app_assoc. reflexivity.
    + erewrite bind_Return by reflexivity.
      erewrite bind_Return by (simpl; unfold perform; rewrite Hhandle; reflexivity).
      rewrite tour_clicks_cooperative by exact Hfuel.
      rewrite <- !app_assoc. reflexivity.
  - erewrite bind_Return by reflexivity.
    destruct (textinsert st) as [text|].
    + destruct Hwf as [x Hx]; [eexists; reflexivity|discriminate].
    + erewrite bind_Return by reflexivity.
      erewrite bind_Return by (simpl; unfold perform; rewrite Hhandle; reflexivity).
      rewrite tour_clicks_cooperative by exact Hfuel.
      rewrite <- !app_assoc. reflexivity.
Qed.
End Cooperative.

Lemma emits_tour_click (P : event → Prop) self sel :
  (∀ ev, click_event self ev → P ev) →
  emits P (_tour_wait_for_and_click_element self sel).
Proof.
  intros HP. apply (emits_impl (click_event self)); [exact HP|].
  unfold _tour_wait_for_and_click_element, retry_during_transitions.
  apply emits_retry; [|left; reflexivity].
  apply emits_bind.
  - unfold tour_wait_for_clickable_element.
    apply emits_poll_until; simpl; try (exact I || reflexivity || (right; reflexivity)).
    apply emits_perform. exact I.
  - intros el. apply emits_perform. exact I.
Qed.

Lemma handled_click_events self (evs : list event) :
  Forall (click_event self) evs → handled evs = [].
Proof.
  intros Hevs. induction Hevs as [|ev evs Hev _ IH]; [reflexivity|].
  unfold handled in *. destruct ev; simpl in Hev; try contradiction; exact IH.
Qed.

(** C10: a step that sets [textinsert] but no [element] ends in an error
    before the callback is called.  The step stops where its preclicks
    stop: if they return, reading the unbound variable [element] raises
    [UnboundLocalError]; up to there only preclick events have happened -
    the callback has not been called and no postclick has run. *)
Theorem run_tour_step_textinsert_without_element
    (self : NavigatesGalaxy) (st : step) (i : nat) (cb : TourCallback)
    (fuel : nat) (h : history) (text : string) :
  element st = None → textinsert st = Some text →
  (∃ r evs,
     for_each (preclick st) (_tour_wait_for_and_click_element self) fuel h = (r, h ++ evs)
     ∧ Forall (click_event self) evs
     ∧ handled evs = []
     ∧ run_tour_step self st i cb fuel h
       = (match r with
          | Return _ => Raise (UnboundLocalError "element")
          | Raise e => Raise e
          | OutOfFuel => OutOfFuel
          end, h ++ evs))
  ∧ (∀ locate, cooperative locate → (1 ≤ fuel)%nat →
     run_tour_step self st i cb fuel h
     = (Raise (UnboundLocalError "element"),
        h ++ flat_map (click_events self locate) (preclick st))).
Proof.
  intros Helement Htext.
  assert (Hstep : ∀ r h',
    for_each (preclick st) (_tour_wait_for_and_click_element self) fuel h = (r, h') →
    run_tour_step self st i cb fuel h
    = (match r with
       | Return _ => Raise (UnboundLocalError "element")
       | Raise e => Raise e
       | OutOfFuel => OutOfFuel
       end, h')).
  { intros r h' Hpre. unfold run_tour_step. rewrite Helement, Htext.
    destruct r as [[]|e|].
    - rewrite (bind_Return _ _ _ _ _ _ Hpre). reflexivity.
    - rewrite (bind_Raise _ _ _ _ _ _ Hpre). reflexivity.
    - rewrite (bind_OutOfFuel _ _ _ _ _ Hpre). reflexivity. }
  split.
  - destruct (emits_for_each (click_event self) (preclick st)
                (_tour_wait_for_and_click_element self)
                (λ sel, emits_tour_click _ self sel (λ ev Hev, Hev)) fuel h)
      as (evs & Hh & Hevs).
    destruct (for_each (preclick st) (_tour_wait_for_and_click_element self) fuel h)
      as [r h'] eqn:Hpre.
    simpl in Hh. subst h'.
    exists r, evs. split; [reflexivity|]. split; [exact Hevs|]. split.
    + apply (handled_click_events self). exact Hevs.
    + apply Hstep. reflexivity.
  - intros locate Hcoop Hfuel.
    apply (Hstep (Return tt)). apply tour_clicks_cooperative; assumption.
Qed.

Lemma sleep_on_step_run (sleep_on_steps : gmap string Q) (title' : option string) fuel h :
  (∀ seconds, sleep_on sleep_on_steps title' = Some seconds → (0 <= seconds)%Q) →
  match sleep_on sleep_on_steps title' with
  | Some seconds => time_sleep seconds
  | None => ret tt
  end fuel h
  = (Return tt, h ++ sleep_events sleep_on_steps title').
Proof.
  intros Hpos. unfold sleep_events.
  destruct (sleep_on sleep_on_steps title') as [seconds|].
  - apply time_sleep_nonneg. apply Hpos. reflexivity.
  - unfold ret. rewrite app_nil_r. reflexivity.
Qed.

Lemma handled_app (evs evs' : list event) : handled (evs ++ evs') = handled evs ++ handled evs'.
Proof. apply omap_app. Qed.

Lemma handled_clicks self locate (sels : list string) :
  handled (flat_map (click_events self locate) sels) = [].
Proof. induction sels as [|sel sels IH]; [reflexivity|exact IH]. Qed.

Lemma handled_sleep (sleep_on_steps : gmap string Q) (title' : option string) :
  handled (sleep_events sleep_on_steps title') = [].
Proof. unfold sleep_events. destruct (sleep_on _ _); reflexivity. Qed.

Lemma handled_step self locate st i :
  handled (step_events self locate st i) = [(st, i)].
Proof.
  unfold step_events. rewrite !handled_app, !handled_clicks.
  destruct (element st), (textinsert st); reflexivity.
Qed.

(** C7: for a tour of three steps of which only the second is skipped,
    and a driver that cooperates, [run_tour] runs all the sub-actions of
    the first and of the third step, in order, and calls the callback
    exactly twice: with the first step and index 0, and with the third step
    and index 2. *)
Theorem run_tour_second_of_three_skipped
    (self : NavigatesGalaxy) (path : string) (skip_steps : list string)
    (sleep_on_steps : gmap string Q) (locate : string → web_element)
    (s1 s2 s3 : step) (fuel : nat) (h : history) :
  cooperative locate →
  env_load_tour (h ++ [Home]) path = Return [s1; s2; s3] →
  ¬ skipped skip_steps s1 → skipped skip_steps s2 → ¬ skipped skip_steps s3 →
  (is_Some (textinsert s1) → is_Some (element s1)) →
  (is_Some (textinsert s3) → is_Some (element s3)) →
  (∀ t seconds, sleep_on_steps !! t = Some seconds → (0 <= seconds)%Q) →
  (1 ≤ fuel)%nat →
  let evs :=
    [Home; LoadTour path]
    ++ sleep_events sleep_on_steps (title s1) ++ step_events self locate s1 0
    ++ sleep_events sleep_on_steps (title s2)
    ++ sleep_events sleep_on_steps (title s3) ++ step_events self locate s3 2 in
  run_tour self path skip_steps sleep_on_steps (Some external_callback) fuel h
  = (Return tt, h ++ evs)
  ∧ handled evs = [(s1, 0%nat); (s3, 2%nat)].
Proof.
  intros Hcoop Hload Hs1 Hs2 Hs3 Hwf1 Hwf3 Hsleep Hfuel evs. split.
  - assert (Hpos : ∀ title' seconds,
      sleep_on sleep_on_steps title' = Some seconds → (0 <= seconds)%Q).
    { intros [t|] seconds; simpl; [apply Hsleep|discriminate]. }
    unfold run_tour.
    erewrite bind_Return
      by (unfold home, perform; rewrite (proj2 (proj2 (proj2 (proj2 (proj2 Hcoop))))); reflexivity).
    erewrite bind_Return by (unfold perform; rewrite Hload; reflexivity).
    cbn [enumerate enumerate_from for_each default].
    erewrite bind_Return.
    2:{ rewrite (run_tour_iteration_not_skipped _ _ _ _ _ _ Hs1).
        erewrite bind_Return by (apply sleep_on_step_run; apply Hpos).
        apply (run_tour_step_cooperative self locate Hcoop); assumption. }
    erewrite bind_Return.
    2:{ rewrite (run_tour_iteration_skipped _ _ _ _ _ _ Hs2).
        erewrite bind_Return by (apply sleep_on_step_run; apply Hpos).
        reflexivity. }
    erewrite bind_Return.
    2:{ rewrite (run_tour_iteration_not_skipped _ _ _ _ _ _ Hs3).
        erewrite bind_Return by (apply sleep_on_step_run; apply Hpos).
        apply (run_tour_step_cooperative self locate Hcoop); assumption. }
    unfold ret, evs. rewrite <- !app_assoc. reflexivity.
  - unfold evs. rewrite !handled_app, !handled_sleep, !handled_step. reflexivity.
Qed.

(** ** Lengths of waits and sleeps *)



End TourFacts.

(** ** One resolution of the hid per visibility wait *)

Section ResolutionFacts.
Context `{E : Env}.

Lemma emits_history_contents (P : event → Prop) id :
  (∀ endpoint, P (ApiGet endpoint)) → emits P (api_get_history_contents id).
Proof. intros HP. apply emits_perform, HP. Qed.

Lemma emits_wait_for_history_to_have_hid self id hid :
  emits resolution_event (wait_for_history_to_have_hid self id hid).
Proof.
  unfold wait_for_history_to_have_hid. apply emits_try_except.
  - apply emits_poll_until; try exact I.
    apply emits_bind; [|intros hids; apply emits_ret].
    apply emits_bind; [|intros contents; apply emits_ret].
    apply emits_history_contents. intros endpoint. exact I.
  - intros e. destruct (is_timeout e); [|apply emits_raise].
    apply emits_bind; [|intros hids; apply emits_raise].
    apply emits_bind; [|intros contents; apply emits_ret].
    apply emits_history_contents. intros endpoint. exact I.
Qed.

Lemma emits_hid_to_history_item hid id :
  emits resolution_event (hid_to_history_item hid id).
Proof.
  unfold hid_to_history_item. apply emits_bind.
  - destruct id; [apply emits_ret|apply emits_perform; exact I].
  - intros id'. apply emits_bind; [apply emits_history_contents; intros endpoint; exact I|].
    intros contents. destruct (filter _ contents); [apply emits_raise|apply emits_ret].
Qed.

Lemma emits_assert (P : event → Prop) (cond : bool) : emits P (assert cond).
Proof. destruct cond; [apply emits_ret|apply emits_raise]. Qed.

Lemma emits_history_panel_item_component self item hid multi :
  emits resolution_event (history_panel_item_component self item hid multi).
Proof.
  unfold history_panel_item_component.
  apply emits_bind; [apply emits_perform; exact I|].
  intros [|].
  - apply emits_bind; [apply emits_assert|intros _; apply emits_ret].
  - apply emits_bind; [|intros it; apply emits_ret].
    destruct item; [apply emits_ret|].
    apply emits_bind; [apply emits_assert|intros _; apply emits_hid_to_history_item].
Qed.

Lemma emits_resolve_item_selector self hid multi :
  emits resolution_event (resolve_item_selector self hid multi).
Proof.
  unfold resolve_item_selector.
  apply emits_bind; [apply emits_perform; exact I|intros id].
  apply emits_bind; [apply emits_wait_for_history_to_have_hid|intros _].
  apply emits_bind; [apply emits_hid_to_history_item|intros item].
  apply emits_history_panel_item_component.
Qed.

(** Every round of [history_item_wait_for] polls the selector it was
    given, and makes no request to the API. *)
Lemma emits_history_item_wait_for self sel n :
  emits (polling_event sel) (history_item_wait_for self sel n).
Proof.
  unfold history_item_wait_for. apply emits_while_true. intros attempt.
  unfold history_item_wait_for_round. apply emits_bind.
  - apply emits_try_except.
    + apply emits_bind; [|intros rval; apply emits_ret].
      apply emits_perform. split; reflexivity.
    + intros e. destruct (is_timeout e); [|apply emits_raise].
      destruct (attempt >=? n); [apply emits_raise|apply emits_ret].
  - intros [rval|]; [apply emits_ret|].
    apply emits_bind; [|intros _; apply emits_ret].
    unfold history_panel_refresh_click.
    apply emits_bind; [|intros _; apply emits_ret].
    unfold wait_for_and_click, retry_during_transitions.
    apply emits_retry; [|reflexivity].
    apply emits_bind; [apply emits_perform; reflexivity|intros el].
    apply emits_bind; [apply emits_perform; exact I|intros _; apply emits_ret].
Qed.

Lemma emits_report_visible (e : exception) (hid : Z) :
  emits report_event
    (let! contents_elements := find_elements HistoryPanelContents in
     let! div_ids :=
       (fix ids (ds : list web_element) : M (list string) :=
          match ds with
          | [] => ret []
          | d :: ds' =>
              let! i := get_attribute d "id" in
              let! rest := ids ds' in
              ret (("#" +:+ i) :: rest)
          end) contents_elements in
     let message := "Failed waiting on history item " +:+ pretty hid
                    +:+ " to become visible, visible datasets include ["
                    +:+ String.concat "," div_ids +:+ "]." in
     @raise unit (prepend_timeout_message e message)).
Proof.
  apply emits_bind; [apply emits_perform; exact I|intros contents_elements].
  apply emits_bind; [|intros div_ids; apply emits_raise].
  induction contents_elements as [|d ds IH]; [apply emits_ret|].
  apply emits_bind; [apply emits_perform; exact I|intros i].
  apply emits_bind; [exact IH|intros rest; apply emits_ret].
Qed.

Lemma try_except_phases (P2 P3 : event → Prop) {A} (m : M A) (handler : exception → M A) :
  emits P2 m → (∀ e, emits P3 (handler e)) →
  ∀ fuel h, ∃ evs2 evs3,
    (try_except m handler fuel h).2 = h ++ evs2 ++ evs3 ∧ Forall P2 evs2 ∧ Forall P3 evs3.
Proof.
  intros Hm Hk fuel h. destruct (Hm fuel h) as (evs & Hh & Hevs).
  unfold try_except. destruct (m fuel h) as [[a|e|] h']; simpl in Hh; subst h'.
  - exists evs, []. rewrite app_nil_r. repeat split; [assumption|constructor].
  - destruct (Hk e fuel (h ++ evs)) as (evs' & Hh' & Hevs').
    exists evs, evs'. rewrite Hh', app_assoc. repeat split; assumption.
  - exists evs, []. rewrite app_nil_r. repeat split; [assumption|constructor].
Qed.

Lemma bind_ret_history {A B} (m : M A) (b : B) fuel h :
  (bind m (λ _, ret b) fuel h).2 = (m fuel h).2.
Proof. unfold bind, ret. destruct (m fuel h) as [[a|e|] h']; reflexivity. Qed.

Lemma bind_ret_value {A B} (m : M A) (b b' : B) fuel h :
  (bind m (λ _, ret b) fuel h).1 = Return b' → b' = b.
Proof.
  unfold bind, ret. destruct (m fuel h) as [[a|e|] h']; simpl; intros Hr;
    [injection Hr as ->; reflexivity|discriminate|discriminate].
Qed.

(** [history_panel_wait_for_hid_visible] is the resolution of the
    selector followed by the wait on that selector. *)
Lemma history_panel_wait_for_hid_visible_parts self hid n multi fuel h :
  history_panel_wait_for_hid_visible self hid n multi fuel h
  = bind (resolve_item_selector self hid multi) (λ history_item_selector,
      try_except
        (history_item_wait_for self history_item_selector n ;;; ret tt)
        (λ e,
          if is_timeout e then
            let! contents_elements := find_elements HistoryPanelContents in
            let! div_ids :=
              (fix ids (ds : list web_element) : M (list string) :=
                 match ds with
                 | [] => ret []
                 | d :: ds' =>
                     let! i := get_attribute d "id" in
                     let! rest := ids ds' in
                     ret (("#" +:+ i) :: rest)
                 end) contents_elements in
            let message := "Failed waiting on history item " +:+ pretty hid
                           +:+ " to become visible, visible datasets include ["
                           +:+ String.concat "," div_ids +:+ "]." in
            raise (prepend_timeout_message e message)
          else raise e) ;;;
      ret history_item_selector) fuel h.
Proof.
  unfold history_panel_wait_for_hid_visible, resolve_item_selector. symmetry.
  rewrite bind_assoc. apply bind_ext. intros id h1.
  rewrite bind_assoc. apply bind_ext. intros [] h2.
  rewrite bind_assoc. apply bind_ext. intros item h3.
  reflexivity.
Qed.

(** How the selector of a visibility wait is built: from the listing of
    the contents that [hid_to_history_item] fetches at the end of the
    resolution, and from whether the panel is the beta history. *)
Lemma resolve_item_selector_built self hid multi fuel h s h' :
  resolve_item_selector self hid multi fuel h = (Return s, h') →
  ∃ id evs0 contents item beta,
    h' = h ++ evs0 ++ [ApiGet ("histories/" +:+ id +:+ "/contents"); IsBetaHistory]
    ∧ env_history_contents (h ++ evs0) id = Return contents
    ∧ head (filter (λ d, item_hid d = hid) contents) = Some item
    ∧ env_is_beta_history (h ++ evs0 ++ [ApiGet ("histories/" +:+ id +:+ "/contents")])
      = Return beta
    ∧ s = if beta then content_item_by_attributes [("hid", AttrInt hid)]
          else (if multi then MultiHistoryViewItem else HistoryPanelItem)
                 (item_history_content_type item) (item_id item).
Proof.
  unfold resolve_item_selector, current_history_id, perform.
  unfold bind at 1. destruct (env_current_history_id h) as [id|e|]; try discriminate.
  destruct (emits_wait_for_history_to_have_hid self id hid fuel (h ++ [CurrentHistoryJson]))
    as (evsw & Hhw & _).
  unfold bind at 1.
  destruct (wait_for_history_to_have_hid self id hid fuel (h ++ [CurrentHistoryJson]))
    as [[[]|e|] hw]; simpl in Hhw; subst hw; try discriminate.
  unfold hid_to_history_item, api_get_history_contents, perform, ret.
  unfold bind at 1 2 3.
  destruct (env_history_contents ((h ++ [CurrentHistoryJson]) ++ evsw) id)
    as [contents|e|] eqn:Hcontents; try discriminate.
  destruct (filter (λ d, item_hid d = hid) contents) as [|item rest] eqn:Hfilter;
    try discriminate.
  unfold history_panel_item_component, is_beta_history, perform.
  unfold bind at 1.
  destruct (env_is_beta_history
              (((h ++ [CurrentHistoryJson]) ++ evsw)
               ++ [ApiGet ("histories/" +:+ id +:+ "/contents")]))
    as [beta|e|] eqn:Hbeta; try discriminate.
  intros Hrun.
  exists id, (CurrentHistoryJson :: evsw), contents, item, beta.
  repeat rewrite <- app_assoc in Hcontents. repeat rewrite <- app_assoc in Hbeta.
  repeat rewrite <- app_assoc in Hrun. simpl in Hcontents, Hbeta, Hrun.
  simpl. rewrite Hfilter.
  assert (Hbuilt : h' = h ++ CurrentHistoryJson :: evsw
                        ++ [ApiGet ("histories/" +:+ id +:+ "/contents"); IsBetaHistory]
                   ∧ s = if beta then content_item_by_attributes [("hid", AttrInt hid)]
                         else (if multi then MultiHistoryViewItem else HistoryPanelItem)
                                (item_history_content_type item) (item_id item)).
  { destruct beta.
    - unfold bind, assert, ret, raise in Hrun. cbn [truthy_hid default] in Hrun.
      destruct (negb (hid =? 0)); [|discriminate Hrun].
      injection Hrun as <- <-. split; reflexivity.
    - unfold bind, ret in Hrun. injection Hrun as <- <-. split; reflexivity. }
  destruct Hbuilt as [-> ->].
  split; [reflexivity|]. split; [exact Hcontents|]. split; [reflexivity|].
  split; [exact Hbeta|reflexivity].
Qed.

(** C2, as the code has it: a visibility wait resolves the hid once,
    before the first poll.  Its events are those of the resolution (which
    polls nothing), then those of the polling rounds - every poll waits on
    one and the same selector [sel], the one returned in the end, and
    between polls there are only clicks on refresh, no request to the API -
    then those of the report of what is visible.  The selector is built at
    the end of the resolution: in the classic history from the content type
    and the id of the first item with the hid in the listing fetched last,
    in the beta history from the hid alone. *)
Theorem hid_resolved_once_per_visibility_wait
    (self : NavigatesGalaxy) (hid : Z) (allowed_force_refreshes : Z)
    (multi_history_panel : bool) (fuel : nat) (h : history) :
  ∃ sel evs1 evs2 evs3,
    (history_panel_wait_for_hid_visible self hid allowed_force_refreshes
       multi_history_panel fuel h).2 = h ++ evs1 ++ evs2 ++ evs3
    ∧ Forall resolution_event evs1
    ∧ Forall (polling_event sel) evs2
    ∧ Forall report_event evs3
    ∧ (∀ s, (history_panel_wait_for_hid_visible self hid allowed_force_refreshes
               multi_history_panel fuel h).1 = Return s → s = sel)
    ∧ (∀ r h', resolve_item_selector self hid multi_history_panel fuel h = (r, h') →
         h' = h ++ evs1 ∧ (∀ s, r = Return s → s = sel))
    ∧ (∀ s, (resolve_item_selector self hid multi_history_panel fuel h).1 = Return s →
         ∃ id evs0 contents item beta,
           evs1 = evs0 ++ [ApiGet ("histories/" +:+ id +:+ "/contents"); IsBetaHistory]
           ∧ env_history_contents (h ++ evs0) id = Return contents
           ∧ head (filter (λ d, item_hid d = hid) contents) = Some item
           ∧ env_is_beta_history
               (h ++ evs0 ++ [ApiGet ("histories/" +:+ id +:+ "/contents")]) = Return beta
           ∧ sel = if beta then content_item_by_attributes [("hid", AttrInt hid)]
                   else (if multi_history_panel then MultiHistoryViewItem
                         else HistoryPanelItem)
                          (item_history_content_type item) (item_id item)).
Proof.
  rewrite history_panel_wait_for_hid_visible_parts.
  destruct (emits_resolve_item_selector self hid multi_history_panel fuel h)
    as (evs1 & Hh1 & Hevs1).
  destruct (resolve_item_selector self hid multi_history_panel fuel h)
    as [[sel|e|] h1] eqn:Hres; simpl in Hh1; subst h1.
  - rewrite (bind_Return _ _ _ _ _ _ Hres).
    match goal with |- context [try_except ?m ?k] =>
      destruct (try_except_phases (polling_event sel) report_event m k) with
        (fuel := fuel) (h := h ++ evs1) as (evs2 & evs3 & Hh & Hevs2 & Hevs3)
    end.
    + apply emits_bind; [apply emits_history_item_wait_for|intros _; apply emits_ret].
    + intros e. destruct (is_timeout e); [apply emits_report_visible|apply emits_raise].
    + exists sel, evs1, evs2, evs3. rewrite bind_ret_history, Hh, <- app_assoc.
      repeat split; try assumption.
      * intros s Hs. exact (bind_ret_value _ _ _ _ _ Hs).
      * congruence.
      * congruence.
      * intros s [= <-].
        destruct (resolve_item_selector_built _ _ _ _ _ _ _ Hres)
          as (id & evs0 & contents & item & beta & Hh1 & Hbuilt).
        exists id, evs0, contents, item, beta.
        split; [exact (app_inv_head _ _ _ Hh1)|exact Hbuilt].
  - rewrite (bind_Raise _ _ _ _ _ _ Hres).
    exists HistoryPanelContents, evs1, [], []. rewrite !app_nil_r. simpl.
    repeat split; try assumption; try constructor; congruence.
  - rewrite (bind_OutOfFuel _ _ _ _ _ Hres).
    exists HistoryPanelContents, evs1, [], []. rewrite !app_nil_r. simpl.
    repeat split; try assumption; try constructor; congruence.
Qed.
End ResolutionFacts.

(** ** The lengths of the waits and sleeps of the core *)

Section TimingFacts.
Context `{E : Env}.





End TimingFacts.

(** * Concrete runs *)

Lemma Qle_0_tenth : (0 <= 1 # 10)%Q.
Proof. unfold Qle. simpl. lia. Qed.

Lemma retry_call_reraises_rejected_error_witness :
  @retry_call_during_transitions pyvalue (@invoke missing_element_env "click") 10 (1 # 10)
    (@exception_seems_to_indicate_transition missing_element_env) 1%nat []
  = (Raise (WebDriverException "no such element"), [Invoke "click"]).
Proof.
  apply (@retry_call_reraises_rejected_error missing_element_env
    "click" 10 (1 # 10) 1%nat [] (WebDriverException "no such element"));
    [lia | reflexivity | reflexivity | reflexivity].
Defined.

Lemma retry_call_attempts_budget_witness :
  @retry_call_during_transitions pyvalue (@invoke stale_element_env "click") 1 (1 # 10)
    (@exception_seems_to_indicate_transition stale_element_env) 3%nat []
  = (Raise (WebDriverException "stale element reference"),
     [Invoke "click"; Sleep (1 # 10); Invoke "click"; Sleep (1 # 10); Invoke "click"])
  ∧ @retry_call_during_transitions pyvalue (@invoke overlay_env "click") 1 (1 # 10)
      (@exception_seems_to_indicate_transition overlay_env) 3%nat []
    = (Return (PyStr "clicked"),
       [Invoke "click"; Sleep (1 # 10); Invoke "click"; Sleep (1 # 10); Invoke "click"]).
Proof.
  split.
  - apply (proj1 (@retry_call_attempts_budget stale_element_env
      "click" 1 (1 # 10) (λ _, WebDriverException "stale element reference") 3%nat []
      ltac:(lia) Qle_0_tenth ltac:(simpl; lia))).
    intros j Hj. split; reflexivity.
  - apply (proj2 (@retry_call_attempts_budget overlay_env
      "click" 1 (1 # 10)
      (λ _, WebDriverException "element is not clickable at point (10, 20)") 3%nat []
      ltac:(lia) Qle_0_tenth ltac:(simpl; lia)) 2%nat (PyStr "clicked")).
    + simpl. lia.
    + intros [|[|j]] Hj; try lia; split; reflexivity.
    + reflexivity.
Defined.

Lemma history_item_wait_for_refreshes_witness :
  @history_item_wait_for refresh_env (galaxy 1)
    (HistoryPanelItem "dataset" "id-before-refresh") 1 2%nat []
  = (Return (el_of "dataset-7"),
     [WaitForVisible (HistoryPanelItem "dataset" "id-before-refresh") WAIT_TYPES.JOB_COMPLETION;
      WaitForClickable HistoryPanelRefreshButton;
      Click (el_of "history-refresh-button");
      WaitForVisible (HistoryPanelItem "dataset" "id-before-refresh") WAIT_TYPES.JOB_COMPLETION])
  ∧ @history_item_wait_for stuck_env (galaxy 1)
      (HistoryPanelItem "dataset" "id-before-refresh") 1 2%nat []
    = (Raise (TimeoutException "Timeout waiting on history item."),
       [WaitForVisible (HistoryPanelItem "dataset" "id-before-refresh") WAIT_TYPES.JOB_COMPLETION;
        WaitForClickable HistoryPanelRefreshButton;
        Click (el_of "history-refresh-button");
        WaitForVisible (HistoryPanelItem "dataset" "id-before-refresh") WAIT_TYPES.JOB_COMPLETION]).
Proof.
  split.
  - apply (proj1 (@history_item_wait_for_refreshes refresh_env (galaxy 1)
      (HistoryPanelItem "dataset" "id-before-refresh") (el_of "history-refresh-button")
      1 2%nat [] (λ _, "Timeout waiting on history item.")
      ltac:(lia) ltac:(simpl; lia)) 1%nat (el_of "dataset-7")); [lia| |reflexivity].
    intros [|j] Hj; [|lia]. split; [reflexivity|split; reflexivity].
  - apply (proj2 (@history_item_wait_for_refreshes stuck_env (galaxy 1)
      (HistoryPanelItem "dataset" "id-before-refresh") (el_of "history-refresh-button")
      1 2%nat [] (λ _, "Timeout waiting on history item.")
      ltac:(lia) ltac:(simpl; lia))).
    + intros j Hj. reflexivity.
    + intros j Hj. split; reflexivity.
Defined.


Lemma skipped_Wait : skipped ["Wait"] step_wait.
Proof. exists "Wait". split; [reflexivity|by_decision]. Qed.

Lemma not_skipped_Upload : ¬ skipped ["Wait"] step_upload.
Proof. rewrite skipped_elem_of. by_decision. Qed.

Lemma not_skipped_Close : ¬ skipped ["Wait"] step_close.
Proof. rewrite skipped_elem_of. by_decision. Qed.

Lemma sleep_on_Wait_nonneg (t : string) (seconds : Q) :
  ({["Wait" := 5%Q]} : gmap string Q) !! t = Some seconds → (0 <= seconds)%Q.
Proof.
  intros Hsec. apply lookup_singleton_Some in Hsec as [_ <-].
  unfold Qle. simpl. lia.
Qed.

Lemma plain_env_cooperative (tour : list step) : @cooperative (plain_env tour) el_of.
Proof. repeat split. Qed.

(** The claim C3 fails as stated: a skipped step whose title has an entry
    in [sleep_on_steps] still sleeps. *)
Lemma skipped_step_sleeps_counterexample :
  ¬ (∀ (E : Env) (self : NavigatesGalaxy) (skip_steps : list string)
       (sleep_on_steps : gmap string Q) (cb : TourCallback) (i : nat) (st : step)
       (fuel : nat) (h : history),
       skipped skip_steps st →
       (run_tour_iteration self skip_steps sleep_on_steps cb i st fuel h).2 = h).
Proof.
  intros Hclaim.
  specialize (Hclaim (plain_env [step_wait]) (galaxy 1) ["Wait"] {["Wait" := 5%Q]}
                NullTourCallback 0%nat step_wait 1%nat [] skipped_Wait).
  vm_compute in Hclaim. discriminate Hclaim.
Qed.

Lemma run_tour_skipped_step_only_sleeps_witness :
  ∃ r evs,
    @run_tour_iteration (plain_env [step_wait]) (galaxy 1) ["Wait"] {["Wait" := 5%Q]}
      NullTourCallback 0%nat step_wait 1%nat [] = (r, [] ++ evs)
    ∧ (evs = [] ∨ ∃ seconds,
         sleep_on {["Wait" := 5%Q]} (title step_wait) = Some seconds ∧ evs = [Sleep seconds])
    ∧ (∀ seconds, sleep_on {["Wait" := 5%Q]} (title step_wait) = Some seconds →
         (0 <= seconds)%Q → r = Return tt ∧ evs = [Sleep seconds]).
Proof.
  apply (@run_tour_skipped_step_only_sleeps (plain_env [step_wait]) (galaxy 1) ["Wait"]
    {["Wait" := 5%Q]} NullTourCallback 0%nat step_wait 1%nat [] skipped_Wait).
Defined.

Lemma run_tour_second_of_three_skipped_witness :
  @run_tour (plain_env [step_upload; step_wait; step_close]) (galaxy 1) "tour.yaml" ["Wait"]
    {["Wait" := 5%Q]}
    (Some (@external_callback (plain_env [step_upload; step_wait; step_close]))) 1%nat []
  = (Return tt,
     [Home; LoadTour "tour.yaml";
      NewWait (float_of_Z 30); ReadClock; SizzleClickable "#tool-panel-upload-button";
      Click (el_of "#tool-panel-upload-button");
      NewWait (float_of_Z 30); ReadClock; SizzlePresent ".upload-box";
      SendKeys (el_of ".upload-box") "1 2 3";
      HandleStep step_upload 0;
      NewWait (float_of_Z 30); ReadClock; SizzleClickable "#btn-start"; Click (el_of "#btn-start");
      Sleep 5;
      NewWait (float_of_Z 30); ReadClock; SizzleClickable "#btn-close"; Click (el_of "#btn-close");
      HandleStep step_close 2])
  ∧ handled
      [Home; LoadTour "tour.yaml";
       NewWait (float_of_Z 30); ReadClock; SizzleClickable "#tool-panel-upload-button";
       Click (el_of "#tool-panel-upload-button");
       NewWait (float_of_Z 30); ReadClock; SizzlePresent ".upload-box";
       SendKeys (el_of ".upload-box") "1 2 3";
       HandleStep step_upload 0;
       NewWait (float_of_Z 30); ReadClock; SizzleClickable "#btn-start"; Click (el_of "#btn-start");
       Sleep 5;
       NewWait (float_of_Z 30); ReadClock; SizzleClickable "#btn-close"; Click (el_of "#btn-close");
       HandleStep step_close 2]
    = [(step_upload, 0%nat); (step_close, 2%nat)].
Proof.
  destruct (@run_tour_second_of_three_skipped (plain_env [step_upload; step_wait; step_close])
    (galaxy 1) "tour.yaml" ["Wait"] {["Wait" := 5%Q]} el_of
    step_upload step_wait step_close 1%nat []) as [Hrun Hhandled].
  - apply plain_env_cooperative.
  - reflexivity.
  - exact not_skipped_Upload.
  - exact skipped_Wait.
  - exact not_skipped_Close.
  - intros _. eexists. reflexivity.
  - intros [x Hx]. discriminate Hx.
  - exact sleep_on_Wait_nonneg.
  - lia.
  - split; [exact Hrun|exact Hhandled].
Defined.



Lemma run_tour_step_textinsert_without_element_witness :
  @run_tour_step (plain_env [step_broken]) (galaxy 1) step_broken 0%nat
    (@external_callback (plain_env [step_broken])) 1%nat []
  = (Raise (UnboundLocalError "element"),
     [NewWait (float_of_Z 30); ReadClock; SizzleClickable "#btn-close";
      Click (el_of "#btn-close")]).
Proof.
  apply (proj2 (@run_tour_step_textinsert_without_element (plain_env [step_broken])
    (galaxy 1) step_broken 0%nat (@external_callback (plain_env [step_broken])) 1%nat []
    "text" eq_refl eq_refl) el_of).
  - apply plain_env_cooperative.
  - lia.
Defined.

(** The claim C2 fails as stated: the poll that follows a click on refresh
    waits on the selector built before the click; the hid has not been
    resolved again, although the item has another id by then. *)
Lemma hid_resolution_cached_counterexample :
  ¬ (∀ (E : Env) (self : NavigatesGalaxy) (hid : Z) (allowed_force_refreshes : Z)
       (multi_history_panel : bool) (fuel : nat) (h : history),
       ∃ evs,
         (history_panel_wait_for_hid_visible self hid allowed_force_refreshes
            multi_history_panel fuel h).2 = h ++ evs
         ∧ polls_resolved_afresh false evs = true).
Proof.
  intros Hclaim.
  destruct (Hclaim refresh_env (galaxy 1) 7 1 false 2%nat []) as (evs & Hh & Hfresh).
  vm_compute in Hh. subst evs. vm_compute in Hfresh. discriminate Hfresh.
Qed.

Example visibility_wait_after_refresh :
  @history_panel_wait_for_hid_visible refresh_env (galaxy 1) 7 1 false 2%nat []
  = (Return (HistoryPanelItem "dataset" "id-before-refresh"),
     [CurrentHistoryJson;
      NewWait (float_of_Z 30); ReadClock; ApiGet "histories/f2db41e1fa331b3e/contents";
      ApiGet "histories/f2db41e1fa331b3e/contents";
      IsBetaHistory;
      WaitForVisible (HistoryPanelItem "dataset" "id-before-refresh") WAIT_TYPES.JOB_COMPLETION;
      WaitForClickable HistoryPanelRefreshButton;
      Click (el_of "history-refresh-button");
      WaitForVisible (HistoryPanelItem "dataset" "id-before-refresh") WAIT_TYPES.JOB_COMPLETION]).
Proof. vm_compute. reflexivity. Qed.
(** * Wait lengths in float arithmetic *)

Section FloatFacts.

(** ** Shifts and numbers of bits *)





























(** The durations of the two sides of the counterexample, and what an
    overflow of the doubled multiplier does to a length below one second. *)
Example wait_length_underflow :
  wait_length {| timeout_multiplier := float_smallest |}
    {| name := "blink"; default_length := float_half |} = S754_zero false
  ∧ wait_length {| timeout_multiplier := float_mul (float_of_Z 2) float_smallest |}
       {| name := "blink"; default_length := float_half |} = float_smallest.
Proof. split; reflexivity. Qed.

Example wait_length_overflow :
  let largest_power := S754_finite false 4503599627370496 971 in
  wait_length {| timeout_multiplier := float_mul (float_of_Z 2) largest_power |}
    {| name := "blink"; default_length := float_half |} = S754_infinity false
  ∧ float_mul (float_of_Z 2)
       (wait_length {| timeout_multiplier := largest_power |}
          {| name := "blink"; default_length := float_half |}) = largest_power.
Proof. split; reflexivity. Qed.
End FloatFacts.

(** * Further properties of the retry executor *)

Section RetryBounds.
Context `{E : Env}.

Lemma count_events_app (p : event → bool) (evs evs' : list event) :
  count_events p (evs ++ evs') = (count_events p evs + count_events p evs')%nat.
Proof. unfold count_events. rewrite List.filter_app, length_app. reflexivity. Qed.

(** One round of the retry loop calls the operation once; it goes on to
    the next round only below the budget, and then after one sleep. *)
Lemma retry_round_events (op : string) attempts sleep check prev fuel h :
  ∃ r evs,
    retry_round (invoke op) attempts sleep check prev fuel h = (r, h ++ evs)
    ∧ count_events is_invoke evs = 1%nat
    ∧ (count_events is_sleep evs ≤ 1)%nat
    ∧ (∀ prev', r = Return (inl prev') → prev ≤ attempts ∧ prev' = prev + 1)
    ∧ ((∀ prev', r ≠ Return (inl prev')) → count_events is_sleep evs = 0%nat).
Proof.
  unfold retry_round, try_except, bind at 1, invoke, perform.
  destruct (env_invoke h op) as [a|e|].
  - exists (Return (inr a)), [Invoke op]. split; [reflexivity|].
    repeat split; intros; first [congruence | reflexivity | (compute; lia)].
  - destruct (Z.gtb_spec prev attempts) as [Hgt|Hle].
    + exists (Raise e), [Invoke op]. split; [reflexivity|].
      repeat split; intros; first [congruence | reflexivity | (compute; lia)].
    + destruct (negb (check e)).
      * exists (Raise e), [Invoke op]. split; [reflexivity|].
        repeat split; intros; first [congruence | reflexivity | (compute; lia)].
      * unfold bind, time_sleep. destruct (Qlt_le_dec sleep 0).
        -- eexists _, [Invoke op]. split; [reflexivity|].
           repeat split; intros; first [congruence | reflexivity | (compute; lia)].
        -- exists (Return (inl (prev + 1))), [Invoke op; Sleep sleep].
           split; [unfold perform, ret; rewrite <- app_assoc; reflexivity|].
           split; [reflexivity|]. split; [compute; lia|]. split.
           ++ intros prev' [= <-]. split; [exact Hle|reflexivity].
           ++ intros Hno. exfalso. exact (Hno _ eq_refl).
  - exists OutOfFuel, [Invoke op]. split; [reflexivity|].
    repeat split; intros; first [congruence | reflexivity | (compute; lia)].
Qed.

Lemma retry_iterate_bounded (op : string) attempts sleep check rounds :
  ∀ prev fuel h, ∃ evs,
    (iterate (retry_round (invoke op) attempts sleep check) rounds prev fuel h).2 = h ++ evs
    ∧ (count_events is_invoke evs ≤ Z.to_nat (attempts + 1 - prev) + 1)%nat
    ∧ (count_events is_sleep evs ≤ Z.to_nat (attempts + 1 - prev))%nat.
Proof.
  induction rounds as [|rounds IH]; intros prev fuel h.
  - exists []. rewrite app_nil_r. unfold count_events. simpl.
    split; [reflexivity|]. split; lia.
  - cbn [iterate].
    destruct (retry_round_events op attempts sleep check prev fuel h)
      as (r & evs & Hrun & Hinv & Hsl & Hnext & Hstop).
    rewrite Hrun. destruct r as [[prev'|a]|e|].
    + destruct (Hnext prev' eq_refl) as [Hle ->].
      destruct (IH (prev + 1) fuel (h ++ evs)) as (evs' & Hh & Hinv' & Hsl').
      exists (evs ++ evs'). rewrite Hh, app_assoc, !count_events_app.
      split; [reflexivity|]. split; lia.
    + exists evs. rewrite Hstop by congruence. split; [reflexivity|]. split; lia.
    + exists evs. rewrite Hstop by congruence. split; [reflexivity|]. split; lia.
    + exists evs. rewrite Hstop by congruence. split; [reflexivity|]. split; lia.
Qed.

(** X1: whatever the wrapped operation does, whatever the check accepts
    and however much fuel there is, [retry_call_during_transitions] with
    budget [attempts] calls the operation at most [attempts + 2] times
    (once when the budget is negative) and sleeps at most [attempts + 1]
    times. *)
Theorem retry_call_calls_bounded
    (op : string) (attempts : Z) (sleep : Q) (check : exception → bool)
    (fuel : nat) (h : history) :
  ∃ evs,
    (retry_call_during_transitions (invoke op) attempts sleep check fuel h).2 = h ++ evs
    ∧ (count_events is_invoke evs ≤ Z.to_nat (attempts + 1) + 1)%nat
    ∧ (count_events is_sleep evs ≤ Z.to_nat (attempts + 1))%nat.
Proof.
  unfold retry_call_during_transitions, while_true.
  destruct (retry_iterate_bounded op attempts sleep check fuel 0 fuel h)
    as (evs & Hh & Hinv & Hsl).
  exists evs. rewrite Z.sub_0_r in Hinv, Hsl. repeat split; assumption.
Qed.

(** X2: an error the check rejects is never retried, also when it comes
    after transient failures: after [k] failed attempts within the budget,
    a rejected error at the next call is re-raised at once, before any
    further sleep. *)
Theorem retry_call_rejected_after_retries
    (op : string) (attempts : Z) (sleep : Q) (errs : nat → exception)
    (fuel : nat) (h : history) (k : nat) (e : exception) :
  (0 <= sleep)%Q → Z.of_nat k ≤ attempts + 1 → (k + 1 ≤ fuel)%nat →
  (∀ j, (j < k)%nat →
     env_invoke (h ++ failed_attempts op sleep j) op = Raise (errs j)
     ∧ exception_seems_to_indicate_transition (errs j) = true) →
  env_invoke (h ++ failed_attempts op sleep k) op = Raise e →
  exception_seems_to_indicate_transition e = false →
  retry_call_during_transitions (invoke op) attempts sleep
    exception_seems_to_indicate_transition fuel h
  = (Raise e, h ++ failed_attempts op sleep k ++ [Invoke op]).
Proof.
  intros Hs Hk Hfuel Hfail He Hrej.
  unfold retry_call_during_transitions, while_true.
  replace fuel with (k + S (fuel - k - 1))%nat at 1 by lia.
  rewrite (retry_failed_attempts op attempts sleep errs) by first [lia | assumption].
  erewrite retry_iterate_reraise; [| rewrite invoke_run, He; reflexivity | right; exact Hrej].
  rewrite <- app_assoc. reflexivity.
Qed.

(** X3: with a negative budget nothing is retried: the first failure is
    re-raised, transient or not, after a single call. *)
Theorem retry_call_negative_budget
    (op : string) (attempts : Z) (sleep : Q) (check : exception → bool)
    (fuel : nat) (h : history) (e : exception) :
  attempts < 0 → (1 ≤ fuel)%nat →
  env_invoke h op = Raise e →
  retry_call_during_transitions (invoke op) attempts sleep check fuel h
  = (Raise e, h ++ [Invoke op]).
Proof.
  intros Hneg Hfuel He. unfold retry_call_during_transitions, while_true.
  destruct fuel as [|n]; [lia|].
  erewrite retry_iterate_reraise; [reflexivity| rewrite invoke_run, He; reflexivity |left; lia].
Qed.
End RetryBounds.

(** * Further properties of the clicks and of the visibility waiter *)

Section WaiterExtras.
Context `{E : Env}.

(** X4: [wait_for_and_click] looks the element up again on each attempt.
    When the click on the element found first fails with a transient
    error, the selector is waited for again after the sleep, and the
    element found then is clicked and returned. *)
Theorem wait_for_and_click_locates_again
    (self : NavigatesGalaxy) (sel : selector) (el1 el2 : web_element) (e : exception)
    (fuel : nat) (h : history) :
  let retried :=
    h ++ [WaitForClickable sel; Click el1; Sleep RETRY_DURING_TRANSITIONS_SLEEP_DEFAULT] in
  (2 ≤ fuel)%nat →
  env_wait_for_clickable h sel = Return el1 →
  env_click (h ++ [WaitForClickable sel]) el1 = Raise e →
  exception_seems_to_indicate_transition e = true →
  env_wait_for_clickable retried sel = Return el2 →
  env_click (retried ++ [WaitForClickable sel]) el2 = Return tt →
  wait_for_and_click self sel fuel h
  = (Return el2, retried ++ [WaitForClickable sel; Click el2]).
Proof.
  intros retried Hfuel Hfind1 Hclick1 He Hfind2 Hclick2.
  set (f := let! el := wait_for_clickable self sel in click el ;;; ret el).
  assert (Hf1 : ∀ fuel', f fuel' h = (Raise e, h ++ [WaitForClickable sel; Click el1])).
  { intros fuel'. unfold f, wait_for_clickable, click, perform, bind.
    rewrite Hfind1, Hclick1, <- app_assoc. reflexivity. }
  assert (Hf2 : ∀ fuel',
    f fuel' retried = (Return el2, retried ++ [WaitForClickable sel; Click el2])).
  { intros fuel'. unfold f, wait_for_clickable, click, perform, bind, ret.
    rewrite Hfind2, Hclick2, <- app_assoc. reflexivity. }
  unfold wait_for_and_click, retry_during_transitions, retry_call_during_transitions,
    while_true. fold f.
  destruct fuel as [|[|n]]; try lia.
  rewrite (retry_iterate_again f RETRY_DURING_TRANSITIONS_ATTEMPTS_DEFAULT _ _ _ 0 _ _ _ _
             (Hf1 _) ltac:(unfold RETRY_DURING_TRANSITIONS_ATTEMPTS_DEFAULT; lia)
             He Qle_0_tenth).
  assert (Hretried : retried
    = (h ++ [WaitForClickable sel; Click el1])
      ++ [Sleep RETRY_DURING_TRANSITIONS_SLEEP_DEFAULT])
    by (unfold retried; rewrite <- app_assoc; reflexivity).
  rewrite Hretried in Hf2 |- *.
  rewrite (retry_iterate_return f _ _ _ _ _ _ _ _ _ (Hf2 _)). reflexivity.
Qed.

Lemma filter_hid_first (hid : Z) (before after : list history_item) (item : history_item) :
  item_hid item = hid → Forall (λ d, item_hid d ≠ hid) before →
  filter (λ d, item_hid d = hid) (before ++ item :: after)
  = item :: filter (λ d, item_hid d = hid) after.
Proof.
  intros Hitem Hbefore. induction Hbefore as [|d before Hd _ IH]; simpl.
  - rewrite filter_cons_True by exact Hitem. reflexivity.
  - rewrite filter_cons_False by exact Hd. exact IH.
Qed.

Lemma filter_hid_none (hid : Z) (contents : list history_item) :
  Forall (λ d, item_hid d ≠ hid) contents →
  filter (λ d, item_hid d = hid) contents = [].
Proof.
  intros Hall. induction Hall as [|d contents Hd _ IH]; [reflexivity|].
  rewrite filter_cons_False by exact Hd. exact IH.
Qed.

(** X5: [hid_to_history_item] returns the first item of the contents
    listing that has the hid - items further down with the same hid are
    ignored - and raises [IndexError] when no item has it. *)
Theorem hid_to_history_item_first_match
    (hid : Z) (id : string) (fuel : nat) (h : history) (contents : list history_item) :
  env_history_contents h id = Return contents →
  (∀ before item after,
     contents = before ++ item :: after →
     item_hid item = hid → Forall (λ d, item_hid d ≠ hid) before →
     hid_to_history_item hid (Some id) fuel h
     = (Return item, h ++ [ApiGet ("histories/" +:+ id +:+ "/contents")]))
  ∧ (Forall (λ d, item_hid d ≠ hid) contents →
     hid_to_history_item hid (Some id) fuel h
     = (Raise (IndexError "list index out of range"),
        h ++ [ApiGet ("histories/" +:+ id +:+ "/contents")])).
Proof.
  intros Hcontents. split.
  - intros before item after -> Hitem Hbefore.
    unfold hid_to_history_item, api_get_history_contents, perform, bind, ret.
    rewrite Hcontents, (filter_hid_first _ _ _ _ Hitem Hbefore). reflexivity.
  - intros Hnone.
    unfold hid_to_history_item, api_get_history_contents, perform, bind, ret.
    rewrite Hcontents, (filter_hid_none _ _ Hnone). reflexivity.
Qed.

(** X6: in the beta history [history_panel_item_component] addresses the
    item by its hid alone: the history item passed in is not looked at, no
    request goes to the API, and a missing or zero hid fails the
    assertion. *)
Theorem item_component_in_beta_history
    (self : NavigatesGalaxy) (item : option history_item) (hid : option Z)
    (multi_history_panel : bool) (fuel : nat) (h : history) :
  env_is_beta_history h = Return true →
  (∀ z, hid = Some z → z ≠ 0 →
     history_panel_item_component self item hid multi_history_panel fuel h
     = (Return (HistoryPanelContentItem [("hid", AttrInt z)]), h ++ [IsBetaHistory]))
  ∧ (hid = None ∨ hid = Some 0 →
     history_panel_item_component self item hid multi_history_panel fuel h
     = (Raise (AssertionError EmptyString), h ++ [IsBetaHistory])).
Proof.
  intros Hbeta. split.
  - intros z -> Hz.
    unfold history_panel_item_component, is_beta_history, perform, bind at 1.
    rewrite Hbeta. simpl. destruct (Z.eqb_spec z 0); [contradiction|reflexivity].
  - intros Hhid.
    unfold history_panel_item_component, is_beta_history, perform, bind at 1.
    rewrite Hbeta. destruct Hhid as [-> | ->]; reflexivity.
Qed.

(** X7: in the classic history [history_panel_item_component] builds the
    selector from the content type and the id of the history item.  An
    item passed in is used as it is, without any request and whatever the
    hid; without one, the item is looked up by the hid in the contents of
    the history that is current at that moment. *)
Theorem item_component_in_classic_history
    (self : NavigatesGalaxy) (multi_history_panel : bool) (fuel : nat) (h : history) :
  env_is_beta_history h = Return false →
  let item_selector :=
    if multi_history_panel then MultiHistoryViewItem else HistoryPanelItem in
  (∀ item hid,
     history_panel_item_component self (Some item) hid multi_history_panel fuel h
     = (Return (item_selector (item_history_content_type item) (item_id item)),
        h ++ [IsBetaHistory]))
  ∧ (∀ hid id before item after,
       hid ≠ 0 →
       env_current_history_id (h ++ [IsBetaHistory]) = Return id →
       env_history_contents (h ++ [IsBetaHistory; CurrentHistoryJson]) id
       = Return (before ++ item :: after) →
       item_hid item = hid → Forall (λ d, item_hid d ≠ hid) before →
       history_panel_item_component self None (Some hid) multi_history_panel fuel h
       = (Return (item_selector (item_history_content_type item) (item_id item)),
          h ++ [IsBetaHistory; CurrentHistoryJson;
                ApiGet ("histories/" +:+ id +:+ "/contents")])).
Proof.
  intros Hclassic item_selector. split.
  - intros item hid.
    unfold history_panel_item_component, is_beta_history, perform, bind at 1.
    rewrite Hclassic. reflexivity.
  - intros hid id before item after Hhid Hid Hcontents Hitem Hbefore.
    unfold history_panel_item_component, is_beta_history, perform, bind at 1.
    rewrite Hclassic. cbn [truthy_hid default].
    destruct (Z.eqb_spec hid 0); [contradiction|]. simpl negb. cbv iota.
    erewrite bind_Return.
    2:{ erewrite bind_Return by reflexivity.
        unfold hid_to_history_item, current_history_id, api_get_history_contents,
          perform, bind, ret.
        rewrite Hid, <- app_assoc. simpl. rewrite Hcontents.
        rewrite (filter_hid_first _ _ _ _ Hitem Hbefore), <- app_assoc. reflexivity. }
    reflexivity.
Qed.

Lemma visible_ids_run (ident : web_element → string) (els : list web_element) fuel h :
  (∀ h' el, env_get_attribute h' el "id" = Return (ident el)) →
  (fix ids (ds : list web_element) : M (list string) :=
     match ds with
     | [] => ret []
     | d :: ds' =>
         let! i := get_attribute d "id" in
         let! rest := ids ds' in
         ret (("#" +:+ i) :: rest)
     end) els fuel h
  = (Return ((λ el, "#" +:+ ident el) <$> els),
     h ++ ((λ el, GetAttribute el "id") <$> els)).
Proof.
  intros Hident. revert h. induction els as [|d ds IH]; intros h.
  - simpl. unfold ret. rewrite app_nil_r. reflexivity.
  - unfold bind at 1, get_attribute, perform. rewrite Hident.
    unfold bind at 1. rewrite IH. unfold ret. simpl. rewrite <- app_assoc. reflexivity.
Qed.

(** X8: when the wait for the item ends in a timeout,
    [history_panel_wait_for_hid_visible] looks up the elements of the
    history contents that are there at that moment and raises the timeout
    with a message in front of the original one, naming the hid and
    listing their ids. *)
Theorem hid_visible_timeout_lists_visible_items
    (self : NavigatesGalaxy) (hid n : Z) (multi_history_panel : bool)
    (fuel : nat) (h h1 h2 : history) (sel : selector) (msg : string)
    (els : list web_element) (ident : web_element → string) :
  resolve_item_selector self hid multi_history_panel fuel h = (Return sel, h1) →
  history_item_wait_for self sel n fuel h1 = (Raise (TimeoutException msg), h2) →
  env_find_elements h2 HistoryPanelContents = Return els →
  (∀ h' el, env_get_attribute h' el "id" = Return (ident el)) →
  history_panel_wait_for_hid_visible self hid n multi_history_panel fuel h
  = (Raise (TimeoutException
       (("Failed waiting on history item " +:+ pretty hid
         +:+ " to become visible, visible datasets include ["
         +:+ String.concat "," ((λ el, "#" +:+ ident el) <$> els) +:+ "].") +:+ msg)),
     h2 ++ FindElements HistoryPanelContents :: ((λ el, GetAttribute el "id") <$> els)).
Proof.
  intros Hresolve Hwait Hfind Hident.
  rewrite history_panel_wait_for_hid_visible_parts.
  rewrite (bind_Return _ _ _ _ _ _ Hresolve).
  erewrite bind_Raise; [reflexivity|].
  unfold try_except. rewrite (bind_Raise _ _ _ _ _ _ Hwait). cbn [is_timeout].
  unfold bind at 1, find_elements, perform. rewrite Hfind.
  unfold bind at 1. rewrite (visible_ids_run ident els _ _ Hident).
  unfold raise, prepend_timeout_message.
  rewrite <- app_assoc. reflexivity.
Qed.

(** X9: otherwise [history_panel_wait_for_hid_visible] adds nothing to
    what the wait for the item did: when the wait returns, the selector
    that was polled is returned; an error of the wait that is not a
    timeout is raised as it is, and the visible elements are not looked
    up. *)
Theorem hid_visible_returns_polled_selector
    (self : NavigatesGalaxy) (hid n : Z) (multi_history_panel : bool)
    (fuel : nat) (h h1 h2 : history) (sel : selector) :
  resolve_item_selector self hid multi_history_panel fuel h = (Return sel, h1) →
  (∀ el, history_item_wait_for self sel n fuel h1 = (Return el, h2) →
     history_panel_wait_for_hid_visible self hid n multi_history_panel fuel h
     = (Return sel, h2))
  ∧ (∀ e, history_item_wait_for self sel n fuel h1 = (Raise e, h2) →
     is_timeout e = false →
     history_panel_wait_for_hid_visible self hid n multi_history_panel fuel h
     = (Raise e, h2)).
Proof.
  intros Hresolve. split.
  - intros el Hwait. rewrite history_panel_wait_for_hid_visible_parts.
    rewrite (bind_Return _ _ _ _ _ _ Hresolve).
    erewrite bind_Return; [reflexivity|].
    unfold try_except. rewrite (bind_Return _ _ _ _ _ _ Hwait). reflexivity.
  - intros e Hwait He. rewrite history_panel_wait_for_hid_visible_parts.
    rewrite (bind_Return _ _ _ _ _ _ Hresolve).
    erewrite bind_Raise; [reflexivity|].
    unfold try_except. rewrite (bind_Raise _ _ _ _ _ _ Hwait), He. reflexivity.
Qed.

Lemma count_events_none (p : event → bool) (evs : list event) :
  Forall (λ ev, p ev = false) evs → count_events p evs = 0%nat.
Proof.
  intros Hall. unfold count_events.
  induction Hall as [|ev evs Hev _ IH]; [reflexivity|].
  simpl. rewrite Hev. exact IH.
Qed.

Lemma emits_refresh_click (P : event → Prop) self :
  (∀ sel, P (WaitForClickable sel)) → (∀ el, P (Click el)) → (∀ seconds, P (Sleep seconds)) →
  emits P (history_panel_refresh_click self).
Proof.
  intros Hw Hc Hs. unfold history_panel_refresh_click.
  apply emits_bind; [|intros _; apply emits_ret].
  unfold wait_for_and_click, retry_during_transitions.
  apply emits_retry; [|apply Hs].
  apply emits_bind; [apply emits_perform, Hw|intros el].
  apply emits_bind; [apply emits_perform, Hc|intros _; apply emits_ret].
Qed.

(** One round of [history_item_wait_for] polls once; it goes on to the
    next round only below the budget of refreshes. *)
Lemma wait_round_events self sel n attempt fuel h :
  ∃ r evs,
    history_item_wait_for_round self sel n attempt fuel h = (r, h ++ evs)
    ∧ count_events is_poll evs = 1%nat
    ∧ (∀ attempt', r = Return (inl attempt') → attempt < n ∧ attempt' = attempt + 1).
Proof.
  unfold history_item_wait_for_round, try_except, wait_for_visible, perform.
  unfold bind at 1 2.
  destruct (env_wait_for_visible h sel WAIT_TYPES.JOB_COMPLETION) as [el|e|].
  - exists (Return (inr el)), [WaitForVisible sel WAIT_TYPES.JOB_COMPLETION].
    split; [reflexivity|]. split; [reflexivity|]. intros attempt' Hr. discriminate Hr.
  - destruct (is_timeout e).
    + destruct (Z.geb_spec attempt n) as [Hge|Hlt].
      * exists (Raise e), [WaitForVisible sel WAIT_TYPES.JOB_COMPLETION].
        split; [reflexivity|]. split; [reflexivity|]. intros attempt' Hr. discriminate Hr.
      * cbn [ret]. cbv beta iota.
        destruct (emits_refresh_click (λ ev, is_poll ev = false) self
                    ltac:(reflexivity) ltac:(reflexivity) ltac:(reflexivity)
                    fuel (h ++ [WaitForVisible sel WAIT_TYPES.JOB_COMPLETION]))
          as (evs & Hh & Hevs).
        unfold bind.
        destruct (history_panel_refresh_click self fuel
                    (h ++ [WaitForVisible sel WAIT_TYPES.JOB_COMPLETION]))
          as [[[]|e'|] h'] eqn:Hclick; simpl in Hh; subst h'.
        -- exists (Return (inl (attempt + 1))),
             (WaitForVisible sel WAIT_TYPES.JOB_COMPLETION :: evs).
           split; [unfold ret; rewrite <- app_assoc; reflexivity|].
           split; [change (count_events is_poll
                     ([WaitForVisible sel WAIT_TYPES.JOB_COMPLETION] ++ evs) = 1%nat);
                   rewrite count_events_app, (count_events_none _ _ Hevs); reflexivity|].
           intros attempt' [= <-]. split; [exact Hlt|reflexivity].
        -- exists (Raise e'), (WaitForVisible sel WAIT_TYPES.JOB_COMPLETION :: evs).
           split; [rewrite <- app_assoc; reflexivity|].
           split; [change (count_events is_poll
                     ([WaitForVisible sel WAIT_TYPES.JOB_COMPLETION] ++ evs) = 1%nat);
                   rewrite count_events_app, (count_events_none _ _ Hevs); reflexivity|].
           intros attempt' Hr. discriminate Hr.
        -- exists OutOfFuel, (WaitForVisible sel WAIT_TYPES.JOB_COMPLETION :: evs).
           split; [rewrite <- app_assoc; reflexivity|].
           split; [change (count_events is_poll
                     ([WaitForVisible sel WAIT_TYPES.JOB_COMPLETION] ++ evs) = 1%nat);
                   rewrite count_events_app, (count_events_none _ _ Hevs); reflexivity|].
           intros attempt' Hr. discriminate Hr.
    + exists (Raise e), [WaitForVisible sel WAIT_TYPES.JOB_COMPLETION].
      split; [reflexivity|]. split; [reflexivity|]. intros attempt' Hr. discriminate Hr.
  - exists OutOfFuel, [WaitForVisible sel WAIT_TYPES.JOB_COMPLETION].
    split; [reflexivity|]. split; [reflexivity|]. intros attempt' Hr. discriminate Hr.
Qed.

(** X10: whatever the driver answers, [history_item_wait_for] with
    [allowed_force_refreshes = n] waits for the item at most [n + 1] times -
    once when [n] is negative - so it goes at most [n] times through a
    refresh. *)
Theorem history_item_wait_for_polls_bounded
    (self : NavigatesGalaxy) (sel : selector) (n : Z) (fuel : nat) (h : history) :
  ∃ evs,
    (history_item_wait_for self sel n fuel h).2 = h ++ evs
    ∧ (count_events is_poll evs ≤ Z.to_nat n + 1)%nat.
Proof.
  unfold history_item_wait_for, while_true.
  assert (Hbound : ∀ rounds attempt h', ∃ evs,
    (iterate (history_item_wait_for_round self sel n) rounds attempt fuel h').2 = h' ++ evs
    ∧ (count_events is_poll evs ≤ Z.to_nat (n - attempt) + 1)%nat).
  { induction rounds as [|rounds IH]; intros attempt h'.
    - exists []. rewrite app_nil_r. unfold count_events. simpl. split; [reflexivity|lia].
    - cbn [iterate].
      destruct (wait_round_events self sel n attempt fuel h') as (r & evs & Hrun & Hpoll & Hnext).
      rewrite Hrun. destruct r as [[attempt'|el]|e|];
        try (exists evs; split; [reflexivity|lia]).
      destruct (Hnext attempt' eq_refl) as [Hlt ->].
      destruct (IH (attempt + 1) (h' ++ evs)) as (evs' & Hh & Hpoll').
      exists (evs ++ evs'). rewrite Hh, app_assoc, count_events_app.
      split; [reflexivity|lia]. }
  destruct (Hbound fuel 0 h) as (evs & Hh & Hpoll).
  exists evs. rewrite Z.sub_0_r in Hpoll. split; assumption.
Qed.

(** X11: [history_item_wait_for] only absorbs timeouts of the wait.  Any
    other error of the wait is raised at once, without a refresh; and when
    the refresh button cannot be found after a timeout, with an error that
    does not indicate a transition, that error is raised in place of the
    timeout. *)
Theorem history_item_wait_for_other_errors
    (self : NavigatesGalaxy) (sel : selector) (n : Z) (fuel : nat) (h : history) :
  (1 ≤ fuel)%nat →
  (∀ e, env_wait_for_visible h sel WAIT_TYPES.JOB_COMPLETION = Raise e →
     is_timeout e = false →
     history_item_wait_for self sel n fuel h
     = (Raise e, h ++ [WaitForVisible sel WAIT_TYPES.JOB_COMPLETION]))
  ∧ (∀ msg e,
       0 < n →
       env_wait_for_visible h sel WAIT_TYPES.JOB_COMPLETION = Raise (TimeoutException msg) →
       env_wait_for_clickable (h ++ [WaitForVisible sel WAIT_TYPES.JOB_COMPLETION])
         HistoryPanelRefreshButton = Raise e →
       exception_seems_to_indicate_transition e = false →
       history_item_wait_for self sel n fuel h
       = (Raise e, h ++ [WaitForVisible sel WAIT_TYPES.JOB_COMPLETION;
                         WaitForClickable HistoryPanelRefreshButton])).
Proof.
  intros Hfuel. destruct fuel as [|fuel']; [lia|]. split.
  - intros e Hwait He. unfold history_item_wait_for, while_true. cbn [iterate].
    unfold history_item_wait_for_round, try_except, wait_for_visible, perform.
    unfold bind at 1 2. rewrite Hwait, He. reflexivity.
  - intros msg e Hn Hwait Hfind He. unfold history_item_wait_for, while_true. cbn [iterate].
    unfold history_item_wait_for_round, try_except, wait_for_visible, perform.
    unfold bind at 1 2. rewrite Hwait. cbn [is_timeout].
    destruct (Z.geb_spec 0 n) as [Hge|_]; [lia|]. cbn [ret]. cbv beta iota.
    erewrite bind_Raise; [reflexivity|].
    unfold history_panel_refresh_click, wait_for_and_click, retry_during_transitions.
    erewrite bind_Raise; [reflexivity|].
    apply retry_call_rejected; [lia| |exact He].
    unfold wait_for_clickable, perform, bind. rewrite Hfind.
    rewrite <- app_assoc. reflexivity.
Qed.
End WaiterExtras.

(** * Further properties of the wait for a hid *)

Section HidWaitExtras.
Context `{E : Env}.

Lemma append_empty_r (s : string) : s +:+ EmptyString = s.
Proof.
  induction s as [|c s IH]; [reflexivity|].
  change (String c (s +:+ EmptyString) = String c s). f_equal. exact IH.
Qed.

Lemma existsb_hid (hid : Z) (hids : list Z) :
  existsb (λ x, x =? hid) hids = bool_decide (hid ∈ hids).
Proof.
  induction hids as [|x hids IH]; cbn [existsb].
  - symmetry. apply bool_decide_eq_false_2. intros Hin. inversion Hin.
  - rewrite IH. destruct (Z.eqb_spec x hid) as [->|Hne]; cbn [orb].
    + symmetry. apply bool_decide_eq_true_2. left.
    + apply bool_decide_ext. rewrite elem_of_cons. split; [tauto|].
      intros [Heq|Hin]; [congruence|exact Hin].
Qed.

(** The rounds of a wait whose condition is not ready and whose deadline
    has not passed lead from the start of the wait to round [k]. *)
Lemma poll_rounds_not_ready {A} (cond : M (option A)) deadline ctx fuel
    (starts ends : nat → history) (k : nat) :
  (0 <= poll_interval)%Q →
  (∀ j, (j < k)%nat →
     cond fuel (starts j) = (Return None, ends j)
     ∧ float_ltb deadline (env_clock (ends j)) = false
     ∧ starts (S j) = ends j ++ [ReadClock; Sleep poll_interval]) →
  ∀ rounds,
    iterate (λ _ : unit, poll_round cond deadline ctx) (k + rounds) tt fuel (starts 0%nat)
    = iterate (λ _ : unit, poll_round cond deadline ctx) rounds tt fuel (starts k).
Proof.
  intros Hp. induction k as [|k IH]; intros Hwait rounds; [reflexivity|].
  replace (S k + rounds)%nat with (k + S rounds)%nat by lia.
  rewrite IH by (intros j Hj; apply Hwait; lia).
  destruct (Hwait k) as (Hc & Hclock & Hnext); [lia|].
  cbn [iterate]. rewrite (poll_round_not_ready _ _ _ _ _ _ Hp Hc Hclock), Hnext.
  reflexivity.
Qed.

Lemma poll_until_timeout_in_round {A} (cond : M (option A)) timeout ctx fuel h
    (starts ends : nat → history) (k : nat) :
  (0 <= poll_interval)%Q →
  (k + 1 ≤ fuel)%nat →
  starts 0%nat = h ++ [NewWait timeout; ReadClock] →
  (∀ j, (j < k)%nat →
     cond fuel (starts j) = (Return None, ends j)
     ∧ float_ltb (float_add (env_clock (h ++ [NewWait timeout])) timeout)
         (env_clock (ends j)) = false
     ∧ starts (S j) = ends j ++ [ReadClock; Sleep poll_interval]) →
  cond fuel (starts k) = (Return None, ends k) →
  float_ltb (float_add (env_clock (h ++ [NewWait timeout])) timeout)
    (env_clock (ends k)) = true →
  poll_until cond timeout ctx fuel h = (Raise (TimeoutException ctx), ends k ++ [ReadClock]).
Proof.
  intros Hp Hfuel H0 Hwait Hlast Hlate. rewrite poll_until_unfold, <- H0.
  replace fuel with (k + S (fuel - k - 1))%nat at 1 by lia.
  rewrite (poll_rounds_not_ready _ _ _ _ starts ends k Hp Hwait).
  cbn [iterate]. rewrite (poll_round_timeout _ _ _ _ _ _ Hlast Hlate). reflexivity.
Qed.

(** X12: [wait_for_history_to_have_hid] looks at the contents of the
    history until an item has the hid, and then returns.  When the deadline
    passes first, it fetches the contents once more and raises the timeout
    with a message that names the history and the hid and lists the hids
    of that last listing. *)
Theorem wait_for_history_to_have_hid_outcomes
    (self : NavigatesGalaxy) (id : string) (hid : Z) (fuel : nat) (h : history)
    (listings : nat → list history_item) (k : nat) :
  let timeout := timeout_for self WAIT_TYPES.JOB_COMPLETION in
  let start := h ++ [NewWait timeout; ReadClock] in
  let fetch := ApiGet ("histories/" +:+ id +:+ "/contents") in
  let deadline := float_add (env_clock (h ++ [NewWait timeout])) timeout in
  (0 <= poll_interval)%Q →
  (k + 1 ≤ fuel)%nat →
  (∀ j, (j ≤ k)%nat →
     env_history_contents (start ++ hid_polled id j) id = Return (listings j)) →
  (∀ j, (j < k)%nat →
     (hid ∉ (item_hid <$> listings j))
     ∧ float_ltb deadline (env_clock (start ++ hid_polled id j ++ [fetch])) = false) →
  (hid ∈ (item_hid <$> listings k) →
   wait_for_history_to_have_hid self id hid fuel h
   = (Return tt, start ++ hid_polled id k ++ [fetch]))
  ∧ (∀ final,
       hid ∉ (item_hid <$> listings k) →
       float_ltb deadline (env_clock (start ++ hid_polled id k ++ [fetch])) = true →
       env_history_contents (start ++ hid_polled id k ++ [fetch; ReadClock]) id
       = Return final →
       wait_for_history_to_have_hid self id hid fuel h
       = (Raise (TimeoutException
            ("Timeout waiting for history " +:+ id +:+ " to have hid " +:+ pretty hid
             +:+ " - have hids " +:+ str_of_hids (item_hid <$> final))),
          start ++ hid_polled id k ++ [fetch; ReadClock; fetch])).
Proof.
  intros timeout start fetch deadline Hp Hfuel Hlist Hwait.
  unfold wait_for_history_to_have_hid. fold timeout.
  set (cond := let! hids := (let! contents := api_get_history_contents id in
                             ret (item_hid <$> contents)) in
               ret (if existsb (λ x, x =? hid) hids then Some tt else None)).
  assert (Hcond : ∀ h' contents,
    env_history_contents h' id = Return contents →
    cond fuel h'
    = (Return (if bool_decide (hid ∈ (item_hid <$> contents)) then Some tt else None),
       h' ++ [fetch])).
  { intros h' contents Hc. unfold cond, api_get_history_contents, perform, bind, ret.
    rewrite Hc, existsb_hid. reflexivity. }
  assert (Hrounds : ∀ j, (j < k)%nat →
    cond fuel (start ++ hid_polled id j) = (Return None, start ++ hid_polled id j ++ [fetch])
    ∧ float_ltb deadline (env_clock (start ++ hid_polled id j ++ [fetch])) = false
    ∧ start ++ hid_polled id (S j)
      = (start ++ hid_polled id j ++ [fetch]) ++ [ReadClock; Sleep poll_interval]).
  { intros j Hj. destruct (Hwait j Hj) as [Hnot Hclock].
    split; [|split; [exact Hclock|]].
    - rewrite (Hcond _ _ (Hlist j ltac:(lia))).
      rewrite bool_decide_eq_false_2 by exact Hnot. rewrite <- app_assoc. reflexivity.
    - simpl. rewrite <- !app_assoc. reflexivity. }
  split.
  - intros Hin. unfold try_except.
    erewrite (poll_until_ready_in_round cond timeout EmptyString fuel h
      (λ j, start ++ hid_polled id j) (λ j, start ++ hid_polled id j ++ [fetch]) k tt);
      [reflexivity|exact Hp|exact Hfuel|simpl; rewrite app_nil_r; reflexivity|exact Hrounds|].
    rewrite (Hcond _ _ (Hlist k ltac:(lia))).
    rewrite bool_decide_eq_true_2 by exact Hin. rewrite <- app_assoc. reflexivity.
  - intros final Hnot Hlate Hfinal. unfold try_except.
    erewrite (poll_until_timeout_in_round cond timeout EmptyString fuel h
      (λ j, start ++ hid_polled id j) (λ j, start ++ hid_polled id j ++ [fetch]) k);
      [|exact Hp|exact Hfuel|simpl; rewrite app_nil_r; reflexivity|exact Hrounds| |exact Hlate].
    + cbn [is_timeout]. unfold api_get_history_contents, perform, bind, ret, raise.
      replace ((start ++ hid_polled id k ++ [fetch]) ++ [ReadClock])
        with (start ++ hid_polled id k ++ [fetch; ReadClock])
        by (rewrite <- !app_assoc; reflexivity).
      rewrite Hfinal. unfold prepend_timeout_message. rewrite append_empty_r.
      rewrite <- !app_assoc. reflexivity.
    + rewrite (Hcond _ _ (Hlist k ltac:(lia))).
      rewrite bool_decide_eq_false_2 by exact Hnot. rewrite <- app_assoc. reflexivity.
Qed.
End HidWaitExtras.

(** * Further properties of the tour interpreter *)

Section TourExtras.
Context `{E : Env}.

Lemma for_each_app {A} (xs ys : list A) (body : A → M unit) fuel h :
  for_each (xs ++ ys) body fuel h
  = (for_each xs body ;;; for_each ys body) fuel h.
Proof.
  revert h. induction xs as [|x xs IH]; intros h; [reflexivity|].
  cbn [app for_each]. rewrite bind_assoc. apply bind_ext. intros [] h'. apply IH.
Qed.

Lemma enumerate_from_app {A} (i : nat) (xs ys : list A) :
  enumerate_from i (xs ++ ys)
  = enumerate_from i xs ++ enumerate_from (i + length xs) ys.
Proof.
  revert i. induction xs as [|x xs IH]; intros i; simpl.
  - rewrite Nat.add_0_r. reflexivity.
  - rewrite IH. replace (S i + length xs)%nat with (i + S (length xs))%nat by lia.
    reflexivity.
Qed.

(** X13: [run_tour] stops at the first step that fails.  When the steps
    before a step have run and that step raises an error, [run_tour] raises
    this error with the history as the step left it: nothing of the steps
    after it is run. *)
Theorem run_tour_stops_at_failing_step
    (self : NavigatesGalaxy) (path : string) (skip_steps : list string)
    (sleep_on_steps : gmap string Q) (tour_callback : option TourCallback)
    (before after : list step) (st : step) (e : exception)
    (fuel : nat) (h h1 h2 : history) :
  env_home h = Return tt →
  env_load_tour (h ++ [Home]) path = Return (before ++ st :: after) →
  for_each (enumerate before) (λ '(i, s),
    run_tour_iteration self skip_steps sleep_on_steps
      (default NullTourCallback tour_callback) i s) fuel (h ++ [Home; LoadTour path])
  = (Return tt, h1) →
  run_tour_iteration self skip_steps sleep_on_steps
    (default NullTourCallback tour_callback) (length before) st fuel h1 = (Raise e, h2) →
  run_tour self path skip_steps sleep_on_steps tour_callback fuel h = (Raise e, h2).
Proof.
  intros Hhome Hload Hbefore Hfail. unfold run_tour.
  erewrite bind_Return by (unfold home, perform; rewrite Hhome; reflexivity).
  erewrite bind_Return by (unfold perform; rewrite Hload; reflexivity).
  unfold enumerate. rewrite enumerate_from_app, for_each_app, <- app_assoc.
  rewrite (bind_Return _ _ _ _ _ _ Hbefore).
  cbn [enumerate_from for_each]. simpl Nat.add.
  rewrite (bind_Raise _ _ _ _ _ _ Hfail). reflexivity.
Qed.

Lemma handled_tour_events self skip_steps sleep_on_steps locate i (steps : list step) :
  handled (tour_events self skip_steps sleep_on_steps locate i steps)
  = steps_run skip_steps i steps.
Proof.
  revert i. induction steps as [|st steps IH]; intros i; [reflexivity|].
  cbn [tour_events steps_run]. rewrite !handled_app, handled_sleep, IH.
  destruct (bool_decide _); [reflexivity|]. rewrite handled_step. reflexivity.
Qed.

(** X14: with a cooperating driver [run_tour] runs a tour of any length
    to its end: every step gets its sleep, every step that is not skipped
    runs its sub-actions, and the callback is called once for each step
    that is not skipped, in order, with the position of the step in the
    whole tour. *)
Theorem run_tour_calls_back_with_positions
    (self : NavigatesGalaxy) (path : string) (skip_steps : list string)
    (sleep_on_steps : gmap string Q) (locate : string → web_element)
    (steps : list step) (fuel : nat) (h : history) :
  cooperative locate →
  env_load_tour (h ++ [Home]) path = Return steps →
  (∀ st, st ∈ steps → ¬ skipped skip_steps st →
     is_Some (textinsert st) → is_Some (element st)) →
  (∀ t seconds, sleep_on_steps !! t = Some seconds → (0 <= seconds)%Q) →
  (1 ≤ fuel)%nat →
  run_tour self path skip_steps sleep_on_steps (Some external_callback) fuel h
  = (Return tt,
     h ++ [Home; LoadTour path] ++ tour_events self skip_steps sleep_on_steps locate 0 steps)
  ∧ handled ([Home; LoadTour path]
             ++ tour_events self skip_steps sleep_on_steps locate 0 steps)
    = steps_run skip_steps 0 steps.
Proof.
  intros Hcoop Hload Hwf Hsleep Hfuel. split.
  - assert (Hpos : ∀ title' seconds,
      sleep_on sleep_on_steps title' = Some seconds → (0 <= seconds)%Q).
    { intros [t|] seconds; simpl; [apply Hsleep|discriminate]. }
    unfold run_tour.
    erewrite bind_Return
      by (unfold home, perform; rewrite (proj2 (proj2 (proj2 (proj2 (proj2 Hcoop))))); reflexivity).
    erewrite bind_Return by (unfold perform; rewrite Hload; reflexivity).
    cbn [default]. unfold enumerate.
    rewrite <- app_assoc. change ([Home] ++ [LoadTour path]) with [Home; LoadTour path].
    rewrite (app_assoc h). generalize (h ++ [Home; LoadTour path]) as h0.
    clear Hload. generalize 0%nat as i.
    induction steps as [|st steps IH]; intros i h0.
    + simpl. rewrite app_nil_r. reflexivity.
    + cbn [enumerate_from for_each tour_events].
      destruct (decide (title st ∈ (Some <$> skip_steps))) as [Hin|Hnin].
      * assert (Hskip : skipped skip_steps st) by (apply skipped_elem_of; exact Hin).
        erewrite bind_Return.
        2:{ rewrite (run_tour_iteration_skipped _ _ _ _ _ _ Hskip).
            erewrite bind_Return by (apply sleep_on_step_run; apply Hpos).
            reflexivity. }
        rewrite bool_decide_eq_true_2 by exact Hin.
        rewrite IH by (intros s Hs; apply Hwf; right; exact Hs).
        unfold ret. rewrite <- !app_assoc. reflexivity.
      * assert (Hrun : ¬ skipped skip_steps st) by (rewrite skipped_elem_of; exact Hnin).
        erewrite bind_Return.
        2:{ rewrite (run_tour_iteration_not_skipped _ _ _ _ _ _ Hrun).
            erewrite bind_Return by (apply sleep_on_step_run; apply Hpos).
            apply (run_tour_step_cooperative self locate Hcoop); [exact Hfuel|].
            apply Hwf; [left|exact Hrun]. }
        rewrite bool_decide_eq_false_2 by exact Hnin.
        rewrite IH by (intros s Hs; apply Hwf; right; exact Hs).
        rewrite <- !app_assoc. reflexivity.
  - rewrite handled_app, handled_tour_events. reflexivity.
Qed.

(** X15: when the callback fails, the step fails with the error of the
    callback and its postclicks are not run. *)
Theorem run_tour_step_callback_error_skips_postclicks
    (self : NavigatesGalaxy) (locate : string → web_element) (st : step) (i : nat)
    (cb : TourCallback) (e : exception) (fuel : nat) (h h' : history) :
  cooperative locate →
  (1 ≤ fuel)%nat →
  (is_Some (textinsert st) → is_Some (element st)) →
  handle_step cb st i fuel (h ++ step_events_before_callback self locate st) = (Raise e, h') →
  run_tour_step self st i cb fuel h = (Raise e, h').
Proof.
  intros Hcoop Hfuel Hwf Hcb. unfold run_tour_step.
  unfold step_events_before_callback in Hcb.
  rewrite (bind_Return _ _ _ _ _ _ (tour_clicks_cooperative self locate Hcoop
             (preclick st) fuel h Hfuel)).
  destruct Hcoop as (Hc1 & Hpresent & Hc3 & Hkeys & Hc5 & Hc6).
  assert (Hcoop : cooperative locate) by (repeat split; assumption).
  destruct (element st) as [element_str|] eqn:Helement.
  - erewrite bind_Return;
      [|erewrite bind_Return
          by (apply (tour_present_cooperative self locate Hcoop); exact Hfuel);
        reflexivity].
    destruct (textinsert st) as [text|].
    + erewrite bind_Return by (unfold send_keys, perform; rewrite Hkeys; reflexivity).
      erewrite bind_Raise; [reflexivity|].
      rewrite <- Hcb. f_equal. rewrite <- ?app_assoc, ?app_nil_r. reflexivity.
    + erewrite bind_Return by reflexivity.
      erewrite bind_Raise; [reflexivity|].
      rewrite <- Hcb. f_equal. rewrite <- ?app_assoc, ?app_nil_r. reflexivity.
  - erewrite bind_Return by reflexivity.
    destruct (textinsert st) as [text|].
    + destruct Hwf as [x Hx]; [eexists; reflexivity|discriminate].
    + erewrite bind_Return by reflexivity.
      erewrite bind_Raise; [reflexivity|].
      rewrite <- Hcb. f_equal. rewrite <- ?app_assoc, ?app_nil_r. reflexivity.
Qed.
End TourExtras.

(** * The wait for the state of a history item *)

Section ClassAttribute.

Lemma split_on_no_sep (sep : Ascii.ascii) (s : string) :
  has_char sep s = false → split_on sep s = [s].
Proof.
  induction s as [|c s IH]; [reflexivity|]. cbn [has_char split_on].
  intros Hno. apply orb_false_elim in Hno as [Hc Hs].
  rewrite Hc, (IH Hs). reflexivity.
Qed.

Lemma split_on_append (sep : Ascii.ascii) (piece rest : string) :
  has_char sep piece = false →
  split_on sep (piece +:+ String sep rest) = piece :: split_on sep rest.
Proof.
  induction piece as [|c piece IH]; intros Hno.
  - change (EmptyString +:+ String sep rest) with (String sep rest).
    cbn [split_on]. rewrite Ascii.eqb_refl. reflexivity.
  - cbn [has_char] in Hno. apply orb_false_elim in Hno as [Hc Hs].
    change (String c piece +:+ String sep rest) with (String c (piece +:+ String sep rest)).
    cbn [split_on]. rewrite Hc, (IH Hs). reflexivity.
Qed.

(** Splitting the classes joined by spaces gives the classes back. *)
Lemma split_on_concat (classes : list string) :
  classes ≠ [] → Forall (λ clazz, has_char " " clazz = false) classes →
  split_on " " (String.concat " " classes) = classes.
Proof.
  intros Hne Hall. induction Hall as [|clazz classes Hclazz Hrest IH]; [contradiction|].
  destruct classes as [|clazz' classes'].
  - simpl. apply split_on_no_sep. exact Hclazz.
  - change (String.concat " " (clazz :: clazz' :: classes'))
      with (clazz +:+ String " " (String.concat " " (clazz' :: classes'))).
    rewrite (split_on_append _ _ _ Hclazz), IH by discriminate. reflexivity.
Qed.

Lemma current_state_acc (classes : list string) (acc : string) :
  Forall (λ clazz, String.prefix "state-" clazz = false) classes →
  fold_left (λ current_state clazz,
    if String.prefix "state-" clazz then string_drop (String.length "state-") clazz
    else current_state) classes acc = acc.
Proof.
  intros Hall. revert acc. induction Hall as [|clazz classes Hclazz _ IH]; intros acc.
  - reflexivity.
  - cbn [fold_left]. rewrite Hclazz. apply IH.
Qed.

Lemma prefix_append (p s : string) : String.prefix p (p +:+ s) = true.
Proof.
  induction p as [|c p IH]; [destruct s; reflexivity|].
  change (String c p +:+ s) with (String c (p +:+ s)). cbn [String.prefix].
  destruct (Ascii.ascii_dec c c); [exact IH|congruence].
Qed.

Lemma string_drop_append (p s : string) : string_drop (String.length p) (p +:+ s) = s.
Proof. induction p as [|c p IH]; [reflexivity|exact IH]. Qed.

(** X16: the current state reported by [history_panel_wait_for_hid_state]
    is read off the class attribute of the item: of the classes separated
    by spaces, the last one that starts with [state-] gives the state, and
    the state is UNKNOWN when no class does. *)
Theorem current_state_from_class_attribute :
  (∀ before s after,
     Forall (λ clazz, has_char " " clazz = false) (before ++ ("state-" +:+ s) :: after) →
     Forall (λ clazz, String.prefix "state-" clazz = false) after →
     current_state_of_classes
       (split_on " " (String.concat " " (before ++ ("state-" +:+ s) :: after))) = s)
  ∧ (∀ classes,
       Forall (λ clazz, has_char " " clazz = false) classes →
       Forall (λ clazz, String.prefix "state-" clazz = false) classes →
       current_state_of_classes (split_on " " (String.concat " " classes)) = "UNKNOWN").
Proof.
  split.
  - intros before s after Hspace Hafter.
    rewrite split_on_concat by (try exact Hspace; destruct before; discriminate).
    unfold current_state_of_classes. rewrite fold_left_app. cbn [fold_left].
    rewrite prefix_append, string_drop_append.
    apply current_state_acc. exact Hafter.
  - intros classes Hspace Hnone. destruct classes as [|clazz classes]; [reflexivity|].
    rewrite split_on_concat by (try exact Hspace; discriminate).
    apply current_state_acc. exact Hnone.
Qed.
End ClassAttribute.

Section HidStateExtras.
Context `{E : Env}.
Context (with_data : selector → string → string → selector).
Context (wait_for_absent_or_hidden : selector → WaitType → M unit).

(** X17: [history_panel_wait_for_hid_state] waits for the item to be
    visible and then, with the same budget of refreshes again, for the
    selector of the item in the state: in the beta history the item by its
    hid and state, otherwise the visible item's selector with the state as
    data.  It returns that selector.  When the second wait ends in a
    timeout, the item is waited for once more, with the default wait type,
    and the timeout is raised with a message in front that names the hid,
    the awaited state and the state found in the classes of the item. *)
Theorem hid_state_wait_outcomes
    (self : NavigatesGalaxy) (hid : Z) (state : string) (n : Z) (multi_history_panel : bool)
    (fuel : nat) (h h1 h2 : history) (sel : selector) (beta : bool) :
  let sel_state :=
    if beta then HistoryPanelContentItem [("hid", AttrInt hid); ("state", AttrStr state)]
    else with_data sel "state" state in
  history_panel_wait_for_hid_visible self hid n multi_history_panel fuel h = (Return sel, h1) →
  env_is_beta_history h1 = Return beta →
  (∀ el,
     history_item_wait_for self sel_state n fuel (h1 ++ [IsBetaHistory]) = (Return el, h2) →
     history_panel_wait_for_hid_state with_data self hid state n multi_history_panel fuel h
     = (Return sel_state, h2))
  ∧ (∀ msg item class,
       history_item_wait_for self sel_state n fuel (h1 ++ [IsBetaHistory])
       = (Raise (TimeoutException msg), h2) →
       env_wait_for_visible h2 sel DEFAULT_WAIT_TYPE = Return item →
       env_get_attribute (h2 ++ [WaitForVisible sel DEFAULT_WAIT_TYPE]) item "class"
       = Return class →
       history_panel_wait_for_hid_state with_data self hid state n multi_history_panel fuel h
       = (Raise (TimeoutException
            (("Failed waiting on history item " +:+ pretty hid
              +:+ " state to change to [" +:+ state
              +:+ "] current state [" +:+ current_state_of_classes (split_on " " class)
              +:+ "]. ") +:+ msg)),
          h2 ++ [WaitForVisible sel DEFAULT_WAIT_TYPE; GetAttribute item "class"])).
Proof.
  intros sel_state Hvisible Hbeta. split.
  - intros el Hwait. unfold history_panel_wait_for_hid_state.
    rewrite (bind_Return _ _ _ _ _ _ Hvisible).
    erewrite bind_Return by (unfold is_beta_history, perform; rewrite Hbeta; reflexivity).
    fold sel_state. erewrite bind_Return; [reflexivity|].
    unfold try_except. rewrite (bind_Return _ _ _ _ _ _ Hwait). reflexivity.
  - intros msg item class Hwait Hitem Hclass. unfold history_panel_wait_for_hid_state.
    rewrite (bind_Return _ _ _ _ _ _ Hvisible).
    erewrite bind_Return by (unfold is_beta_history, perform; rewrite Hbeta; reflexivity).
    fold sel_state. erewrite bind_Raise; [reflexivity|].
    unfold try_except. rewrite (bind_Raise _ _ _ _ _ _ Hwait). cbn [is_timeout].
    unfold wait_for_visible, get_attribute, perform, bind, raise.
    rewrite Hitem, Hclass. unfold prepend_timeout_message.
    rewrite <- app_assoc. reflexivity.
Qed.

(** X18: [history_panel_wait_for_hid_hidden] finds the item by its hid in
    the contents of the current history and builds its selector without
    passing the hid on.  In the classic history it then waits for that
    selector to be absent or hidden; in the beta history, where the
    selector is built from the hid, the assertion on the hid fails and
    nothing is waited for. *)
Theorem hid_hidden_wait_outcomes
    (self : NavigatesGalaxy) (hid : Z) (multi_history_panel : bool)
    (fuel : nat) (h : history) (id : string)
    (before after : list history_item) (item : history_item) (beta : bool) :
  let found := h ++ [CurrentHistoryJson; ApiGet ("histories/" +:+ id +:+ "/contents")] in
  let item_selector :=
    (if multi_history_panel then MultiHistoryViewItem else HistoryPanelItem)
      (item_history_content_type item) (item_id item) in
  env_current_history_id h = Return id →
  env_history_contents (h ++ [CurrentHistoryJson]) id = Return (before ++ item :: after) →
  item_hid item = hid → Forall (λ d, item_hid d ≠ hid) before →
  env_is_beta_history found = Return beta →
  history_panel_wait_for_hid_hidden wait_for_absent_or_hidden self hid multi_history_panel
    fuel h
  = if beta then (Raise (AssertionError EmptyString), found ++ [IsBetaHistory])
    else (wait_for_absent_or_hidden item_selector WAIT_TYPES.JOB_COMPLETION ;;;
          ret item_selector) fuel (found ++ [IsBetaHistory]).
Proof.
  intros found item_selector Hid Hcontents Hitem Hbefore Hbeta.
  assert (Hlookup : hid_to_history_item hid None fuel h = (Return item, found)).
  { unfold hid_to_history_item, current_history_id, api_get_history_contents,
      perform, bind, ret.
    rewrite Hid, Hcontents, (filter_hid_first _ _ _ _ Hitem Hbefore).
    unfold found. rewrite <- app_assoc. reflexivity. }
  unfold history_panel_wait_for_hid_hidden.
  rewrite (bind_Return _ _ _ _ _ _ Hlookup).
  unfold history_panel_item_component, is_beta_history, perform.
  rewrite bind_assoc. unfold bind at 1. rewrite Hbeta. destruct beta; reflexivity.
Qed.
End HidStateExtras.

(** * Visualizations, cookies and file paths *)

Section VisualizationExtras.
Context `{E : Env}.
Context (available : Z → M (list web_element)) (element_text : web_element → M string).

(** X19: [history_panel_item_click_visualization] clicks the first of the
    available visualization elements whose text is the name asked for, and
    returns it; when no element has that text it clicks nothing and raises
    a [ValueError] that names the visualization. *)
Theorem click_visualization_first_match
    (self : NavigatesGalaxy) (hid : Z) (name : string) (txt : web_element → string)
    (elements : list web_element) (fuel : nat) (h h1 : history) :
  available hid fuel h = (Return elements, h1) →
  (∀ el h', element_text el fuel h' = (Return (txt el), h')) →
  (∀ before el after,
     elements = before ++ el :: after →
     txt el = name → Forall (λ el', txt el' ≠ name) before →
     env_click h1 el = Return tt →
     history_panel_item_click_visualization available element_text self hid name fuel h
     = (Return el, h1 ++ [Click el]))
  ∧ (Forall (λ el', txt el' ≠ name) elements →
     history_panel_item_click_visualization available element_text self hid name fuel h
     = (Raise (ValueError ("No visualization [" +:+ name +:+ "] found.")), h1)).
Proof.
  intros Havailable Htext. split.
  - intros before el after -> Hel Hbefore Hclick.
    unfold history_panel_item_click_visualization.
    rewrite (bind_Return _ _ _ _ _ _ Havailable). clear Havailable.
    induction Hbefore as [|el' before Hel' _ IH]; cbn [app].
    + rewrite (bind_Return _ _ _ _ _ _ (Htext el h1)).
      rewrite Hel, String.eqb_refl.
      unfold click, perform, bind, ret. rewrite Hclick. reflexivity.
    + rewrite (bind_Return _ _ _ _ _ _ (Htext el' h1)).
      rewrite (proj2 (String.eqb_neq _ _) Hel'). exact IH.
  - intros Hnone. unfold history_panel_item_click_visualization.
    rewrite (bind_Return _ _ _ _ _ _ Havailable). clear Havailable.
    induction Hnone as [|el' elements' Hel' _ IH]; [reflexivity|].
    rewrite (bind_Return _ _ _ _ _ _ (Htext el' h1)).
    rewrite (proj2 (String.eqb_neq _ _) Hel'). exact IH.
Qed.
End VisualizationExtras.

Section CookieExtras.
Context (get_cookies : M (list cookie)).

(** X20: the cookies handed to the HTTP client always have the one key
    [galaxysession]: its value is the value of the first cookie of the
    browser with that name, and [None] when the browser has no such
    cookie. *)
Theorem requests_cookies_carry_first_session
    (cookies : list cookie) (fuel : nat) (h h1 : history) :
  get_cookies fuel h = (Return cookies, h1) →
  (∀ before c after,
     cookies = before ++ c :: after →
     cookie_name c = "galaxysession" →
     Forall (λ c', cookie_name c' ≠ "galaxysession") before →
     selenium_to_requests_cookies get_cookies fuel h
     = (Return {[ "galaxysession" := Some (cookie_value c) ]}, h1))
  ∧ (Forall (λ c', cookie_name c' ≠ "galaxysession") cookies →
     selenium_to_requests_cookies get_cookies fuel h
     = (Return {[ "galaxysession" := None ]}, h1)).
Proof.
  intros Hcookies. split.
  - intros before c after -> Hc Hbefore.
    unfold selenium_to_requests_cookies, get_galaxy_session.
    rewrite bind_assoc, (bind_Return _ _ _ _ _ _ Hcookies). clear Hcookies.
    induction Hbefore as [|c' before Hc' _ IH]; cbn [app].
    + rewrite Hc. reflexivity.
    + rewrite (proj2 (String.eqb_neq _ _) Hc'). exact IH.
  - intros Hnone. unfold selenium_to_requests_cookies, get_galaxy_session.
    rewrite bind_assoc, (bind_Return _ _ _ _ _ _ Hcookies). clear Hcookies.
    induction Hnone as [|c' cookies' Hc' _ IH]; [reflexivity|].
    rewrite (proj2 (String.eqb_neq _ _) Hc'). exact IH.
Qed.
End CookieExtras.

Section SourcePaths.

Lemma find_sep_none (sep s : string) :
  contains sep s = false → find_sep sep s = None.
Proof.
  induction s as [|c s IH]; cbn [contains find_sep]; intros Hno;
    apply orb_false_elim in Hno as [Hprefix Hrest]; rewrite Hprefix.
  - reflexivity.
  - rewrite (IH Hrest). reflexivity.
Qed.

Lemma split_cuts_none (n : nat) (sep s : string) :
  contains sep s = false → split_cuts n sep s = [s].
Proof. intros Hno. destruct n; [reflexivity|]. simpl. rewrite (find_sep_none _ _ Hno). reflexivity. Qed.

Lemma length_append (a b : string) :
  String.length (a +:+ b) = (String.length a + String.length b)%nat.
Proof. induction a as [|c a IH]; [reflexivity|]. simpl. rewrite <- IH. reflexivity. Qed.

(** The first cut of a string with the separator of schemes in it is at
    that separator or before it; a cut before it leaves the separator in
    what follows, since the separator does not overlap with itself. *)
Lemma find_scheme_sep (a rest : string) :
  ∃ before after,
    find_sep "://" (a +:+ "://" +:+ rest) = Some (before, after)
    ∧ (after = rest
       ∨ ∃ a', after = a' +:+ "://" +:+ rest ∧ (String.length a' < String.length a)%nat).
Proof.
  induction a as [|c a IH].
  - exists EmptyString, rest. split; [|left; reflexivity].
    destruct rest; reflexivity.
  - change (String c a +:+ "://" +:+ rest) with (String c (a +:+ "://" +:+ rest)).
    destruct (String.prefix "://" (String c (a +:+ "://" +:+ rest))) eqn:Hprefix.
    + destruct a as [|c1 [|c2 a']].
      * exfalso. revert Hprefix.
        change (EmptyString +:+ "://" +:+ rest)
          with (String ":" (String "/" (String "/" rest))).
        cbn [String.prefix].
        destruct (Ascii.ascii_dec ":" c); [|discriminate].
        destruct (Ascii.ascii_dec "/" ":"); discriminate.
      * exfalso. revert Hprefix.
        change (String c1 EmptyString +:+ "://" +:+ rest)
          with (String c1 (String ":" (String "/" (String "/" rest)))).
        cbn [String.prefix].
        destruct (Ascii.ascii_dec ":" c); [|discriminate].
        destruct (Ascii.ascii_dec "/" c1); [|discriminate].
        destruct (Ascii.ascii_dec "/" ":"); discriminate.
      * exists EmptyString, (a' +:+ "://" +:+ rest). split.
        -- cbn [find_sep]. rewrite Hprefix. reflexivity.
        -- right. exists a'. split; [reflexivity|simpl; lia].
    + destruct IH as (before & after & Hfind & Hafter).
      exists (String c before), after. split.
      * cbn [find_sep]. rewrite Hprefix, Hfind. reflexivity.
      * destruct Hafter as [->|(a' & -> & Hlen)]; [left; reflexivity|].
        right. exists a'. split; [reflexivity|simpl; lia].
Qed.

(** What follows the last separator of schemes is the last piece. *)
Lemma last_split_scheme_sep (n : nat) :
  ∀ a rest,
    contains "://" rest = false → (String.length a < n)%nat →
    last (split_cuts n "://" (a +:+ "://" +:+ rest)) = Some rest.
Proof.
  induction n as [|n IH]; intros a rest Hrest Hlen; [lia|].
  destruct (find_scheme_sep a rest) as (before & after & Hfind & Hafter).
  cbn [split_cuts]. rewrite Hfind.
  destruct Hafter as [->|(a' & -> & Hlen')].
  - rewrite (split_cuts_none _ _ _ Hrest). reflexivity.
  - specialize (IH a' rest Hrest ltac:(lia)).
    destruct (split_cuts n "://" (a' +:+ "://" +:+ rest)) as [|piece pieces];
      [discriminate IH|exact IH].
Qed.

Lemma find_slash (host path : string) :
  has_char "/" host = false →
  find_sep "/" (host +:+ "/" +:+ path) = Some (host, path).
Proof.
  induction host as [|c host IH]; intros Hno.
  - change (EmptyString +:+ "/" +:+ path) with (String "/" path).
    destruct path; reflexivity.
  - cbn [has_char] in Hno. apply orb_false_elim in Hno as [Hc Hhost].
    change (String c host +:+ "/" +:+ path) with (String c (host +:+ "/" +:+ path)).
    cbn [find_sep String.prefix].
    destruct (Ascii.ascii_dec "/" c) as [<-|_].
    + rewrite Ascii.eqb_refl in Hc. discriminate Hc.
    + rewrite (IH Hhost). reflexivity.
Qed.

Lemma find_slash_none (s : string) :
  has_char "/" s = false → find_sep "/" s = None.
Proof.
  induction s as [|c s IH]; intros Hno; [reflexivity|].
  cbn [has_char] in Hno. apply orb_false_elim in Hno as [Hc Hs].
  cbn [find_sep String.prefix].
  destruct (Ascii.ascii_dec "/" c) as [<-|_].
  - rewrite Ascii.eqb_refl in Hc. discriminate Hc.
  - rewrite (IH Hs). reflexivity.
Qed.

(** X21: the path that [_realize_to] opens on the remote side is what
    follows the first slash behind the last [://] of the source path: for
    [scheme://host/path] it is [path], whatever slashes [path] has.  A
    source path with nothing but a host behind the last [://] has no such
    part, and the index raises [IndexError]. *)
Theorem file_path_of_source_path (scheme : string) :
  (∀ host path,
     contains "://" (host +:+ "/" +:+ path) = false →
     has_char "/" host = false →
     file_path_of (scheme +:+ "://" +:+ host +:+ "/" +:+ path) = Return path)
  ∧ (∀ host,
       contains "://" host = false →
       has_char "/" host = false →
       file_path_of (scheme +:+ "://" +:+ host)
       = Raise (IndexError "list index out of range")).
Proof.
  split.
  - intros host path Hrest Hhost. unfold file_path_of, py_split.
    rewrite (last_split_scheme_sep _ scheme (host +:+ "/" +:+ path) Hrest)
      by (rewrite length_append; simpl; lia).
    unfold py_split_once. cbn [split_cuts]. rewrite (find_slash _ _ Hhost). reflexivity.
  - intros host Hrest Hhost. unfold file_path_of, py_split.
    rewrite (last_split_scheme_sep _ scheme host Hrest)
      by (rewrite length_append; simpl; lia).
    unfold py_split_once. cbn [split_cuts]. rewrite (find_slash_none _ Hhost). reflexivity.
Qed.
End SourcePaths.

(** * Tour clicks that time out *)

Section TourWaitExtras.
Context `{E : Env}.

(** X22: a tour click on a selector that does not get clickable: the
    selector is looked for until the clock has passed the deadline of the
    job completion timeout, and the click then fails with the timeout that
    names the selector.  When this timeout does not indicate a transition,
    it is not retried: the selector is not waited for a second time and
    nothing is clicked. *)
Theorem tour_click_times_out
    (self : NavigatesGalaxy) (sel : string) (fuel : nat) (h : history) (k : nat) :
  let timeout := timeout_for self WAIT_TYPES.JOB_COMPLETION in
  let start := h ++ [NewWait timeout; ReadClock] in
  let deadline := float_add (env_clock (h ++ [NewWait timeout])) timeout in
  let timeout_message :=
    _timeout_message ("sizzle (jQuery) selector [" +:+ sel +:+ "] to become clickable") in
  (0 <= poll_interval)%Q →
  (k + 1 ≤ fuel)%nat →
  (∀ j, (j ≤ k)%nat → env_sizzle_clickable (start ++ clickable_polled sel j) sel = Return None) →
  (∀ j, (j < k)%nat →
     float_ltb deadline
       (env_clock (start ++ clickable_polled sel j ++ [SizzleClickable sel])) = false) →
  float_ltb deadline
    (env_clock (start ++ clickable_polled sel k ++ [SizzleClickable sel])) = true →
  exception_seems_to_indicate_transition (TimeoutException timeout_message) = false →
  _tour_wait_for_and_click_element self sel fuel h
  = (Raise (TimeoutException timeout_message),
     start ++ clickable_polled sel k ++ [SizzleClickable sel; ReadClock]).
Proof.
  intros timeout start deadline timeout_message Hp Hfuel Hnone Hclock Hlate Hcheck.
  unfold _tour_wait_for_and_click_element, retry_during_transitions.
  apply retry_call_rejected; [lia| |exact Hcheck].
  erewrite bind_Raise; [reflexivity|].
  unfold tour_wait_for_clickable_element. fold timeout timeout_message.
  rewrite (poll_until_timeout_in_round _ timeout timeout_message fuel h
    (λ j, start ++ clickable_polled sel j)
    (λ j, start ++ clickable_polled sel j ++ [SizzleClickable sel]) k Hp Hfuel).
  - rewrite <- !app_assoc. reflexivity.
  - simpl. rewrite app_nil_r. reflexivity.
  - intros j Hj. split; [|split; [exact (Hclock j Hj)|]].
    + unfold perform. rewrite (Hnone j ltac:(lia)), <- app_assoc. reflexivity.
    + simpl. rewrite <- !app_assoc. reflexivity.
  - unfold perform. rewrite (Hnone k ltac:(lia)), <- app_assoc. reflexivity.
  - exact Hlate.
Qed.
End TourWaitExtras.

(** * States that are falsy *)

Section FalsyStateExtras.
Context `{E : Env}.

End FalsyStateExtras.

(** * More concrete runs *)

Lemma Qle_0_half : (0 <= 1 # 2)%Q.
Proof. unfold Qle. simpl. lia. Qed.

Lemma retry_call_rejected_after_retries_witness :
  @retry_call_during_transitions pyvalue (@invoke vanishing_element_env "click") 10 (1 # 10)
    (@exception_seems_to_indicate_transition vanishing_element_env) 2%nat []
  = (Raise (WebDriverException "no such element"),
     [Invoke "click"; Sleep (1 # 10); Invoke "click"]).
Proof.
  apply (@retry_call_rejected_after_retries vanishing_element_env "click" 10 (1 # 10)
    (λ _, WebDriverException "stale element reference") 2%nat [] 1%nat
    (WebDriverException "no such element") Qle_0_tenth ltac:(lia) ltac:(lia)).
  - intros [|j] Hj; [split; reflexivity|lia].
  - reflexivity.
  - reflexivity.
Defined.

Lemma retry_call_negative_budget_witness :
  @retry_call_during_transitions pyvalue (@invoke stale_element_env "click") (-1) (1 # 10)
    (@exception_seems_to_indicate_transition stale_element_env) 1%nat []
  = (Raise (WebDriverException "stale element reference"), [Invoke "click"]).
Proof.
  apply (@retry_call_negative_budget stale_element_env "click" (-1) (1 # 10)
    (@exception_seems_to_indicate_transition stale_element_env) 1%nat []
    (WebDriverException "stale element reference")); [lia|lia|reflexivity].
Defined.

Lemma wait_for_and_click_locates_again_witness :
  @wait_for_and_click redrawn_button_env (galaxy 1) HistoryPanelRefreshButton 2%nat []
  = (Return (el_of "button-redrawn"),
     [WaitForClickable HistoryPanelRefreshButton; Click (el_of "button");
      Sleep RETRY_DURING_TRANSITIONS_SLEEP_DEFAULT;
      WaitForClickable HistoryPanelRefreshButton; Click (el_of "button-redrawn")]).
Proof.
  apply (@wait_for_and_click_locates_again redrawn_button_env (galaxy 1)
    HistoryPanelRefreshButton (el_of "button") (el_of "button-redrawn")
    (WebDriverException "stale element reference") 2%nat []);
    [lia|reflexivity|reflexivity|reflexivity|reflexivity|reflexivity].
Defined.

Lemma hid_to_history_item_first_match_witness :
  @hid_to_history_item (copies_env false) 7 (Some "f2db41e1fa331b3e") 1%nat []
  = (Return (dataset 7 "id-7"), [ApiGet "histories/f2db41e1fa331b3e/contents"])
  ∧ @hid_to_history_item (copies_env false) 9 (Some "f2db41e1fa331b3e") 1%nat []
    = (Raise (IndexError "list index out of range"),
       [ApiGet "histories/f2db41e1fa331b3e/contents"]).
Proof.
  split.
  - apply (proj1 (@hid_to_history_item_first_match (copies_env false) 7 "f2db41e1fa331b3e"
      1%nat [] contents_with_copy eq_refl) [dataset 3 "id-3"] (dataset 7 "id-7")
      [dataset 7 "id-7-copy"] eq_refl eq_refl).
    repeat constructor; simpl; lia.
  - apply (proj2 (@hid_to_history_item_first_match (copies_env false) 9 "f2db41e1fa331b3e"
      1%nat [] contents_with_copy eq_refl)).
    repeat constructor; simpl; lia.
Defined.

Lemma item_component_in_beta_history_witness :
  @history_panel_item_component (copies_env true) (galaxy 1)
    (Some (dataset 3 "id-3")) (Some 7) false 1%nat []
  = (Return (HistoryPanelContentItem [("hid", AttrInt 7)]), [IsBetaHistory])
  ∧ @history_panel_item_component (copies_env true) (galaxy 1)
      (Some (dataset 3 "id-3")) None false 1%nat []
    = (Raise (AssertionError EmptyString), [IsBetaHistory]).
Proof.
  split.
  - apply (proj1 (@item_component_in_beta_history (copies_env true) (galaxy 1)
      (Some (dataset 3 "id-3")) (Some 7) false 1%nat [] eq_refl) 7 eq_refl). lia.
  - apply (proj2 (@item_component_in_beta_history (copies_env true) (galaxy 1)
      (Some (dataset 3 "id-3")) None false 1%nat [] eq_refl)). left. reflexivity.
Defined.

Lemma item_component_in_classic_history_witness :
  @history_panel_item_component (copies_env false) (galaxy 1)
    (Some (dataset 3 "id-3")) (Some 7) true 1%nat []
  = (Return (MultiHistoryViewItem "dataset" "id-3"), [IsBetaHistory])
  ∧ @history_panel_item_component (copies_env false) (galaxy 1) None (Some 7) false 1%nat []
    = (Return (HistoryPanelItem "dataset" "id-7"),
       [IsBetaHistory; CurrentHistoryJson; ApiGet "histories/f2db41e1fa331b3e/contents"]).
Proof.
  split.
  - apply (proj1 (@item_component_in_classic_history (copies_env false) (galaxy 1) true
      1%nat [] eq_refl) (dataset 3 "id-3") (Some 7)).
  - apply (proj2 (@item_component_in_classic_history (copies_env false) (galaxy 1) false
      1%nat [] eq_refl) 7 "f2db41e1fa331b3e" [dataset 3 "id-3"] (dataset 7 "id-7")
      [dataset 7 "id-7-copy"] ltac:(lia) eq_refl eq_refl eq_refl).
    repeat constructor; simpl; lia.
Defined.

Lemma hid_visible_timeout_lists_visible_items_witness :
  @history_panel_wait_for_hid_visible stuck_env (galaxy 1) 7 0 false 1%nat []
  = (Raise (TimeoutException
       ("Failed waiting on history item 7 to become visible, visible datasets include "
        +:+ "[#dataset-7].Timeout waiting on history item.")),
     [CurrentHistoryJson;
      NewWait (float_of_Z 30); ReadClock; ApiGet "histories/f2db41e1fa331b3e/contents";
      ApiGet "histories/f2db41e1fa331b3e/contents";
      IsBetaHistory;
      WaitForVisible (HistoryPanelItem "dataset" "id-before-refresh") WAIT_TYPES.JOB_COMPLETION;
      FindElements HistoryPanelContents; GetAttribute (el_of "dataset-7") "id"]).
Proof.
  apply (@hid_visible_timeout_lists_visible_items stuck_env (galaxy 1) 7 0 false 1%nat []
    [CurrentHistoryJson;
     NewWait (float_of_Z 30); ReadClock; ApiGet "histories/f2db41e1fa331b3e/contents";
     ApiGet "histories/f2db41e1fa331b3e/contents";
     IsBetaHistory]
    [CurrentHistoryJson;
     NewWait (float_of_Z 30); ReadClock; ApiGet "histories/f2db41e1fa331b3e/contents";
     ApiGet "histories/f2db41e1fa331b3e/contents";
     IsBetaHistory;
     WaitForVisible (HistoryPanelItem "dataset" "id-before-refresh") WAIT_TYPES.JOB_COMPLETION]
    (HistoryPanelItem "dataset" "id-before-refresh") "Timeout waiting on history item."
    [el_of "dataset-7"] element_ref).
  - vm_compute. reflexivity.
  - vm_compute. reflexivity.
  - reflexivity.
  - intros h' el. reflexivity.
Defined.

Lemma hid_visible_returns_polled_selector_witness :
  @history_panel_wait_for_hid_visible (copies_env false) (galaxy 1) 7 0 false 1%nat []
  = (Return (HistoryPanelItem "dataset" "id-7"),
     [CurrentHistoryJson;
      NewWait (float_of_Z 30); ReadClock; ApiGet "histories/f2db41e1fa331b3e/contents";
      ApiGet "histories/f2db41e1fa331b3e/contents";
      IsBetaHistory;
      WaitForVisible (HistoryPanelItem "dataset" "id-7") WAIT_TYPES.JOB_COMPLETION])
  ∧ @history_panel_wait_for_hid_visible crashed_env (galaxy 1) 7 0 false 1%nat []
    = (Raise (WebDriverException "chrome not reachable"),
       [CurrentHistoryJson;
        NewWait (float_of_Z 30); ReadClock; ApiGet "histories/f2db41e1fa331b3e/contents";
        ApiGet "histories/f2db41e1fa331b3e/contents";
        IsBetaHistory;
        WaitForVisible (HistoryPanelItem "dataset" "id-7") WAIT_TYPES.JOB_COMPLETION]).
Proof.
  split.
  - apply (proj1 (@hid_visible_returns_polled_selector (copies_env false) (galaxy 1) 7 0 false
      1%nat []
      [CurrentHistoryJson;
       NewWait (float_of_Z 30); ReadClock; ApiGet "histories/f2db41e1fa331b3e/contents";
       ApiGet "histories/f2db41e1fa331b3e/contents";
       IsBetaHistory]
      [CurrentHistoryJson;
       NewWait (float_of_Z 30); ReadClock; ApiGet "histories/f2db41e1fa331b3e/contents";
       ApiGet "histories/f2db41e1fa331b3e/contents";
       IsBetaHistory;
       WaitForVisible (HistoryPanelItem "dataset" "id-7") WAIT_TYPES.JOB_COMPLETION]
      (HistoryPanelItem "dataset" "id-7") ltac:(vm_compute; reflexivity))
      (el_of "dataset-7")).
    vm_compute. reflexivity.
  - apply (proj2 (@hid_visible_returns_polled_selector crashed_env (galaxy 1) 7 0 false
      1%nat []
      [CurrentHistoryJson;
       NewWait (float_of_Z 30); ReadClock; ApiGet "histories/f2db41e1fa331b3e/contents";
       ApiGet "histories/f2db41e1fa331b3e/contents";
       IsBetaHistory]
      [CurrentHistoryJson;
       NewWait (float_of_Z 30); ReadClock; ApiGet "histories/f2db41e1fa331b3e/contents";
       ApiGet "histories/f2db41e1fa331b3e/contents";
       IsBetaHistory;
       WaitForVisible (HistoryPanelItem "dataset" "id-7") WAIT_TYPES.JOB_COMPLETION]
      (HistoryPanelItem "dataset" "id-7") ltac:(vm_compute; reflexivity))
      (WebDriverException "chrome not reachable")).
    + vm_compute. reflexivity.
    + reflexivity.
Defined.

Lemma history_item_wait_for_other_errors_witness :
  @history_item_wait_for crashed_env (galaxy 1) (HistoryPanelItem "dataset" "id-7") 3 1%nat []
  = (Raise (WebDriverException "chrome not reachable"),
     [WaitForVisible (HistoryPanelItem "dataset" "id-7") WAIT_TYPES.JOB_COMPLETION])
  ∧ @history_item_wait_for no_refresh_button_env (galaxy 1)
      (HistoryPanelItem "dataset" "id-7") 3 1%nat []
    = (Raise (WebDriverException "no such element"),
       [WaitForVisible (HistoryPanelItem "dataset" "id-7") WAIT_TYPES.JOB_COMPLETION;
        WaitForClickable HistoryPanelRefreshButton]).
Proof.
  split.
  - apply (proj1 (@history_item_wait_for_other_errors crashed_env (galaxy 1)
      (HistoryPanelItem "dataset" "id-7") 3 1%nat [] ltac:(lia))
      (WebDriverException "chrome not reachable")); reflexivity.
  - apply (proj2 (@history_item_wait_for_other_errors no_refresh_button_env (galaxy 1)
      (HistoryPanelItem "dataset" "id-7") 3 1%nat [] ltac:(lia))
      "Timeout waiting on history item." (WebDriverException "no such element"));
      [lia|reflexivity|reflexivity|reflexivity].
Defined.

Lemma wait_for_history_to_have_hid_outcomes_witness :
  @wait_for_history_to_have_hid late_item_env (galaxy 1) "f2db41e1fa331b3e" 7 2%nat []
  = (Return tt,
     [NewWait (float_of_Z 30); ReadClock;
      ApiGet "histories/f2db41e1fa331b3e/contents"; ReadClock; Sleep (1 # 2);
      ApiGet "histories/f2db41e1fa331b3e/contents"])
  ∧ @wait_for_history_to_have_hid slow_api_env (galaxy 1) "f2db41e1fa331b3e" 7 1%nat []
    = (Raise (TimeoutException
         "Timeout waiting for history f2db41e1fa331b3e to have hid 7 - have hids [3]"),
       [NewWait (float_of_Z 30); ReadClock; ApiGet "histories/f2db41e1fa331b3e/contents"; ReadClock;
        ApiGet "histories/f2db41e1fa331b3e/contents"]).
Proof.
  split.
  - apply (proj1 (@wait_for_history_to_have_hid_outcomes late_item_env (galaxy 1)
      "f2db41e1fa331b3e" 7 2%nat []
      (λ j, match j with O => [dataset 3 "id-3"] | S _ => contents_with_copy end) 1%nat
      Qle_0_half ltac:(lia)
      ltac:(intros [|[|j]] Hj; [reflexivity|reflexivity|lia])
      ltac:(intros [|j] Hj; [split; [simpl; by_decision|vm_compute; reflexivity]|lia]))).
    simpl. by_decision.
  - apply (proj2 (@wait_for_history_to_have_hid_outcomes slow_api_env (galaxy 1)
      "f2db41e1fa331b3e" 7 1%nat [] (λ _, [dataset 3 "id-3"]) 0%nat
      Qle_0_half ltac:(lia) ltac:(intros j Hj; reflexivity) ltac:(intros j Hj; lia))
      [dataset 3 "id-3"]).
    + simpl. by_decision.
    + vm_compute. reflexivity.
    + reflexivity.
Defined.

Lemma run_tour_stops_at_failing_step_witness :
  @run_tour (plain_env [step_upload; step_broken; step_close]) (galaxy 1) "tour.yaml" []
    ∅ None 1%nat []
  = (Raise (UnboundLocalError "element"),
     [Home; LoadTour "tour.yaml";
      NewWait (float_of_Z 30); ReadClock; SizzleClickable "#tool-panel-upload-button";
      Click (el_of "#tool-panel-upload-button");
      NewWait (float_of_Z 30); ReadClock; SizzlePresent ".upload-box";
      SendKeys (el_of ".upload-box") "1 2 3";
      NewWait (float_of_Z 30); ReadClock; SizzleClickable "#btn-start"; Click (el_of "#btn-start");
      NewWait (float_of_Z 30); ReadClock; SizzleClickable "#btn-close"; Click (el_of "#btn-close")]).
Proof.
  apply (@run_tour_stops_at_failing_step (plain_env [step_upload; step_broken; step_close])
    (galaxy 1) "tour.yaml" [] ∅ None [step_upload] [step_close] step_broken
    (UnboundLocalError "element") 1%nat []
    [Home; LoadTour "tour.yaml";
     NewWait (float_of_Z 30); ReadClock; SizzleClickable "#tool-panel-upload-button";
     Click (el_of "#tool-panel-upload-button");
     NewWait (float_of_Z 30); ReadClock; SizzlePresent ".upload-box";
     SendKeys (el_of ".upload-box") "1 2 3";
     NewWait (float_of_Z 30); ReadClock; SizzleClickable "#btn-start"; Click (el_of "#btn-start")]).
  - reflexivity.
  - reflexivity.
  - vm_compute. reflexivity.
  - vm_compute. reflexivity.
Defined.

Lemma tour_steps_have_elements (st : step) :
  st ∈ [step_upload; step_wait; step_close] →
  is_Some (textinsert st) → is_Some (element st).
Proof.
  intros Hst Htext.
  repeat (apply elem_of_cons in Hst as [->|Hst]; [try (eexists; reflexivity)|]).
  - destruct Htext as [x Hx]. discriminate Hx.
  - inversion Hst.
Qed.

Lemma run_tour_calls_back_with_positions_witness :
  @run_tour (plain_env [step_upload; step_wait; step_close]) (galaxy 1) "tour.yaml" ["Upload"]
    {["Wait" := 5%Q]}
    (Some (@external_callback (plain_env [step_upload; step_wait; step_close]))) 1%nat []
  = (Return tt,
     [Home; LoadTour "tour.yaml";
      Sleep 5;
      NewWait (float_of_Z 30); ReadClock; SizzlePresent "#current-history-panel";
      HandleStep step_wait 1;
      NewWait (float_of_Z 30); ReadClock; SizzleClickable "#btn-close"; Click (el_of "#btn-close");
      HandleStep step_close 2])
  ∧ handled
      [Home; LoadTour "tour.yaml";
       Sleep 5;
       NewWait (float_of_Z 30); ReadClock; SizzlePresent "#current-history-panel";
       HandleStep step_wait 1;
       NewWait (float_of_Z 30); ReadClock; SizzleClickable "#btn-close"; Click (el_of "#btn-close");
       HandleStep step_close 2]
    = [(step_wait, 1%nat); (step_close, 2%nat)].
Proof.
  destruct (@run_tour_calls_back_with_positions
    (plain_env [step_upload; step_wait; step_close])
    (galaxy 1) "tour.yaml" ["Upload"] {["Wait" := 5%Q]} el_of
    [step_upload; step_wait; step_close] 1%nat []) as [Hrun Hhandled].
  - apply plain_env_cooperative.
  - reflexivity.
  - intros st Hst _. apply tour_steps_have_elements. exact Hst.
  - exact sleep_on_Wait_nonneg.
  - lia.
  - split; [rewrite Hrun; vm_compute; reflexivity|].
    vm_compute in Hhandled |- *. exact Hhandled.
Defined.

Lemma run_tour_step_callback_error_skips_postclicks_witness :
  @run_tour_step (plain_env [step_upload]) (galaxy 1) step_upload 0%nat failing_callback
    1%nat []
  = (Raise (AssertionError "unexpected tour step"),
     [NewWait (float_of_Z 30); ReadClock; SizzleClickable "#tool-panel-upload-button";
      Click (el_of "#tool-panel-upload-button");
      NewWait (float_of_Z 30); ReadClock; SizzlePresent ".upload-box";
      SendKeys (el_of ".upload-box") "1 2 3"]).
Proof.
  apply (@run_tour_step_callback_error_skips_postclicks (plain_env [step_upload]) (galaxy 1)
    el_of step_upload 0%nat failing_callback (AssertionError "unexpected tour step") 1%nat []).
  - apply plain_env_cooperative.
  - lia.
  - intros _. eexists. reflexivity.
  - reflexivity.
Defined.

Lemma current_state_from_class_attribute_witness :
  current_state_of_classes (split_on " " "history-content dataset state-running selected")
  = "running"
  ∧ current_state_of_classes (split_on " " "history-content dataset") = "UNKNOWN".
Proof.
  split.
  - apply (proj1 current_state_from_class_attribute ["history-content"; "dataset"] "running"
      ["selected"]); repeat constructor.
  - apply (proj2 current_state_from_class_attribute ["history-content"; "dataset"]);
      repeat constructor.
Defined.

Lemma hid_state_wait_outcomes_witness :
  @history_panel_wait_for_hid_state (copies_env true) example_with_data
    (galaxy 1) 7 "ok" 0 false 1%nat []
  = (Return (HistoryPanelContentItem [("hid", AttrInt 7); ("state", AttrStr "ok")]),
     [CurrentHistoryJson;
      NewWait (float_of_Z 30); ReadClock; ApiGet "histories/f2db41e1fa331b3e/contents";
      ApiGet "histories/f2db41e1fa331b3e/contents";
      IsBetaHistory;
      WaitForVisible (HistoryPanelContentItem [("hid", AttrInt 7)]) WAIT_TYPES.JOB_COMPLETION;
      IsBetaHistory;
      WaitForVisible (HistoryPanelContentItem [("hid", AttrInt 7); ("state", AttrStr "ok")])
        WAIT_TYPES.JOB_COMPLETION])
  ∧ @history_panel_wait_for_hid_state running_job_env example_with_data
      (galaxy 1) 7 "ok" 0 false 1%nat []
    = (Raise (TimeoutException
         ("Failed waiting on history item 7 state to change to [ok] current state [running]. "
          +:+ "Timeout waiting on history item.")),
       [CurrentHistoryJson;
        NewWait (float_of_Z 30); ReadClock; ApiGet "histories/f2db41e1fa331b3e/contents";
        ApiGet "histories/f2db41e1fa331b3e/contents";
        IsBetaHistory;
        WaitForVisible (HistoryPanelItem "dataset" "id-7") WAIT_TYPES.JOB_COMPLETION;
        IsBetaHistory;
        WaitForVisible
          (HistoryPanelContentItem
             [("history_content_type", AttrStr "dataset"); ("id", AttrStr "id-7");
              ("state", AttrStr "ok")])
          WAIT_TYPES.JOB_COMPLETION;
        WaitForVisible (HistoryPanelItem "dataset" "id-7") DEFAULT_WAIT_TYPE;
        GetAttribute (el_of "dataset-7") "class"]).
Proof.
  split.
  - apply (proj1 (@hid_state_wait_outcomes (copies_env true) example_with_data
      (galaxy 1) 7 "ok" 0 false 1%nat []
      [CurrentHistoryJson;
       NewWait (float_of_Z 30); ReadClock; ApiGet "histories/f2db41e1fa331b3e/contents";
       ApiGet "histories/f2db41e1fa331b3e/contents";
       IsBetaHistory;
       WaitForVisible (HistoryPanelContentItem [("hid", AttrInt 7)]) WAIT_TYPES.JOB_COMPLETION]
      [CurrentHistoryJson;
       NewWait (float_of_Z 30); ReadClock; ApiGet "histories/f2db41e1fa331b3e/contents";
       ApiGet "histories/f2db41e1fa331b3e/contents";
       IsBetaHistory;
       WaitForVisible (HistoryPanelContentItem [("hid", AttrInt 7)]) WAIT_TYPES.JOB_COMPLETION;
       IsBetaHistory;
       WaitForVisible (HistoryPanelContentItem [("hid", AttrInt 7); ("state", AttrStr "ok")])
         WAIT_TYPES.JOB_COMPLETION]
      (HistoryPanelContentItem [("hid", AttrInt 7)]) true
      ltac:(vm_compute; reflexivity) eq_refl) (el_of "dataset-7")).
    vm_compute. reflexivity.
  - apply (proj2 (@hid_state_wait_outcomes running_job_env example_with_data
      (galaxy 1) 7 "ok" 0 false 1%nat []
      [CurrentHistoryJson;
       NewWait (float_of_Z 30); ReadClock; ApiGet "histories/f2db41e1fa331b3e/contents";
       ApiGet "histories/f2db41e1fa331b3e/contents";
       IsBetaHistory;
       WaitForVisible (HistoryPanelItem "dataset" "id-7") WAIT_TYPES.JOB_COMPLETION]
      [CurrentHistoryJson;
       NewWait (float_of_Z 30); ReadClock; ApiGet "histories/f2db41e1fa331b3e/contents";
       ApiGet "histories/f2db41e1fa331b3e/contents";
       IsBetaHistory;
       WaitForVisible (HistoryPanelItem "dataset" "id-7") WAIT_TYPES.JOB_COMPLETION;
       IsBetaHistory;
       WaitForVisible
         (HistoryPanelContentItem
            [("history_content_type", AttrStr "dataset"); ("id", AttrStr "id-7");
             ("state", AttrStr "ok")])
         WAIT_TYPES.JOB_COMPLETION]
      (HistoryPanelItem "dataset" "id-7") false
      ltac:(vm_compute; reflexivity) eq_refl)
      "Timeout waiting on history item." (el_of "dataset-7")
      "history-content dataset state-running selected").
    + vm_compute. reflexivity.
    + reflexivity.
    + reflexivity.
Defined.

Lemma hid_hidden_wait_outcomes_witness :
  @history_panel_wait_for_hid_hidden (copies_env false) example_wait_for_absent_or_hidden
    (galaxy 1) 7 false 1%nat []
  = (Return (HistoryPanelItem "dataset" "id-7"),
     [CurrentHistoryJson; ApiGet "histories/f2db41e1fa331b3e/contents"; IsBetaHistory])
  ∧ @history_panel_wait_for_hid_hidden (copies_env true) example_wait_for_absent_or_hidden
      (galaxy 1) 7 false 1%nat []
    = (Raise (AssertionError EmptyString),
       [CurrentHistoryJson; ApiGet "histories/f2db41e1fa331b3e/contents"; IsBetaHistory]).
Proof.
  split.
  - apply (@hid_hidden_wait_outcomes (copies_env false) example_wait_for_absent_or_hidden
      (galaxy 1) 7 false 1%nat [] "f2db41e1fa331b3e" [dataset 3 "id-3"]
      [dataset 7 "id-7-copy"] (dataset 7 "id-7") false eq_refl eq_refl eq_refl).
    + repeat constructor; simpl; lia.
    + reflexivity.
  - apply (@hid_hidden_wait_outcomes (copies_env true) example_wait_for_absent_or_hidden
      (galaxy 1) 7 false 1%nat [] "f2db41e1fa331b3e" [dataset 3 "id-3"]
      [dataset 7 "id-7-copy"] (dataset 7 "id-7") true eq_refl eq_refl eq_refl).
    + repeat constructor; simpl; lia.
    + reflexivity.
Defined.

Lemma click_visualization_first_match_witness :
  @history_panel_item_click_visualization (copies_env false) example_visualizations
    example_element_text (galaxy 1) 7 "Scatterplot" 1%nat []
  = (Return (el_of "Scatterplot"), [Click (el_of "Scatterplot")])
  ∧ @history_panel_item_click_visualization (copies_env false) example_visualizations
      example_element_text (galaxy 1) 7 "Heatmap" 1%nat []
    = (Raise (ValueError "No visualization [Heatmap] found."), []).
Proof.
  split.
  - apply (proj1 (@click_visualization_first_match (copies_env false) example_visualizations
      example_element_text (galaxy 1) 7 "Scatterplot" element_ref
      [el_of "Charts"; el_of "Scatterplot"; el_of "Charts"] 1%nat [] [] eq_refl
      ltac:(intros el h'; reflexivity))
      [el_of "Charts"] (el_of "Scatterplot") [el_of "Charts"] eq_refl eq_refl);
      [|reflexivity].
    repeat constructor; simpl; discriminate.
  - apply (proj2 (@click_visualization_first_match (copies_env false) example_visualizations
      example_element_text (galaxy 1) 7 "Heatmap" element_ref
      [el_of "Charts"; el_of "Scatterplot"; el_of "Charts"] 1%nat [] [] eq_refl
      ltac:(intros el h'; reflexivity))).
    repeat constructor; simpl; discriminate.
Defined.

Lemma requests_cookies_carry_first_session_witness :
  selenium_to_requests_cookies example_cookies 1%nat []
  = (Return {[ "galaxysession" := Some "c6ca0ddb55be603a" ]}, [])
  ∧ selenium_to_requests_cookies anonymous_cookies 1%nat []
    = (Return {[ "galaxysession" := None ]}, []).
Proof.
  split.
  - apply (proj1 (requests_cookies_carry_first_session example_cookies _ 1%nat [] [] eq_refl)
      [{| cookie_name := "_ga"; cookie_value := "GA1.2" |}]
      {| cookie_name := "galaxysession"; cookie_value := "c6ca0ddb55be603a" |}
      [{| cookie_name := "galaxysession"; cookie_value := "stale" |}] eq_refl eq_refl).
    repeat constructor; simpl; discriminate.
  - apply (proj2 (requests_cookies_carry_first_session anonymous_cookies _ 1%nat [] [] eq_refl)).
    repeat constructor; simpl; discriminate.
Defined.

Lemma file_path_of_source_path_witness :
  file_path_of "crypt4gh://sftp.example.org/archive/2021/sample.c4gh"
  = Return "archive/2021/sample.c4gh"
  ∧ file_path_of "crypt4gh://sftp.example.org"
    = Raise (IndexError "list index out of range").
Proof.
  split.
  - apply (proj1 (file_path_of_source_path "crypt4gh") "sftp.example.org"
      "archive/2021/sample.c4gh"); reflexivity.
  - apply (proj2 (file_path_of_source_path "crypt4gh") "sftp.example.org"); reflexivity.
Defined.

Lemma tour_click_times_out_witness :
  @_tour_wait_for_and_click_element frozen_page_env (galaxy 1) "#btn-start" 3%nat []
  = (Raise (TimeoutException
       "Timeout waiting on sizzle (jQuery) selector [#btn-start] to become clickable."),
     [NewWait (float_of_Z 30); ReadClock;
      SizzleClickable "#btn-start"; ReadClock; Sleep (1 # 2);
      SizzleClickable "#btn-start"; ReadClock; Sleep (1 # 2);
      SizzleClickable "#btn-start"; ReadClock]).
Proof.
  apply (@tour_click_times_out frozen_page_env (galaxy 1) "#btn-start" 3%nat [] 2%nat
    Qle_0_half ltac:(lia)).
  - intros j Hj. reflexivity.
  - intros [|[|j]] Hj; [vm_compute; reflexivity|vm_compute; reflexivity|lia].
  - vm_compute. reflexivity.
  - reflexivity.
Defined.

